(** * cbpatch: a patch store of checksummed shards behind a master index

    A shallow embedding of the Go package [cbpatch] (master.go, the bucket
    and categories files, the patch value type and the collaborator
    interfaces), followed by the properties of its replay, wastage, append,
    integrity, publish and cleanup operations.

    Conventions of the embedding.
    - Go's [int] and [int64] are 64-bit two's complement: values live in [Z]
      and every arithmetic result that can leave the range goes through
      [wrap64].  Slice indices and lengths are [nat].
    - A local file is its byte content.  Every use of a bucket file in the
      source seeks before it reads or writes, so no offset is kept for the
      two files of a bucket.  The master file and the two files of the
      categories are also written without a seek (by the downloads and by
      the CSV writers), so for them the offset of the handle is part of the
      state: [Seek] sets it, a read to the end of the file leaves it there,
      and a write replaces the bytes at the offset and moves it behind
      them.  Operations of the local file system on an open handle (seek,
      truncate, read, write) succeed: their error returns, which the source
      only propagates, are not represented.
    - The storage backend, the digest, the codec, the CSV reader and writer,
      the clock and the row validator are collaborators: they are taken
      through the classes [Env] and [Storage] and the [Validation] argument.
    - [ErrorHandler.Error] and the [Logger] calls only report; they are left
      out. *)

From Stdlib Require Import ZArith Floats Uint63 Ascii String.
From stdpp Require Import base option list gmap strings pretty.

Open Scope Z_scope.

(* ================================================================== *)
(** ** Bytes, errors and results *)

(** File contents and object contents are byte strings. *)
Abbreviation bytes := string (only parsing).

(** The errors the package creates or passes on. *)
Inductive error : Type :=
| ErrObjectNotExist                          (* storage.ErrObjectNotExist *)
| ErrMessage (msg : string)                  (* any other collaborator error *)
| ErrSyntax (fn num : string)                (* strconv.NumError, ErrSyntax *)
| ErrRange (fn num : string)                 (* strconv.NumError, ErrRange *)
| ErrInvalidZippedChecksum (remote : string)
| ErrInvalidUnzippedChecksum (remote : string)
| ErrShortRow (remote : string)
| ErrCategoriesRow (remote : string).

(** [e.Error()] *)
Definition Error (e : error) : string :=
  match e with
  | ErrObjectNotExist => "storage: object doesn't exist"
  | ErrMessage msg => msg
  | ErrSyntax fn num =>
      "strconv." +:+ fn +:+ ": parsing " +:+ num +:+ ": invalid syntax"
  | ErrRange fn num =>
      "strconv." +:+ fn +:+ ": parsing " +:+ num +:+ ": value out of range"
  | ErrInvalidZippedChecksum r => "invalid zipped checksum for " +:+ r
  | ErrInvalidUnzippedChecksum r => "invalid unzipped checksum for " +:+ r
  | ErrShortRow r => "bucket contained a row with less than 2 elements: " +:+ r
  | ErrCategoriesRow r =>
      "categories contained a row which was not 4 columns: " +:+ r
  end.

(** [errors.Is(e, storage.ErrObjectNotExist)] *)
Definition is_ErrObjectNotExist (e : error) : bool :=
  match e with ErrObjectNotExist => true | _ => false end.

(** [strings.Contains] *)
Definition Contains (s substr : string) : bool :=
  match String.index 0 substr s with Some _ => true | None => false end.

(** [strings.Join(parts, "/")] *)
Definition joinPath (parts : list string) : string := String.concat "/" parts.

(** What a call comes to: a value, an error, or no return at all (a read
    loop whose reader never reports the end of its input). *)
Inductive result (A : Type) : Type :=
| Ok (a : A)
| Err (e : error)
| Hang.
Arguments Ok {A} a.
Arguments Err {A} e.
Arguments Hang {A}.

Definition is_Ok {A} (r : result A) : bool :=
  match r with Ok _ => true | _ => false end.

(* ================================================================== *)
(** ** Local files *)

(** [content] without its first [n] bytes. *)
Fixpoint skip (n : nat) (content : bytes) : bytes :=
  match n, content with
  | S n', String _ rest => skip n' rest
  | _, _ => content
  end.

(** [data] put at the offset [pos] of [content]: the bytes before the
    offset stay (a gap behind the end of the content is filled with zero
    bytes), [data] replaces what was at the offset and extends the content
    where it reaches over its end, and what lies behind [data] stays. *)
Fixpoint put_at (pos : nat) (content data : bytes) : bytes :=
  match pos with
  | O => data +:+ skip (String.length data) content
  | S pos' =>
      match content with
      | String c rest => String c (put_at pos' rest data)
      | EmptyString => String "000"%char (put_at pos' EmptyString data)
      end
  end.

(** What a file that holds [content] holds after the bytes [data] were
    written through a handle at the offset [pos]; nothing is written, and
    the file stays as it is, when there are no bytes to write. *)
Definition write_at (pos : nat) (content data : bytes) : bytes :=
  match data with
  | EmptyString => content
  | _ => put_at pos content data
  end.

(* ================================================================== *)
(** ** Machine integers, strconv and float64 *)

Definition maxInt64 : Z := 2 ^ 63 - 1.
Definition minInt64 : Z := - 2 ^ 63.

(** Two's complement wrap-around of a 64-bit signed result. *)
Definition wrap64 (z : Z) : Z := (z + 2 ^ 63) mod 2 ^ 64 - 2 ^ 63.

(** [strconv.Itoa], [strconv.FormatInt(_, 10)] *)
Definition Itoa (z : Z) : string := pretty z.
Definition FormatInt (z : Z) : string := pretty z.

Definition digit_of (c : ascii) : option Z :=
  let n := Z.of_nat (nat_of_ascii c) in
  if (48 <=? n) && (n <=? 57) then Some (n - 48) else None.

(** The digit loop of [strconv.ParseUint(s, 10, 64)]: [inl] is the value,
    [inr true] a range error (met before any later bad character is looked
    at), [inr false] a syntax error. *)
Fixpoint ParseUint_loop (s : string) (n : Z) : Z + bool :=
  match s with
  | EmptyString => inl n
  | String c rest =>
      match digit_of c with
      | None => inr false
      | Some d =>
          if (2 ^ 64 - 1) / 10 + 1 <=? n then inr true
          else if 2 ^ 64 - 1 <? n * 10 + d then inr true
          else ParseUint_loop rest (n * 10 + d)
      end
  end.

(** [strconv.ParseInt(s, 10, 64)]: the value and the error.  A syntax error
    comes with 0, a range error with the nearest bound. *)
Definition ParseInt_as (fn : string) (s : string) : Z * option error :=
  match s with
  | EmptyString => (0, Some (ErrSyntax fn s))
  | String c rest =>
      let neg := bool_decide (c = "-"%char) in
      let body := if bool_decide (c = "+"%char) || neg then rest else s in
      match body with
      | EmptyString => (0, Some (ErrSyntax fn s))
      | _ =>
          match ParseUint_loop body 0 with
          | inr false => (0, Some (ErrSyntax fn s))
          | inr true =>
              (if neg then minInt64 else maxInt64, Some (ErrRange fn s))
          | inl un =>
              if negb neg && (2 ^ 63 <=? un) then
                (maxInt64, Some (ErrRange fn s))
              else if neg && (2 ^ 63 <? un) then
                (minInt64, Some (ErrRange fn s))
              else (if neg then - un else un, None)
          end
      end
  end.

Definition ParseInt : string -> Z * option error := ParseInt_as "ParseInt".

(** [strconv.Atoi]: on a 64-bit platform its fast path and its call of
    [ParseInt(s, 10, 0)] agree on value and error kind. *)
Definition Atoi : string -> Z * option error := ParseInt_as "Atoi".

(** [float64(n)] for an [int]. *)
Definition float64_of_int (z : Z) : float :=
  if 0 <=? z then PrimFloat.of_uint63 (Uint63.of_Z z)
  else PrimFloat.opp (PrimFloat.of_uint63 (Uint63.of_Z (- z))).

(** [int(f)] for a [float64]: the fraction is discarded.  NaN, the
    infinities and values outside the 64-bit range have no defined result
    in Go ([None]). *)
Definition int_of_float64 (f : float) : option Z :=
  match Prim2SF f with
  | S754_zero _ => Some 0
  | S754_finite s m e =>
      let mag := match e with
                 | Zneg p => Z.shiftr (Zpos m) (Zpos p)
                 | _ => Z.shiftl (Zpos m) e
                 end in
      let v := if s then - mag else mag in
      if (minInt64 <=? v) && (v <=? maxInt64) then Some v else None
  | _ => None
  end.

(* ================================================================== *)
(** ** Time *)

(** A [time.Time] as nanoseconds since the Unix epoch. *)
Abbreviation Time := Z (only parsing).

Definition Hour : Z := 3600 * 1000000000.
Definition Unix (t : Time) : Z := t / 1000000000.
Definition Before (t u : Time) : bool := t <? u.

(* ================================================================== *)
(** ** Collaborators *)

(** What reading a zlib stream comes to: [zlib.NewReader] refuses the
    header, or the reader yields [out] and then either reports [io.EOF]
    ([None]) or fails with an error that it keeps returning. *)
Inductive inflated : Type :=
| BadHeader (e : error)
| Stream (out : bytes) (tail : option error).

(** Library functions and the local environment.
    - [md5_hex c]: the lowercase hex MD5 digest of [c].
    - [zlib_compress], [zlib_inflate]: compress/zlib.
    - [csv_records c]: the records that successive [Read] calls of a
      [csv.Reader] over [c] return before [io.EOF]; the source looks at no
      other error of [Read], so a record returned along with a parse error
      is a record like any other.
    - [csv_failed_read]: the record [Read] returns once the underlying
      reader fails with an error other than [io.EOF].
    - [csv_encode row]: what [csv.Writer.Write] followed by [Flush] writes.
    - [zlib_offset c], [csv_offset c n]: the readers are buffered and read
      ahead of what they return.  [zlib_offset c] is the offset of a file
      that holds [c], read from its start by a [zlib.Reader], when
      [NewReader] refuses the header or when [io.Copy] from the reader
      returns; [csv_offset c n] is the offset of such a file when the
      [n]-th [Read] of a [csv.Reader] over it returns a record.  (When
      [Read] reports [io.EOF] the file has been read to its end.)
    - [open_local dir name]: the content found when [dir/name] is opened
      with [O_RDWR|O_CREATE] (empty for a file that did not exist).
    - [http_get url]: [http.Get], with the body as [io.Copy] reads it.
    - [DateTimeFormat t]: [t.Format(cbutil.DateTimeFormat)]. *)
Class Env : Type := {
  md5_hex : bytes -> string;
  zlib_compress : bytes -> bytes;
  zlib_inflate : bytes -> inflated;
  csv_records : bytes -> list (list string);
  csv_failed_read : list string;
  csv_encode : list string -> bytes;
  zlib_offset : bytes -> nat;
  csv_offset : bytes -> nat -> nat;
  open_local : string -> string -> bytes;
  http_get : string -> error + bytes;
  DateTimeFormat : Time -> string
}.

(** [storage.ObjectAttrs], the two fields the package reads. *)
Record ObjectAttrs : Type := { Name : string; Created : Time }.

(** The [Storage] interface.  [DownloadWriter] gives the bytes it wrote into
    the writer and the error it returned; [GetUploadWriter] gives the error
    of opening the writer and [WriterCopyClose] that of copying a content
    into it and closing it, with [WriterCopied] the number of bytes that
    [io.Copy] had read from the file when one of the two failed;
    [GetDownloadReader] gives the bytes [io.Copy] reads from the reader. *)
Class Storage : Type := {
  DownloadWriter : string -> string -> bytes * option error;
  GetUploadWriter : string -> string -> option error;
  WriterCopyClose : string -> string -> bytes -> option error;
  WriterCopied : string -> string -> bytes -> nat;
  MakePublic : string -> string -> option error;
  GetDownloadReader : string -> string -> error + bytes;
  Ls : string -> string -> error + list ObjectAttrs;
  Delete : string -> string -> option error
}.

(** The changes a call made to the remote store, in order. *)
Inductive StorageOp : Type :=
| OpPut (bucket name : string) (content : bytes)
| OpMakePublic (bucket name : string)
| OpDelete (bucket name : string).

(** The working directory, as the local sweep uses it: [Glob pattern] is
    [filepath.Glob] and [Remove path] is [os.Remove]. *)
Class LocalFiles : Type := {
  Glob : string -> error + list string;
  Remove : string -> option error
}.

(* ================================================================== *)
(** ** Stateful, fallible code *)

(** A method on a receiver of type [S]: from the receiver's state to the
    outcome, the state it leaves (mutations made before an error stay) and
    the remote changes it made. *)
Definition M (S A : Type) : Type := S -> result A * S * list StorageOp.

Definition ret {S A} (a : A) : M S A := fun s => (Ok a, s, []).
Definition fail {S A} (e : error) : M S A := fun s => (Err e, s, []).
Definition hang {S A} : M S A := fun s => (Hang, s, []).
Definition bind {S A B} (m : M S A) (k : A -> M S B) : M S B :=
  fun s =>
    match m s with
    | (Ok a, s1, l1) => let '(r, s2, l2) := k a s1 in (r, s2, l1 ++ l2)
    | (Err e, s1, l1) => (Err e, s1, l1)
    | (Hang, s1, l1) => (Hang, s1, l1)
    end.
Definition get {S} : M S S := fun s => (Ok s, s, []).
Definition modify {S} (f : S -> S) : M S unit := fun s => (Ok tt, f s, []).
Definition emit {S} (op : StorageOp) : M S unit := fun s => (Ok tt, s, [op]).

(** [if e != nil { return e }] *)
Definition check {S} (e : option error) : M S unit :=
  match e with Some e => fail e | None => ret tt end.

(** [e := call()] where the code goes on after an error: the error is a
    value, and the state is as the call left it. *)
Definition attempt {S A} (m : M S A) : M S (option error) :=
  fun s =>
    match m s with
    | (Ok _, s1, l1) => (Ok None, s1, l1)
    | (Err e, s1, l1) => (Ok (Some e), s1, l1)
    | (Hang, s1, l1) => (Hang, s1, l1)
    end.

Declare Scope go_scope.
Delimit Scope go_scope with go.
Notation "'let!' x ':=' m 'in' k" := (bind m (fun x => k))
  (at level 10, x name, m at level 100, k at level 200) : go_scope.
Notation "m ;; k" := (bind m (fun _ => k))
  (at level 100, k at level 200, right associativity) : go_scope.
Open Scope go_scope.

(** [for _, x := range xs { body }], left by the first error. *)
Fixpoint forM {S A} (xs : list A) (body : A -> M S unit) : M S unit :=
  match xs with
  | [] => ret tt
  | x :: rest => body x ;; forM rest body
  end.

(** [for _, x := range xs { body }] over a slice of pointers: the body
    works on the element it is at and on the state shared by the whole
    loop.  The slice comes back with the elements as the loop left them;
    those after an error are as they were. *)
Fixpoint for_range {E S} (body : M (E * S) unit) (xs : list E) (s : S)
  : result unit * (list E * S) * list StorageOp :=
  match xs with
  | [] => (Ok tt, ([], s), [])
  | x :: rest =>
      match body (x, s) with
      | (Ok _, (x', s1), l1) =>
          let '(r, (rest', s2), l2) := for_range body rest s1 in
          (r, (x' :: rest', s2), l1 ++ l2)
      | (Err e, (x', s1), l1) => (Err e, (x' :: rest, s1), l1)
      | (Hang, (x', s1), l1) => (Hang, (x' :: rest, s1), l1)
      end
  end.

(** [for i, x := range xs { body }], left by the first error. *)
Fixpoint range_forM {St A} (body : nat -> A -> M St unit) (i : nat)
    (xs : list A) : M St unit :=
  match xs with
  | [] => ret tt
  | x :: rest => body i x ;; range_forM body (S i) rest
  end.

(** The read loop [for { line, e := reader.Read(); if e == io.EOF { break };
    body }] of a [csv.Reader] over a file that holds [content] and is read
    from its start; [seek] sets the offset of the file's handle, which is
    where the reader has read to whenever [body] runs and at the end of
    the file when the loop is left by [io.EOF]. *)
Definition csv_loop `{Env} {St} (seek : nat -> St -> St) (content : bytes)
    (body : list string -> M St unit) : M St unit :=
  range_forM
    (fun i line => modify (seek (csv_offset content (S i))) ;; body line)
    0%nat (csv_records content) ;;
  modify (seek (String.length content)).

(** [line[i]]; every use is guarded by a test of [len(line)]. *)
Definition idx (line : list string) (i : nat) : string :=
  default EmptyString (line !! i).

(* ================================================================== *)
(** ** Patch *)

(** The [Patch] interface, with [DefaultPatch] as its implementation. *)
Record Patch : Type := DefaultPatch {
  GetAction : string;
  GetKey : string;
  GetValues : list string
}.

(* ================================================================== *)
(** ** Bucket (a shard) *)

Module Bucket.

(** The [Bucket] struct.  [File] and [ZippedFile] are the contents behind
    the two handles [Init] opens; the collaborator fields are class
    arguments and [Validation] is an argument of the operations that call
    it. *)
Record t : Type := mk {
  StorageBucketName : string;
  RelativeFilePath : string;
  RemoteFilePath : string;
  Dir : string;
  Number : Z;
  FileName : string;
  File : bytes;
  ZippedFileName : string;
  ZippedFile : bytes;
  IsChanged : bool;
  IsDeleted : bool;
  ZippedHash : string;
  UnzippedHash : string;
  PatchCount : Z;
  Patches : list Patch
}.

Definition set_RelativeFilePath (v : string) (b : t) : t :=
  mk (StorageBucketName b) v (RemoteFilePath b) (Dir b) (Number b)
     (FileName b) (File b) (ZippedFileName b) (ZippedFile b) (IsChanged b)
     (IsDeleted b) (ZippedHash b) (UnzippedHash b) (PatchCount b) (Patches b).
Definition set_RemoteFilePath (v : string) (b : t) : t :=
  mk (StorageBucketName b) (RelativeFilePath b) v (Dir b) (Number b)
     (FileName b) (File b) (ZippedFileName b) (ZippedFile b) (IsChanged b)
     (IsDeleted b) (ZippedHash b) (UnzippedHash b) (PatchCount b) (Patches b).
Definition set_File (v : bytes) (b : t) : t :=
  mk (StorageBucketName b) (RelativeFilePath b) (RemoteFilePath b) (Dir b)
     (Number b) (FileName b) v (ZippedFileName b) (ZippedFile b)
     (IsChanged b) (IsDeleted b) (ZippedHash b) (UnzippedHash b)
     (PatchCount b) (Patches b).
Definition set_ZippedFile (v : bytes) (b : t) : t :=
  mk (StorageBucketName b) (RelativeFilePath b) (RemoteFilePath b) (Dir b)
     (Number b) (FileName b) (File b) (ZippedFileName b) v (IsChanged b)
     (IsDeleted b) (ZippedHash b) (UnzippedHash b) (PatchCount b) (Patches b).
Definition set_IsChanged (v : bool) (b : t) : t :=
  mk (StorageBucketName b) (RelativeFilePath b) (RemoteFilePath b) (Dir b)
     (Number b) (FileName b) (File b) (ZippedFileName b) (ZippedFile b) v
     (IsDeleted b) (ZippedHash b) (UnzippedHash b) (PatchCount b) (Patches b).
Definition set_ZippedHash (v : string) (b : t) : t :=
  mk (StorageBucketName b) (RelativeFilePath b) (RemoteFilePath b) (Dir b)
     (Number b) (FileName b) (File b) (ZippedFileName b) (ZippedFile b)
     (IsChanged b) (IsDeleted b) v (UnzippedHash b) (PatchCount b) (Patches b).
Definition set_UnzippedHash (v : string) (b : t) : t :=
  mk (StorageBucketName b) (RelativeFilePath b) (RemoteFilePath b) (Dir b)
     (Number b) (FileName b) (File b) (ZippedFileName b) (ZippedFile b)
     (IsChanged b) (IsDeleted b) (ZippedHash b) v (PatchCount b) (Patches b).
Definition set_Patches (v : list Patch) (b : t) : t :=
  mk (StorageBucketName b) (RelativeFilePath b) (RemoteFilePath b) (Dir b)
     (Number b) (FileName b) (File b) (ZippedFileName b) (ZippedFile b)
     (IsChanged b) (IsDeleted b) (ZippedHash b) (UnzippedHash b)
     (PatchCount b) v.

(** The row validator a bucket is built with. *)
Definition validator : Type := list string -> t -> option error.

Definition NewBucket
    (storageBucketName relativeFilePath remoteFilePath dir : string)
    (number : Z) (zippedHash unzippedHash : string) (patchCount : Z) : t :=
  {| StorageBucketName := storageBucketName;
     RelativeFilePath := relativeFilePath;
     RemoteFilePath := remoteFilePath;
     Dir := dir;
     Number := number;
     FileName := Itoa number +:+ ".csv";
     File := "";
     ZippedFileName := Itoa number +:+ ".csv.zlib";
     ZippedFile := "";
     IsChanged := false;
     IsDeleted := false;
     ZippedHash := zippedHash;
     UnzippedHash := unzippedHash;
     PatchCount := patchCount;
     Patches := [] |}.

Section Methods.
Context `{Env} `{Storage}.
Variable Validation : validator.

Definition checksumReadSeeker (content : bytes) : string := md5_hex content.

Definition Init : M t unit :=
  modify (fun b => set_File (open_local (Dir b) (FileName b)) b) ;;
  modify (fun b => set_ZippedFile (open_local (Dir b) (ZippedFileName b)) b).

Definition Unzip : M t unit :=
  let! b := get in
  let checksum := checksumReadSeeker (ZippedFile b) in
  if decide (ZippedHash b ≠ checksum) then
    fail (ErrInvalidZippedChecksum (RemoteFilePath b))
  else
    match zlib_inflate (ZippedFile b) with
    | BadHeader e => fail e
    | Stream out tail =>
        modify (set_File "") ;;
        modify (set_File out) ;;
        check tail
    end.

(** The body of the read loop of [VerifyUnzipped], for one record. *)
Definition verify_row (line : list string) : M t unit :=
  let! b := get in
  check (Validation line b) ;;
  if (length line <? 2)%nat then
    fail (ErrShortRow (RemoteFilePath b))
  else if (length line =? 2)%nat then
    modify (fun b =>
      set_Patches (Patches b ++ [DefaultPatch (idx line 0) (idx line 1) []]) b)
  else
    modify (fun b =>
      set_Patches
        (Patches b ++ [DefaultPatch (idx line 0) (idx line 1) (drop 2 line)])
        b).

Definition VerifyUnzipped : M t unit :=
  let! b := get in
  let checksum := checksumReadSeeker (File b) in
  if decide (UnzippedHash b ≠ checksum) then
    fail (ErrInvalidUnzippedChecksum (RemoteFilePath b))
  else
    forM (csv_records (File b)) verify_row.

Definition AddPatch (patch : Patch) : M t unit :=
  modify (fun b =>
    set_File
      (File b +:+
       csv_encode (GetAction patch :: GetKey patch :: GetValues patch)) b) ;;
  modify (set_IsChanged true) ;;
  modify (fun b => set_Patches (Patches b ++ [patch]) b).

Definition IsFull : M t bool :=
  let! b := get in
  let position := Z.of_nat (String.length (File b)) in
  ret (2048000 <? position).

Definition Compress : M t unit :=
  modify (set_ZippedFile "") ;;
  modify (fun b => set_ZippedFile (zlib_compress (File b)) b).

Definition VerifyZipped : M t unit :=
  let! b := get in
  match zlib_inflate (ZippedFile b) with
  | BadHeader e => fail e
  | Stream out tail =>
      forM (csv_records out) (fun line => check (Validation line b)) ;;
      match tail with
      | None => ret tt
      | Some _ =>
          (* [Read] never reports [io.EOF]: the loop goes on with the same
             record until the validator refuses it. *)
          match Validation csv_failed_read b with
          | Some validationE => fail validationE
          | None => hang
          end
      end
  end.

Definition Hash : M t unit :=
  modify (fun b => set_UnzippedHash (checksumReadSeeker (File b)) b) ;;
  modify (fun b => set_ZippedHash (checksumReadSeeker (ZippedFile b)) b).

Definition Upload (public : bool) : M t unit :=
  let! b := get in
  check (GetUploadWriter (StorageBucketName b) (RemoteFilePath b)) ;;
  check (WriterCopyClose (StorageBucketName b) (RemoteFilePath b)
           (ZippedFile b)) ;;
  emit (OpPut (StorageBucketName b) (RemoteFilePath b) (ZippedFile b)) ;;
  if public then
    check (MakePublic (StorageBucketName b) (RemoteFilePath b)) ;;
    emit (OpMakePublic (StorageBucketName b) (RemoteFilePath b))
  else ret tt.

Definition Download : M t unit :=
  modify (set_ZippedFile "") ;;
  let! b := get in
  let '(written, e) :=
    DownloadWriter (StorageBucketName b) (RemoteFilePath b) in
  modify (set_ZippedFile written) ;;
  match e with
  | Some e => if negb (is_ErrObjectNotExist e) then fail e else ret tt
  | None => ret tt
  end ;;
  Unzip ;;
  VerifyUnzipped.

End Methods.
End Bucket.

(* ================================================================== *)
(** ** Categories *)

(** The [CategoriesItem] interface. *)
Record CategoriesItem : Type := {
  GetId : Z;
  GetCategory : string;
  GetSubcategory : string;
  GetIdentifier : string;
  GetDescription : string;
  GetTlc : string;
  GetSlc : string
}.

Module Categories.

(** The [Categories] struct.  [File] and [ZippedFile] are the contents
    behind the two handles [Init] creates, [FileOffset] and
    [ZippedFileOffset] the offsets of those handles. *)
Record t : Type := mk {
  StorageBucketName : string;
  RelativeFilePath : string;
  RemoteFilePath : string;
  Dir : string;
  FileName : string;
  File : bytes;
  FileOffset : nat;
  ZippedFileName : string;
  ZippedFile : bytes;
  ZippedFileOffset : nat;
  ZippedHash : string;
  UnzippedHash : string;
  CategoryItems : list CategoriesItem
}.

Definition set_RelativeFilePath (v : string) (c : t) : t :=
  mk (StorageBucketName c) v (RemoteFilePath c) (Dir c) (FileName c) (File c)
     (FileOffset c) (ZippedFileName c) (ZippedFile c) (ZippedFileOffset c)
     (ZippedHash c) (UnzippedHash c) (CategoryItems c).
Definition set_RemoteFilePath (v : string) (c : t) : t :=
  mk (StorageBucketName c) (RelativeFilePath c) v (Dir c) (FileName c)
     (File c) (FileOffset c) (ZippedFileName c) (ZippedFile c)
     (ZippedFileOffset c) (ZippedHash c) (UnzippedHash c) (CategoryItems c).
Definition set_File (v : bytes) (c : t) : t :=
  mk (StorageBucketName c) (RelativeFilePath c) (RemoteFilePath c) (Dir c)
     (FileName c) v (FileOffset c) (ZippedFileName c) (ZippedFile c)
     (ZippedFileOffset c) (ZippedHash c) (UnzippedHash c) (CategoryItems c).
Definition set_FileOffset (v : nat) (c : t) : t :=
  mk (StorageBucketName c) (RelativeFilePath c) (RemoteFilePath c) (Dir c)
     (FileName c) (File c) v (ZippedFileName c) (ZippedFile c)
     (ZippedFileOffset c) (ZippedHash c) (UnzippedHash c) (CategoryItems c).
Definition set_ZippedFile (v : bytes) (c : t) : t :=
  mk (StorageBucketName c) (RelativeFilePath c) (RemoteFilePath c) (Dir c)
     (FileName c) (File c) (FileOffset c) (ZippedFileName c) v
     (ZippedFileOffset c) (ZippedHash c) (UnzippedHash c) (CategoryItems c).
Definition set_ZippedFileOffset (v : nat) (c : t) : t :=
  mk (StorageBucketName c) (RelativeFilePath c) (RemoteFilePath c) (Dir c)
     (FileName c) (File c) (FileOffset c) (ZippedFileName c) (ZippedFile c)
     v (ZippedHash c) (UnzippedHash c) (CategoryItems c).
Definition set_ZippedHash (v : string) (c : t) : t :=
  mk (StorageBucketName c) (RelativeFilePath c) (RemoteFilePath c) (Dir c)
     (FileName c) (File c) (FileOffset c) (ZippedFileName c) (ZippedFile c)
     (ZippedFileOffset c) v (UnzippedHash c) (CategoryItems c).
Definition set_UnzippedHash (v : string) (c : t) : t :=
  mk (StorageBucketName c) (RelativeFilePath c) (RemoteFilePath c) (Dir c)
     (FileName c) (File c) (FileOffset c) (ZippedFileName c) (ZippedFile c)
     (ZippedFileOffset c) (ZippedHash c) v (CategoryItems c).

Definition NewCategories
    (storageBucketName relativeFilePath remoteFilePath dir : string)
    (zippedHash unzippedHash : string)
    (categoryItems : list CategoriesItem) : t :=
  {| StorageBucketName := storageBucketName;
     RelativeFilePath := relativeFilePath;
     RemoteFilePath := remoteFilePath;
     Dir := dir;
     FileName := "categories.csv";
     File := "";
     FileOffset := 0;
     ZippedFileName := "categories.csv.zlib";
     ZippedFile := "";
     ZippedFileOffset := 0;
     ZippedHash := zippedHash;
     UnzippedHash := unzippedHash;
     CategoryItems := categoryItems |}.

Section Methods.
Context `{Env} `{Storage}.

(** A write through the handle of the staging file, and one through that
    of the compressed file: at the offset, which moves behind what was
    written. *)
Definition write_File (data : bytes) : M t unit :=
  modify (fun c =>
    set_FileOffset (FileOffset c + String.length data)
      (set_File (write_at (FileOffset c) (File c) data) c)).
Definition write_ZippedFile (data : bytes) : M t unit :=
  modify (fun c =>
    set_ZippedFileOffset (ZippedFileOffset c + String.length data)
      (set_ZippedFile (write_at (ZippedFileOffset c) (ZippedFile c) data) c)).

(** [checksumReadSeeker] on each of the two files: the file is read from
    its start to its end. *)
Definition checksum_File : M t string :=
  modify (fun c => set_FileOffset (String.length (File c)) c) ;;
  let! c := get in
  ret (Bucket.checksumReadSeeker (File c)).
Definition checksum_ZippedFile : M t string :=
  modify (fun c => set_ZippedFileOffset (String.length (ZippedFile c)) c) ;;
  let! c := get in
  ret (Bucket.checksumReadSeeker (ZippedFile c)).

(** [os.Create] truncates: both files start empty, with new handles. *)
Definition Init : M t unit :=
  modify (set_File "") ;;
  modify (set_FileOffset 0) ;;
  modify (set_ZippedFile "") ;;
  modify (set_ZippedFileOffset 0).

Definition Download : M t unit :=
  let! c := get in
  let '(written, e) :=
    DownloadWriter (StorageBucketName c) (RemoteFilePath c) in
  write_ZippedFile written ;;
  match e with
  | Some e => if negb (is_ErrObjectNotExist e) then fail e else ret tt
  | None => ret tt
  end ;;
  let! checksum := checksum_ZippedFile in
  let! c := get in
  if decide (ZippedHash c ≠ checksum) then
    fail (ErrInvalidZippedChecksum (RemoteFilePath c))
  else
    modify (set_ZippedFileOffset 0) ;;
    modify (set_ZippedFileOffset (zlib_offset (ZippedFile c))) ;;
    match zlib_inflate (ZippedFile c) with
    | BadHeader e => fail e
    | Stream out tail =>
        write_File out ;;
        check tail ;;
        let! checksum := checksum_File in
        let! c := get in
        if decide (UnzippedHash c ≠ checksum) then
          fail (ErrInvalidUnzippedChecksum (RemoteFilePath c))
        else
          modify (set_FileOffset 0) ;;
          csv_loop set_FileOffset (File c) (fun line =>
            if decide (length line ≠ 4%nat) then
              fail (ErrCategoriesRow (RemoteFilePath c))
            else ret tt) ;;
          modify (set_FileOffset 0)
    end.

Definition Write : M t unit :=
  modify (set_File "") ;;
  modify (set_FileOffset 0) ;;
  let! c := get in
  forM (CategoryItems c) (fun definition =>
    write_File
      (csv_encode [Itoa (GetId definition); GetCategory definition;
                   GetSubcategory definition; GetDescription definition])).

Definition IsChanged : M t bool :=
  let! computed := checksum_File in
  let! c := get in
  ret (bool_decide (computed ≠ UnzippedHash c)).

Definition Compress : M t unit :=
  modify (set_ZippedFile "") ;;
  modify (set_FileOffset 0) ;;
  modify (set_ZippedFileOffset 0) ;;
  let! c := get in
  modify (set_FileOffset (String.length (File c))) ;;
  write_ZippedFile (zlib_compress (File c)).

Definition Hash : M t unit :=
  let! unzipped := checksum_File in
  modify (set_UnzippedHash unzipped) ;;
  let! zipped := checksum_ZippedFile in
  modify (set_ZippedHash zipped).

Definition Upload (public : bool) : M t unit :=
  modify (set_ZippedFileOffset 0) ;;
  let! c := get in
  check (GetUploadWriter (StorageBucketName c) (RemoteFilePath c)) ;;
  match WriterCopyClose (StorageBucketName c) (RemoteFilePath c)
          (ZippedFile c) with
  | Some e =>
      modify (set_ZippedFileOffset
                (WriterCopied (StorageBucketName c) (RemoteFilePath c)
                   (ZippedFile c))) ;;
      fail e
  | None => modify (set_ZippedFileOffset (String.length (ZippedFile c)))
  end ;;
  emit (OpPut (StorageBucketName c) (RemoteFilePath c) (ZippedFile c)) ;;
  if public then
    check (MakePublic (StorageBucketName c) (RemoteFilePath c)) ;;
    emit (OpMakePublic (StorageBucketName c) (RemoteFilePath c))
  else ret tt.

End Methods.
End Categories.

(* ================================================================== *)
(** ** Master *)

(** [for i, x := range xs { acc = f(acc, i, x) }] *)
Fixpoint range_fold {A B} (f : B -> nat -> A -> B) (i : nat) (xs : list A)
    (acc : B) : B :=
  match xs with
  | [] => acc
  | x :: rest => range_fold f (S i) rest (f acc i x)
  end.

(** A method called on a part of the receiver. *)
Definition zoom {S T A} (getter : S -> T) (setter : T -> S -> S)
    (op : M T A) : M S A :=
  fun s => let '(r, t', l) := op (getter s) in (r, setter t' s, l).

(** A method called on a value that is not yet part of the receiver. *)
Definition run_on {S T A} (op : M T A) (x : T) : M S T :=
  fun s =>
    match op x with
    | (Ok _, x', l) => (Ok x', s, l)
    | (Err e, _, l) => (Err e, s, l)
    | (Hang, _, l) => (Hang, s, l)
    end.

Module Master.

(** The [Master] struct.  [File] is the content behind the handle [Init]
    creates and [FileOffset] the offset of that handle. *)
Record t : Type := mk {
  StorageBucketName : string;
  RemoteDir : string;
  Dir : string;
  FileName : string;
  Public : bool;
  File : bytes;
  FileOffset : nat;
  Categories : option Categories.t;
  CategoryItems : list CategoriesItem;
  IsChanged : bool;
  Version : string;
  UnixTime : Z;
  DateTime : string;
  Buckets : list Bucket.t
}.

Definition set_File (v : bytes) (m : t) : t :=
  mk (StorageBucketName m) (RemoteDir m) (Dir m) (FileName m) (Public m) v
     (FileOffset m) (Categories m) (CategoryItems m) (IsChanged m)
     (Version m) (UnixTime m) (DateTime m) (Buckets m).
Definition set_FileOffset (v : nat) (m : t) : t :=
  mk (StorageBucketName m) (RemoteDir m) (Dir m) (FileName m) (Public m)
     (File m) v (Categories m) (CategoryItems m) (IsChanged m) (Version m)
     (UnixTime m) (DateTime m) (Buckets m).
Definition set_Categories (v : option Categories.t) (m : t) : t :=
  mk (StorageBucketName m) (RemoteDir m) (Dir m) (FileName m) (Public m)
     (File m) (FileOffset m) v (CategoryItems m) (IsChanged m) (Version m)
     (UnixTime m) (DateTime m) (Buckets m).
Definition set_Version (v : string) (m : t) : t :=
  mk (StorageBucketName m) (RemoteDir m) (Dir m) (FileName m) (Public m)
     (File m) (FileOffset m) (Categories m) (CategoryItems m) (IsChanged m)
     v (UnixTime m) (DateTime m) (Buckets m).
Definition set_UnixTime (v : Z) (m : t) : t :=
  mk (StorageBucketName m) (RemoteDir m) (Dir m) (FileName m) (Public m)
     (File m) (FileOffset m) (Categories m) (CategoryItems m) (IsChanged m)
     (Version m) v (DateTime m) (Buckets m).
Definition set_DateTime (v : string) (m : t) : t :=
  mk (StorageBucketName m) (RemoteDir m) (Dir m) (FileName m) (Public m)
     (File m) (FileOffset m) (Categories m) (CategoryItems m) (IsChanged m)
     (Version m) (UnixTime m) v (Buckets m).
Definition set_Buckets (v : list Bucket.t) (m : t) : t :=
  mk (StorageBucketName m) (RemoteDir m) (Dir m) (FileName m) (Public m)
     (File m) (FileOffset m) (Categories m) (CategoryItems m) (IsChanged m)
     (Version m) (UnixTime m) (DateTime m) v.

(** The [Config] struct, without its collaborator fields. *)
Record Config : Type := {
  ConfigStorageBucketName : string;
  ConfigRemoteDir : string;
  ConfigDir : string;
  ConfigFileName : string;
  ConfigPublic : bool;
  ConfigCategoryItems : list CategoriesItem
}.

Definition NewMaster (config : Config) : t :=
  {| StorageBucketName := ConfigStorageBucketName config;
     RemoteDir := ConfigRemoteDir config;
     Dir := ConfigDir config;
     FileName := ConfigFileName config;
     Public := ConfigPublic config;
     File := "";
     FileOffset := 0;
     Categories := None;
     CategoryItems := ConfigCategoryItems config;
     IsChanged := false;
     Version := "";
     UnixTime := 0;
     DateTime := "";
     Buckets := [] |}.

(** [m.Categories.f(...)], with [c0] the value the surrounding code has
    already found behind the pointer. *)
Definition on_Categories {A} (c0 : Categories.t) (op : M Categories.t A)
  : M t A :=
  zoom (fun m => default c0 (Categories m))
       (fun c m => set_Categories (Some c) m) op.

(** [bucket.f(...)] for the bucket at index [i] of [m.Buckets], with [b0]
    the value found there. *)
Definition on_Bucket {A} (i : nat) (b0 : Bucket.t) (op : M Bucket.t A)
  : M t A :=
  zoom (fun m => default b0 (Buckets m !! i))
       (fun b m => set_Buckets (<[i:=b]> (Buckets m)) m) op.

(** [for _, bucket := range m.Buckets { body }]: the body works on the
    bucket behind the pointer and on the master. *)
Definition range_Buckets (body : M (Bucket.t * t) unit) : M t unit :=
  fun m =>
    let '(r, (buckets, m'), l) := for_range body (Buckets m) m in
    (r, set_Buckets buckets m', l).

(** *** CompileList *)

(** The [switch] of the inner loop. *)
Definition apply_patch (list_ : gmap string (list string)) (patch : Patch)
  : gmap string (list string) :=
  if decide (GetAction patch = "+") then
    <[GetKey patch := GetValues patch]> list_
  else if decide (GetAction patch = "-") then
    delete (GetKey patch) list_
  else if decide (GetAction patch = "*") then
    ∅
  else list_.

(** The compiled list and [totalPatches]; the error is always [nil]. *)
Definition CompileList (m : t) : gmap string (list string) * nat :=
  foldl
    (fun '(list_, totalPatches) bucket =>
       if Bucket.IsDeleted bucket then (list_, totalPatches)
       else
         (foldl apply_patch list_ (Bucket.Patches bucket),
          (totalPatches + length (Bucket.Patches bucket))%nat))
    (∅, 0%nat) (Buckets m).

(** *** CalculateWastage *)

Record change : Type := {
  key : string;
  bucketKey : nat;
  patchKey : nat
}.

(** The body of the inner loop: a first change of a key opens its history,
    a later one is appended to it. *)
Definition record_change (changes : gmap string (list change))
    (bucketKey patchKey : nat) (patch : Patch) : gmap string (list change) :=
  let c := {| key := GetKey patch;
              bucketKey := bucketKey;
              patchKey := patchKey |} in
  match changes !! GetKey patch with
  | None => <[GetKey patch := [c]]> changes
  | Some history => <[GetKey patch := history ++ [c]]> changes
  end.

Definition collect_changes (m : t) : gmap string (list change) :=
  range_fold
    (fun changes bucketKey bucket =>
       range_fold
         (fun changes patchKey patch =>
            record_change changes bucketKey patchKey patch)
         0%nat (Bucket.Patches bucket) changes)
    0%nat (Buckets m) ∅.

(** The body of the second loop. *)
Definition add_wastage (wastage : list change) (history : list change)
  : list change :=
  if (1 <? length history)%nat then
    if (length history mod 2 =? 0)%nat then wastage ++ history
    else wastage ++ take (length history - 1) history
  else wastage.

(** The histories are visited in the order of [map_to_list]; Go leaves the
    order open, and the length of [wastage] does not depend on it. *)
Definition collect_wastage (changes : gmap string (list change))
  : list change :=
  foldl add_wastage [] (snd <$> map_to_list changes).

(** The percentage; the error is always [nil].  [None] is a conversion of
    a float64 that Go leaves implementation-defined. *)
Definition CalculateWastage (m : t) : option Z :=
  let changes := collect_changes m in
  let wastage := collect_wastage changes in
  int_of_float64
    (PrimFloat.mul
       (PrimFloat.div (float64_of_int (Z.of_nat (length wastage)))
                      (float64_of_int (Z.of_nat (size changes))))
       (float64_of_int 100)).

Section Methods.
Context `{Env} `{Storage}.
Variable Validation : Bucket.validator.

(** *** Init *)

(** A write through the handle of the master file: at the offset, which
    moves behind what was written. *)
Definition write_File (data : bytes) : M t unit :=
  modify (fun m =>
    set_FileOffset (FileOffset m + String.length data)
      (set_File (write_at (FileOffset m) (File m) data) m)).

(** [os.Create] truncates: the master file starts empty, with a new
    handle. *)
Definition Init : M t unit :=
  modify (set_File "") ;;
  modify (set_FileOffset 0).

(** *** Download *)

(** The body of the read loop of [Download], for one record. *)
Definition Download_row (line : list string) : M t unit :=
  if decide (length line = 3%nat) then
    modify (set_Version (idx line 0)) ;;
    modify (set_UnixTime (fst (ParseInt (idx line 1)))) ;;
    modify (set_DateTime (idx line 2))
  else if decide (length line = 6%nat) then
    let bucketNumber := fst (Atoi (idx line 0)) in
    if decide (bucketNumber = -1) then
      let! m := get in
      let c0 :=
        Categories.NewCategories (StorageBucketName m) (idx line 1)
          (joinPath [RemoteDir m; idx line 1]) (Dir m) (idx line 3)
          (idx line 4) (CategoryItems m) in
      modify (set_Categories (Some c0)) ;;
      on_Categories c0 Categories.Init ;;
      on_Categories c0 Categories.Download
    else
      let '(lineCount, e) := Atoi (idx line 5) in
      check e ;;
      let! m := get in
      let bucket :=
        Bucket.NewBucket (StorageBucketName m) (idx line 1)
          (joinPath [RemoteDir m; idx line 1]) (Dir m) bucketNumber
          (idx line 3) (idx line 4) lineCount in
      modify (set_Buckets (Buckets m ++ [bucket]))
  else ret tt.

(** The second part of [Download]: the master file is read from its
    start, row by row. *)
Definition Download_rows : M t unit :=
  modify (set_FileOffset 0) ;;
  let! m := get in
  csv_loop set_FileOffset (File m) Download_row.

Definition Download (now : Time) : M t unit :=
  let! m := get in
  (if Public m then
     let masterUrl :=
       "https://storage.googleapis.com/" +:+ StorageBucketName m +:+ "/" +:+
       RemoteDir m +:+ "/" +:+ FileName m +:+ "?" +:+ Itoa (Unix now) in
     match http_get masterUrl with
     | inl e => if negb (Contains (Error e) "404") then fail e else ret tt
     | inr body => write_File body
     end
   else
     match GetDownloadReader (StorageBucketName m)
             (joinPath [RemoteDir m; FileName m]) with
     | inl e =>
         if negb (Contains (Error e) "object doesn't exist") then fail e
         else ret tt
     | inr body => write_File body
     end) ;;
  Download_rows.

(** *** DownloadBuckets *)

(** The body of the loop: the local copy is tried first, and the remote
    one is fetched when it does not verify. *)
Definition download_bucket : M (Bucket.t * t) unit :=
  let onB {A} (op : M Bucket.t A) : M (Bucket.t * t) A :=
    zoom fst (fun b s => (b, snd s)) op in
  onB Bucket.Init ;;
  let! e := attempt (onB (Bucket.VerifyUnzipped Validation)) in
  match e with
  | Some _ => onB (Bucket.Download Validation)
  | None => ret tt
  end.

Definition DownloadBuckets : M t unit := range_Buckets download_bucket.

(** *** AddPatch *)

(** The body of the loop that looks for the latest bucket. *)
Definition latest_step (acc : Z * option (nat * Bucket.t)) (i : nat)
    (bucket : Bucket.t) : Z * option (nat * Bucket.t) :=
  if fst acc <? Bucket.Number bucket then
    (Bucket.Number bucket, Some (i, bucket))
  else acc.

Definition AddPatch (patch : Patch) : M t unit :=
  let! m := get in
  let '(maxBucketNumber, latestBucket) :=
    range_fold latest_step 0%nat (Buckets m) (0, None) in
  let! full :=
    match latestBucket with
    | Some (i, b) => on_Bucket i b Bucket.IsFull
    | None => ret false
    end in
  let! latest :=
    match latestBucket, full with
    | Some (i, b), false => ret (i, b)
    | _, _ =>
        let! fresh :=
          run_on Bucket.Init
            (Bucket.NewBucket (StorageBucketName m) "" "" (Dir m)
               (wrap64 (maxBucketNumber + 1)) "" "" 0) in
        let! m := get in
        modify (set_Buckets (Buckets m ++ [fresh])) ;;
        ret (length (Buckets m), fresh)
    end in
  on_Bucket (fst latest) (snd latest) (Bucket.AddPatch patch).

(** *** InitCategories *)

Definition InitCategories : M t unit :=
  let! m := get in
  match Categories m with
  | None =>
      let c0 :=
        Categories.NewCategories (StorageBucketName m) "" "" (Dir m) "" ""
          (CategoryItems m) in
      modify (set_Categories (Some c0)) ;;
      on_Categories c0 Categories.Init
  | Some _ => ret tt
  end.

(** *** UploadToStorageBucket *)

(** The body of the loop over the buckets. *)
Definition publish_bucket : M (Bucket.t * t) unit :=
  let onB {A} (op : M Bucket.t A) : M (Bucket.t * t) A :=
    zoom fst (fun b s => (b, snd s)) op in
  let! s := get in
  let m := snd s in
  if Bucket.IsDeleted (fst s) then ret tt
  else
    (if Bucket.IsChanged (fst s) then
       onB Bucket.Compress ;;
       onB (Bucket.VerifyZipped Validation) ;;
       onB Bucket.Hash ;;
       onB (modify (fun b =>
              Bucket.set_RelativeFilePath
                (FormatInt (UnixTime m) +:+ "-" +:+ Bucket.ZippedFileName b)
                b)) ;;
       onB (modify (fun b =>
              Bucket.set_RemoteFilePath
                (joinPath [RemoteDir m; Bucket.RelativeFilePath b]) b)) ;;
       onB (Bucket.Upload (Public m))
     else ret tt) ;;
    let! s := get in
    let bucket := fst s in
    zoom snd (fun m s => (fst s, m))
      (write_File
         (csv_encode [Itoa (Bucket.Number bucket);
                      Bucket.RelativeFilePath bucket;
                      "zlib";
                      Bucket.ZippedHash bucket;
                      Bucket.UnzippedHash bucket;
                      Itoa (Z.of_nat (length (Bucket.Patches bucket)))])).

(** The part of the publish that deals with the categories. *)
Definition publish_categories (c0 : Categories.t) : M t unit :=
  let! m := get in
  on_Categories c0 Categories.Write ;;
  let! categoriesChanged := on_Categories c0 Categories.IsChanged in
  (if categoriesChanged : bool then
     on_Categories c0 Categories.Compress ;;
     on_Categories c0 Categories.Hash ;;
     on_Categories c0 (modify (fun c =>
       Categories.set_RelativeFilePath
         (FormatInt (UnixTime m) +:+ "-" +:+ Categories.ZippedFileName c)
         c)) ;;
     on_Categories c0 (modify (fun c =>
       Categories.set_RemoteFilePath
         (joinPath [RemoteDir m; Categories.RelativeFilePath c]) c)) ;;
     on_Categories c0 (Categories.Upload (Public m))
   else ret tt) ;;
  let! m := get in
  let c := default c0 (Categories m) in
  write_File
    (csv_encode ["-1";
                 Categories.RelativeFilePath c;
                 "zlib";
                 Categories.ZippedHash c;
                 Categories.UnzippedHash c;
                 Itoa (Z.of_nat (length (CategoryItems m)))]).

(** The last part of the publish: the finished master document goes to
    its fixed remote name. *)
Definition publish_master : M t unit :=
  modify (set_FileOffset 0) ;;
  let! m := get in
  check (GetUploadWriter (StorageBucketName m)
           (joinPath [RemoteDir m; FileName m])) ;;
  match WriterCopyClose (StorageBucketName m)
          (joinPath [RemoteDir m; FileName m]) (File m) with
  | Some e =>
      modify (set_FileOffset
                (WriterCopied (StorageBucketName m)
                   (joinPath [RemoteDir m; FileName m]) (File m))) ;;
      fail e
  | None => modify (set_FileOffset (String.length (File m)))
  end ;;
  emit (OpPut (StorageBucketName m) (joinPath [RemoteDir m; FileName m])
          (File m)) ;;
  if Public m then
    check (MakePublic (StorageBucketName m)
             (joinPath [RemoteDir m; FileName m])) ;;
    emit (OpMakePublic (StorageBucketName m)
            (joinPath [RemoteDir m; FileName m]))
  else ret tt.

Definition UploadToStorageBucket (now : Time) : M t unit :=
  modify (set_UnixTime (Unix now)) ;;
  modify (set_DateTime (DateTimeFormat now)) ;;
  modify (set_File "") ;;
  modify (set_FileOffset 0) ;;
  let! m := get in
  write_File (csv_encode ["V1"; FormatInt (UnixTime m); DateTime m]) ;;
  let! m := get in
  match Categories m with
  | Some c0 => publish_categories c0
  | None => ret tt
  end ;;
  range_Buckets publish_bucket ;;
  publish_master.

(** *** CleanupOldFiles *)

(** The three tests that set [found]. *)
Definition found_in_master (m : t) (file : ObjectAttrs) : bool :=
  let found := false in
  let found :=
    match Categories m with
    | Some c =>
        if decide (Name file = Categories.RemoteFilePath c) then true
        else found
    | None => found
    end in
  let found :=
    foldl
      (fun found bucket =>
         if decide (Name file = Bucket.RemoteFilePath bucket) then true
         else found)
      found (Buckets m) in
  if decide (Name file = RemoteDir m +:+ "/" +:+ FileName m) then true
  else found.

(** [clock i] is what [time.Now()] gives while the object at index [i] of
    the listing is looked at. *)
Definition CleanupOldFiles (clock : nat -> Time) : M t unit :=
  let! m := get in
  match Ls (StorageBucketName m) (RemoteDir m) with
  | inl e => fail e
  | inr files =>
      range_forM
        (fun i file =>
           if negb (found_in_master m file) then
             if Before (Created file) (clock i + - Hour * 24) then
               check (Delete (StorageBucketName m) (Name file)) ;;
               emit (OpDelete (StorageBucketName m) (Name file))
             else ret tt
           else ret tt)
        0%nat files
  end.

End Methods.
(** *** CleanupOldLocalFiles *)

Section LocalSweep.
Context `{LocalFiles}.

(** The three tests that set [found]. *)
Definition found_locally (m : t) (file : string) : bool :=
  let found := false in
  let found :=
    match Categories m with
    | Some c =>
        if decide (file = Categories.FileName c) then true else found
    | None => found
    end in
  let found :=
    foldl
      (fun found bucket =>
         if bool_decide (file = Dir m +:+ "/" +:+ Bucket.ZippedFileName bucket)
            || bool_decide (file = Dir m +:+ "/" +:+ Bucket.FileName bucket)
         then true
         else found)
      found (Buckets m) in
  if decide (file = Dir m +:+ "/" +:+ FileName m) then true else found.

(** The error returned and the files removed, in order.  A removal that
    fails is reported to the error handler and the loop goes on. *)
Definition CleanupOldLocalFiles (m : t) : option error * list string :=
  match Glob (Dir m +:+ "/*") with
  | inl e => (Some e, [])
  | inr files =>
      (None,
       foldl
         (fun removed file =>
            if negb (found_locally m file) then
              match Remove file with
              | Some _ => removed
              | None => removed ++ [file]
              end
            else removed)
         [] files)
  end.

End LocalSweep.

End Master.

(* ================================================================== *)
(** ** In-memory doubles of the collaborators *)

Module Double.

(** [s] cut at every [sep]; [cur] is the piece being read. *)
Fixpoint split_on (sep : ascii) (s : string) (cur : string) : list string :=
  match s with
  | EmptyString => [cur]
  | String c rest =>
      if decide (c = sep) then cur :: split_on sep rest EmptyString
      else split_on sep rest (cur +:+ String c EmptyString)
  end.

(** The records of a document without quotes: one per non-empty line, the
    fields cut at the commas. *)
Definition records (content : bytes) : list (list string) :=
  (fun line => split_on ","%char line EmptyString) <$>
  filter (fun line => line ≠ EmptyString)
         (split_on "010"%char content EmptyString).

Definition encode (row : list string) : bytes :=
  String.concat "," row +:+ String "010"%char EmptyString.

(** A codec that marks what it compressed with a leading [z]. *)
Definition compress (content : bytes) : bytes := String "z"%char content.
Definition inflate (content : bytes) : inflated :=
  match content with
  | String "z"%char rest => Stream rest None
  | _ => BadHeader (ErrMessage "zlib: invalid header")
  end.

(** A stand-in for the digest: the length of the content behind a tag. *)
Definition digest (content : bytes) : string :=
  "md5:" +:+ Itoa (Z.of_nat (String.length content)).

(** The files of the doubles are shorter than the buffers of the readers,
    which take a file whole at their first read. *)
Definition env : Env :=
  {| md5_hex := digest;
     zlib_compress := compress;
     zlib_inflate := inflate;
     csv_records := records;
     csv_failed_read := [EmptyString];
     csv_encode := encode;
     zlib_offset := String.length;
     csv_offset := fun content _ => String.length content;
     open_local := fun _ _ => EmptyString;
     http_get := fun _ => inl (ErrMessage "404 Not Found");
     DateTimeFormat := fun t => Itoa (Unix t) |}.

(** The same environment with a codec whose output cannot be read back. *)
Definition env_corrupt : Env :=
  {| md5_hex := digest;
     zlib_compress := compress;
     zlib_inflate := fun _ => BadHeader (ErrMessage "zlib: invalid header");
     csv_records := records;
     csv_failed_read := [EmptyString];
     csv_encode := encode;
     zlib_offset := String.length;
     csv_offset := fun content _ => String.length content;
     open_local := fun _ _ => EmptyString;
     http_get := fun _ => inl (ErrMessage "404 Not Found");
     DateTimeFormat := fun t => Itoa (Unix t) |}.

(** A backend holding [objects] (name, content) and listing [listing];
    every write and delete succeeds except the deletes of [undeletable]. *)
Definition storage (objects : list (string * bytes))
    (listing : list ObjectAttrs) (undeletable : list string) : Storage :=
  {| DownloadWriter := fun _ name =>
       match list_find (fun o => fst o = name) objects with
       | Some (_, o) => (snd o, None)
       | None => (EmptyString, Some ErrObjectNotExist)
       end;
     GetUploadWriter := fun _ _ => None;
     WriterCopyClose := fun _ _ _ => None;
     WriterCopied := fun _ _ content => String.length content;
     MakePublic := fun _ _ => None;
     GetDownloadReader := fun _ name =>
       match list_find (fun o => fst o = name) objects with
       | Some (_, o) => inr (snd o)
       | None => inl ErrObjectNotExist
       end;
     Ls := fun _ _ => inr listing;
     Delete := fun _ name =>
       if decide (name ∈ undeletable) then
         Some (ErrMessage "googleapi: Error 403: Forbidden")
       else None |}.

(** A working directory holding [listing]; every removal succeeds except
    those of [unremovable]. *)
Definition local_files (listing : list string) (unremovable : list string)
  : LocalFiles :=
  {| Glob := fun _ => inr listing;
     Remove := fun path =>
       if decide (path ∈ unremovable) then
         Some (ErrMessage "remove: permission denied")
       else None |}.

(** A validator that accepts every row. *)
Definition accept_all : Bucket.validator := fun _ _ => None.

(** A validator that refuses the rows of fewer than two columns. *)
Definition refuse_short_rows : Bucket.validator :=
  fun line _ =>
    if (length line <? 2)%nat then Some (ErrMessage "row refused") else None.

End Double.

(* ================================================================== *)
(** ** Sample states *)

Module Sample.

Definition bucket (number : Z) (patches : list Patch) : Bucket.t :=
  Bucket.set_Patches patches
    (Bucket.NewBucket "store" "" "" "/work" number "" "" 0).

Definition master (buckets : list Bucket.t) : Master.t :=
  {| Master.StorageBucketName := "store";
     Master.RemoteDir := "patches";
     Master.Dir := "/work";
     Master.FileName := "master.csv";
     Master.Public := false;
     Master.File := "";
     Master.FileOffset := 0;
     Master.Categories := None;
     Master.CategoryItems := [];
     Master.IsChanged := false;
     Master.Version := "";
     Master.UnixTime := 0;
     Master.DateTime := "";
     Master.Buckets := buckets |}.

Definition Set_ (k : string) (vs : list string) : Patch := DefaultPatch "+" k vs.
Definition Delete_ (k : string) : Patch := DefaultPatch "-" k [].
Definition ClearAll : Patch := DefaultPatch "*" "" [].

(** The two shards of the replay example. *)
Definition replay_master : Master.t :=
  master [bucket 1 [Set_ "A" ["1"]; Set_ "B" ["2"]; Delete_ "A"];
          bucket 2 [ClearAll; Set_ "C" ["3"]]].

End Sample.

(* ================================================================== *)
(** ** Definitions used to state the properties *)

(** The patches of the shards that are not flagged deleted, shard after
    shard in master order, each shard's patches in log order. *)
Definition live_patches (m : Master.t) : list Patch :=
  concat (Bucket.Patches <$>
          filter (fun b => Bucket.IsDeleted b = false) (Master.Buckets m)).

(** Every change the first loop of [CalculateWastage] records, in the
    order it meets them: all shards, deleted or not, in master order, each
    shard's patches in log order. *)
Definition all_changes (m : Master.t) : list Master.change :=
  concat
    (imap
       (fun bucketKey bucket =>
          imap
            (fun patchKey patch =>
               {| Master.key := GetKey patch;
                  Master.bucketKey := bucketKey;
                  Master.patchKey := patchKey |})
            (Bucket.Patches bucket))
       (Master.Buckets m)).

(** The keys of all patches of all shards, in the same order. *)
Definition all_keys (m : Master.t) : list string :=
  Master.key <$> all_changes m.

(** The number of times [k] occurs in [ks]. *)
Definition occurrences (k : string) (ks : list string) : nat :=
  length (filter (fun x => x = k) ks).

(** What a key that occurs [n] times adds to the wastage: nothing when it
    occurs once, all [n] when [n] is even, [n - 1] when [n] is odd. *)
Definition wasted_of (n : nat) : nat :=
  if (n <=? 1)%nat then 0%nat
  else if Nat.even n then n else (n - 1)%nat.

Definition total_wasted (ks : list string) : nat :=
  sum_list_with (fun k => wasted_of (occurrences k ks)) (remove_dups ks).

Definition total_distinct (ks : list string) : nat :=
  length (remove_dups ks).

(** [int((float64(w) / float64(d)) * 100)]: the float64 quotient times
    100, its fraction discarded. *)
Definition truncated_percentage (w d : nat) : option Z :=
  int_of_float64
    (PrimFloat.mul
       (PrimFloat.div (float64_of_int (Z.of_nat w))
                      (float64_of_int (Z.of_nat d)))
       (float64_of_int 100)).

(** [round(100 * w / d)]: the nearest integer to the exact quotient, a
    half rounded up. *)
Definition rounded_percentage (w d : nat) : Z :=
  (2 * (100 * Z.of_nat w) + Z.of_nat d) / (2 * Z.of_nat d).

(** Three patches on the key A, one on B and one on C, in one shard. *)
Definition wastage_master : Master.t :=
  Sample.master
    [Sample.bucket 1
       [Sample.Set_ "A" ["1"]; Sample.Set_ "A" ["2"]; Sample.Set_ "A" ["3"];
        Sample.Set_ "B" ["4"]; Sample.Set_ "C" ["5"]]].

(** The changes of the key [k] among [cs], in the order of [cs]. *)
Definition history_of (k : string) (cs : list Master.change)
  : list Master.change :=
  filter (fun c => Master.key c = k) cs.

(** [changes] groups [cs] by key: under every key of [cs] it holds that
    key's changes in the order of [cs], and it holds no other key. *)
Definition grouped (changes : gmap string (list Master.change))
    (cs : list Master.change) : Prop :=
  forall k : string,
    changes !! k
    = if decide (history_of k cs = []) then None else Some (history_of k cs).

(** The wasted changes of one key's history [h] of [n] changes: none when
    [n <= 1], all of them when [n] is even, the first [n - 1] when [n] is
    odd. *)
Definition wasted_part (h : list Master.change) : list Master.change :=
  if (length h <=? 1)%nat then []
  else if Nat.even (length h) then h
  else take (length h - 1) h.

(** A bucket after [Bucket.AddPatch patch]: the row is at the end of the
    staging file, the bucket is marked changed and the patch is the last
    of its list. *)
Definition appended `{Env} (patch : Patch) (b : Bucket.t) : Bucket.t :=
  Bucket.set_Patches (Bucket.Patches b ++ [patch])
    (Bucket.set_IsChanged true
       (Bucket.set_File
          (Bucket.File b +:+
           csv_encode (GetAction patch :: GetKey patch :: GetValues patch))
          b)).

(** The bucket [Master.AddPatch] allocates under the number [n], after its
    [Init]. *)
Definition fresh_bucket `{Env} (m : Master.t) (n : Z) : Bucket.t :=
  let b := Bucket.NewBucket (Master.StorageBucketName m) "" ""
             (Master.Dir m) n "" "" 0 in
  Bucket.set_ZippedFile
    (open_local (Bucket.Dir b) (Bucket.ZippedFileName b))
    (Bucket.set_File (open_local (Bucket.Dir b) (Bucket.FileName b)) b).

(** The size of the staging file is over the cap of 2,048,000 bytes. *)
Definition over_cap (b : Bucket.t) : bool :=
  2048000 <? Z.of_nat (String.length (Bucket.File b)).

(** A master whose only shard has the number 0 and an empty staging
    file. *)
Definition shard0_master : Master.t := Sample.master [Sample.bucket 0 []].

(** Three shards, the one numbered 3 in the middle. *)
Definition three_shards_master : Master.t :=
  Sample.master [Sample.bucket 1 []; Sample.bucket 3 []; Sample.bucket 2 []].

(** The patch a record stands for: the first column is the action, the
    second the key, the remaining columns are the values. *)
Definition row_patch (line : list string) : Patch :=
  match line with
  | action :: key :: values => DefaultPatch action key values
  | _ => DefaultPatch EmptyString EmptyString []
  end.

(** The bucket after the records [rows] were materialised, one patch a
    record, in the order of [rows], behind the patches it had. *)
Definition with_rows (b : Bucket.t) (rows : list (list string)) : Bucket.t :=
  Bucket.set_Patches (Bucket.Patches b ++ (row_patch <$> rows)) b.

(** Every record of [rows] is accepted by the validator, which sees the
    bucket with the records before it materialised, and has at least two
    columns. *)
Definition rows_pass (Validation : Bucket.validator) (b : Bucket.t)
    (rows : list (list string)) : Prop :=
  forall (i : nat) (line : list string),
    rows !! i = Some line ->
    Validation line (with_rows b (take i rows)) = None /\
    (2 <= length line)%nat.

(** A shard whose compressed artifact holds two rows and whose recorded
    digests are [zippedHash] and [unzippedHash]. *)
Definition fetched_bucket (zippedHash unzippedHash : string) : Bucket.t :=
  Bucket.set_ZippedFile "z+,A,1
-,A
"
    (Bucket.NewBucket "store" "9-1.csv.zlib" "patches/9-1.csv.zlib" "/work"
       1 zippedHash unzippedHash 2).

(** The same shard with a staging file of three rows, the last one short. *)
Definition staged_bucket (content : bytes) : Bucket.t :=
  Bucket.set_File content
    (Bucket.NewBucket "store" "9-1.csv.zlib" "patches/9-1.csv.zlib" "/work"
       1 "" (Double.digest content) 2).

(** The relative name a changed artifact is published under. *)
Definition relocated (unix : Z) (zippedFileName : string) : string :=
  FormatInt unix +:+ "-" +:+ zippedFileName.

(** A changed shard after compress, hash and relocation. *)
Definition republished `{Env} (unix : Z) (remoteDir : string)
    (b : Bucket.t) : Bucket.t :=
  Bucket.set_RemoteFilePath
    (remoteDir +:+ "/" +:+ relocated unix (Bucket.ZippedFileName b))
    (Bucket.set_RelativeFilePath (relocated unix (Bucket.ZippedFileName b))
       (Bucket.set_ZippedHash (md5_hex (zlib_compress (Bucket.File b)))
          (Bucket.set_UnzippedHash (md5_hex (Bucket.File b))
             (Bucket.set_ZippedFile (zlib_compress (Bucket.File b)) b)))).

(** A shard after a publish that went through: only a shard that is not
    deleted and is changed is touched. *)
Definition published `{Env} (unix : Z) (remoteDir : string)
    (b : Bucket.t) : Bucket.t :=
  if Bucket.IsDeleted b then b
  else if Bucket.IsChanged b then republished unix remoteDir b
  else b.

(** The remote changes of one upload. *)
Definition upload_ops (public : bool) (bucket name : string)
    (content : bytes) : list StorageOp :=
  OpPut bucket name content ::
  (if public then [OpMakePublic bucket name] else []).

(** The remote changes a publish makes for one shard. *)
Definition bucket_ops `{Env} (unix : Z) (remoteDir : string) (public : bool)
    (b : Bucket.t) : list StorageOp :=
  if Bucket.IsDeleted b then []
  else if Bucket.IsChanged b then
    upload_ops public (Bucket.StorageBucketName b)
      (Bucket.RemoteFilePath (republished unix remoteDir b))
      (Bucket.ZippedFile (republished unix remoteDir b))
  else [].

(** The descriptor row of a shard, as the master document holds it. *)
Definition descriptor_row `{Env} (b : Bucket.t) : bytes :=
  csv_encode [Itoa (Bucket.Number b);
              Bucket.RelativeFilePath b;
              "zlib";
              Bucket.ZippedHash b;
              Bucket.UnzippedHash b;
              Itoa (Z.of_nat (length (Bucket.Patches b)))].

(** [file] followed by the descriptor rows of the shards of [bs] that are
    not deleted, in the order of [bs]. *)
Definition write_rows `{Env} (file : bytes) (bs : list Bucket.t) : bytes :=
  foldl
    (fun file b =>
       if Bucket.IsDeleted b then file else file +:+ descriptor_row b)
    file bs.

(** The snapshot [Categories.Write] leaves in the staging file: one row of
    id, category, subcategory and description for every item, in order. *)
Definition snapshot_from `{Env} (file : bytes)
    (items : list CategoriesItem) : bytes :=
  foldl
    (fun file definition =>
       file +:+
       csv_encode [Itoa (GetId definition); GetCategory definition;
                   GetSubcategory definition; GetDescription definition])
    file items.

(** The categories after [Write]: the staging file holds the snapshot and
    its handle is at the end of it. *)
Definition rewritten `{Env} (c : Categories.t) : Categories.t :=
  Categories.set_FileOffset
    (String.length (snapshot_from "" (Categories.CategoryItems c)))
    (Categories.set_File (snapshot_from "" (Categories.CategoryItems c)) c).

(** What [IsChanged] reports after [Write]. *)
Definition categories_changed `{Env} (c : Categories.t) : bool :=
  bool_decide
    (md5_hex (Categories.File (rewritten c)) ≠ Categories.UnzippedHash c).

(** Changed categories after compress, hash, relocation and upload: the
    handle of the compressed file is at the end of it. *)
Definition republished_categories `{Env} (unix : Z) (remoteDir : string)
    (c : Categories.t) : Categories.t :=
  Categories.set_RemoteFilePath
    (remoteDir +:+ "/" +:+ relocated unix (Categories.ZippedFileName c))
    (Categories.set_RelativeFilePath
       (relocated unix (Categories.ZippedFileName c))
       (Categories.set_ZippedHash
          (md5_hex (zlib_compress (Categories.File (rewritten c))))
          (Categories.set_UnzippedHash
             (md5_hex (Categories.File (rewritten c)))
             (Categories.set_ZippedFileOffset
                (String.length (zlib_compress (Categories.File (rewritten c))))
                (Categories.set_ZippedFile
                   (zlib_compress (Categories.File (rewritten c)))
                   (rewritten c)))))).

(** The categories after a publish that went through. *)
Definition published_categories `{Env} (unix : Z) (remoteDir : string)
    (c : Categories.t) : Categories.t :=
  if categories_changed c then republished_categories unix remoteDir c
  else rewritten c.

(** The remote changes a publish makes for the categories. *)
Definition categories_ops `{Env} (unix : Z) (remoteDir : string)
    (public : bool) (c : Categories.t) : list StorageOp :=
  if categories_changed c then
    upload_ops public (Categories.StorageBucketName c)
      (Categories.RemoteFilePath (republished_categories unix remoteDir c))
      (Categories.ZippedFile (republished_categories unix remoteDir c))
  else [].

(** The master with [content] in its file and the handle at the end of
    it, as a run of writes from the start of the emptied file leaves it. *)
Definition filled (content : bytes) (m : Master.t) : Master.t :=
  Master.set_FileOffset (String.length content) (Master.set_File content m).

(** The descriptor row of the categories. *)
Definition categories_row `{Env} (c : Categories.t) (count : nat) : bytes :=
  csv_encode ["-1";
              Categories.RelativeFilePath c;
              "zlib";
              Categories.ZippedHash c;
              Categories.UnzippedHash c;
              Itoa (Z.of_nat count)].

(** The header row of the master document. *)
Definition header_row `{Env} (now : Time) : bytes :=
  csv_encode ["V1"; FormatInt (Unix now); DateTimeFormat now].

(** The master document before the rows of the shards: the header row
    and, when categories are configured, their descriptor row. *)
Definition document_head `{Env} (now : Time) (m : Master.t) : bytes :=
  match Master.Categories m with
  | Some c =>
      header_row now +:+
      categories_row
        (published_categories (Unix now) (Master.RemoteDir m) c)
        (length (Master.CategoryItems m))
  | None => header_row now
  end.

(** The master after a publish at [now] that went through; the handle of
    the master file is at the end of the document. *)
Definition published_master `{Env} (now : Time) (m : Master.t) : Master.t :=
  let categories :=
    published_categories (Unix now) (Master.RemoteDir m)
      <$> Master.Categories m in
  let buckets :=
    published (Unix now) (Master.RemoteDir m) <$> Master.Buckets m in
  {| Master.StorageBucketName := Master.StorageBucketName m;
     Master.RemoteDir := Master.RemoteDir m;
     Master.Dir := Master.Dir m;
     Master.FileName := Master.FileName m;
     Master.Public := Master.Public m;
     Master.File :=
       write_rows (document_head now m) buckets;
     Master.FileOffset :=
       String.length (write_rows (document_head now m) buckets);
     Master.Categories := categories;
     Master.CategoryItems := Master.CategoryItems m;
     Master.IsChanged := Master.IsChanged m;
     Master.Version := Master.Version m;
     Master.UnixTime := Unix now;
     Master.DateTime := DateTimeFormat now;
     Master.Buckets := buckets |}.

(** The remote changes of a publish at [now] that went through: the
    categories when they changed, every shard that is changed and not
    deleted, in order, and last the master document at its fixed name. *)
Definition publish_ops `{Env} (now : Time) (m : Master.t)
  : list StorageOp :=
  match Master.Categories m with
  | Some c =>
      categories_ops (Unix now) (Master.RemoteDir m) (Master.Public m) c
  | None => []
  end
  ++ concat (bucket_ops (Unix now) (Master.RemoteDir m) (Master.Public m)
             <$> Master.Buckets m)
  ++ upload_ops (Master.Public m) (Master.StorageBucketName m)
       (Master.RemoteDir m +:+ "/" +:+ Master.FileName m)
       (Master.File (published_master now m)).

(** A shard named [n].csv with a remote path from an earlier publish, the
    two flags as given. *)
Definition listed_bucket (n : Z) (changed deleted : bool) : Bucket.t :=
  {| Bucket.StorageBucketName := "store";
     Bucket.RelativeFilePath := "3-" +:+ Itoa n +:+ ".csv.zlib";
     Bucket.RemoteFilePath := "patches/3-" +:+ Itoa n +:+ ".csv.zlib";
     Bucket.Dir := "/work";
     Bucket.Number := n;
     Bucket.FileName := Itoa n +:+ ".csv";
     Bucket.File := "+,A,1
";
     Bucket.ZippedFileName := Itoa n +:+ ".csv.zlib";
     Bucket.ZippedFile := "z+,A,1
";
     Bucket.IsChanged := changed;
     Bucket.IsDeleted := deleted;
     Bucket.ZippedHash := "md5:7";
     Bucket.UnzippedHash := "md5:6";
     Bucket.PatchCount := 0;
     Bucket.Patches := [Sample.Set_ "A" ["1"]] |}.

(** A changed shard, an unchanged one and a changed one flagged deleted. *)
Definition publish_master_sample : Master.t :=
  Sample.master [listed_bucket 1 true false;
                 listed_bucket 2 false false;
                 listed_bucket 3 true true].

(** Only a changed shard flagged deleted. *)
Definition deleted_changed_master : Master.t :=
  Sample.master [listed_bucket 3 true true].

Definition sample_item : CategoriesItem :=
  {| GetId := 1;
     GetCategory := "cat";
     GetSubcategory := "sub";
     GetIdentifier := "ident";
     GetDescription := "desc";
     GetTlc := "tlc";
     GetSlc := "slc" |}.

(** A master with categories of one item that were never published, and
    no shard. *)
Definition categories_master : Master.t :=
  {| Master.StorageBucketName := "store";
     Master.RemoteDir := "patches";
     Master.Dir := "/work";
     Master.FileName := "master.csv";
     Master.Public := false;
     Master.File := "";
     Master.FileOffset := 0;
     Master.Categories :=
       Some (Categories.NewCategories "store" "" "" "/work" "" ""
               [sample_item]);
     Master.CategoryItems := [sample_item];
     Master.IsChanged := false;
     Master.Version := "";
     Master.UnixTime := 0;
     Master.DateTime := "";
     Master.Buckets := [] |}.

(** Five seconds and a bit after the epoch. *)
Definition sample_now : Time := 5000000007.

(** [name] is one of the remote names the master refers to: that of its
    categories, that of one of its shards, or its own. *)
Definition referenced (m : Master.t) (name : string) : Prop :=
  (exists c, Master.Categories m = Some c /\
             name = Categories.RemoteFilePath c) \/
  (exists b, b ∈ Master.Buckets m /\ name = Bucket.RemoteFilePath b) \/
  name = Master.RemoteDir m +:+ "/" +:+ Master.FileName m.

(** The object at index [i] of the listing is older than 24 hours when
    the sweep looks at it. *)
Definition older_than_a_day (clock : nat -> Time) (i : nat)
    (file : ObjectAttrs) : Prop :=
  Created file < clock i - 24 * Hour.

(** Noon of the second day after the epoch, and three objects: two
    orphans created 25 hours and one hour before, and the master
    document, created 48 hours before. *)
Definition sweep_time : Time := 48 * Hour.

(* ================================================================== *)
(** ** Definitions used to state the further properties *)

(** [p] sets the key [k]. *)
Definition sets (k : string) (p : Patch) : Prop :=
  GetAction p = "+" /\ GetKey p = k.

(** [p] takes the key [k] out of the list: it deletes [k], or it clears
    the whole list. *)
Definition removes (k : string) (p : Patch) : Prop :=
  (GetAction p = "-" /\ GetKey p = k) \/ GetAction p = "*".

(** The actions the replay knows. *)
Definition known_action (p : Patch) : Prop :=
  GetAction p = "+" \/ GetAction p = "-" \/ GetAction p = "*".

#[global] Instance known_action_dec (p : Patch) : Decision (known_action p).
Proof. unfold known_action. apply _. Defined.

(** The columns of the row [Bucket.AddPatch] writes for [patch]. *)
Definition patch_fields (patch : Patch) : list string :=
  GetAction patch :: GetKey patch :: GetValues patch.

(** The staging file of [b] holds the rows of the patches of [b], in
    order: read back, every row is the patch at its place. *)
Definition in_step `{Env} (b : Bucket.t) : Prop :=
  row_patch <$> csv_records (Bucket.File b) = Bucket.Patches b.

(** The bucket [Master.Download] builds from the descriptor row of the
    published shard [b], for a master with the remote directory
    [remoteDir] and the working directory [dir]. *)
Definition described (storageBucketName remoteDir dir : string)
    (b : Bucket.t) : Bucket.t :=
  Bucket.NewBucket storageBucketName (Bucket.RelativeFilePath b)
    (remoteDir +:+ "/" +:+ Bucket.RelativeFilePath b) dir (Bucket.Number b)
    (Bucket.ZippedHash b) (Bucket.UnzippedHash b)
    (Z.of_nat (length (Bucket.Patches b))).

(** The compressed artifact of [b] reads back: the codec inflates it to
    the end, and the validator accepts every row of what it inflates to
    (it sees the bucket with the artifact in place). *)
Definition reads_back `{Env} (Validation : Bucket.validator)
    (b : Bucket.t) : Prop :=
  exists out : bytes,
    zlib_inflate (zlib_compress (Bucket.File b)) = Stream out None /\
    forall line, line ∈ csv_records out ->
      Validation line
        (Bucket.set_ZippedFile (zlib_compress (Bucket.File b)) b) = None.

(** A validator that refuses every row of the shard numbered [n]. *)
Definition refuse_shard (n : Z) : Bucket.validator :=
  fun _ b =>
    if decide (Bucket.Number b = n) then Some (ErrMessage "refused")
    else None.

(** Two changed shards. *)
Definition two_changed_master : Master.t :=
  Sample.master [listed_bucket 1 true false; listed_bucket 2 true false].

(** Nine seconds after the epoch. *)
Definition later_now : Time := 9000000000.

(** The columns of the descriptor row of a shard, and those of the header
    row. *)
Definition descriptor_fields (b : Bucket.t) : list string :=
  [Itoa (Bucket.Number b);
   Bucket.RelativeFilePath b;
   "zlib";
   Bucket.ZippedHash b;
   Bucket.UnzippedHash b;
   Itoa (Z.of_nat (length (Bucket.Patches b)))].

Definition header_fields `{Env} (now : Time) : list string :=
  ["V1"; FormatInt (Unix now); DateTimeFormat now].

(** The shards that are not flagged deleted. *)
Definition live (bs : list Bucket.t) : list Bucket.t :=
  filter (fun b => Bucket.IsDeleted b = false) bs.

(** [file] followed by the encoding of every row of [rows]. *)
Definition encode_rows `{Env} (file : bytes) (rows : list (list string))
  : bytes :=
  foldl (fun file row => file +:+ csv_encode row) file rows.

(** The number of [b] and its count of patches are 64-bit integers, and
    the number is not the one that marks the categories row. *)
Definition fits_a_row (b : Bucket.t) : Prop :=
  minInt64 <= Bucket.Number b <= maxInt64 /\
  Bucket.Number b ≠ -1 /\
  Z.of_nat (length (Bucket.Patches b)) <= maxInt64.

(** The master a reader has after it read the document of a publish at
    [now] that listed the shards [bs]: the document was written at the
    offset of the reader's file, and the file was read to its end. *)
Definition read_back `{Env} (now : Time) (bs : list Bucket.t)
    (document : bytes) (reader : Master.t) : Master.t :=
  Master.set_Buckets
    (Master.Buckets reader ++
     (described (Master.StorageBucketName reader) (Master.RemoteDir reader)
        (Master.Dir reader) <$> bs))
    (Master.set_DateTime (DateTimeFormat now)
       (Master.set_UnixTime (Unix now)
          (Master.set_Version "V1"
             (filled
                (write_at (Master.FileOffset reader) (Master.File reader)
                   document)
                reader)))).

(** Categories as [Master.Download] installs them for a descriptor row,
    with a compressed artifact of one row of four columns on the
    backend. *)
Definition listed_categories (zippedHash unzippedHash : string)
  : Categories.t :=
  Categories.NewCategories "store" "5-categories.csv.zlib"
    "patches/5-categories.csv.zlib" "/work" zippedHash unzippedHash
    [sample_item].

Definition categories_store : Storage :=
  Double.storage [("patches/5-categories.csv.zlib", "z1,cat,sub,desc
")] [] [].

(** The categories of the sample after their download. *)
Definition downloaded_categories : Categories.t :=
  Categories.set_FileOffset 0
    (Categories.set_File "1,cat,sub,desc
"
       (Categories.set_ZippedFileOffset 16
          (Categories.set_ZippedFile "z1,cat,sub,desc
" (listed_categories "md5:16" "md5:15")))).

(** A bucket after [Bucket.Init]: its two files hold what the working
    directory has under their names. *)
Definition initialised `{Env} (b : Bucket.t) : Bucket.t :=
  Bucket.set_ZippedFile (open_local (Bucket.Dir b) (Bucket.ZippedFileName b))
    (Bucket.set_File (open_local (Bucket.Dir b) (Bucket.FileName b)) b).

(** A bucket loaded from the local copy of its staging file. *)
Definition loaded_locally `{Env} (b : Bucket.t) : Bucket.t :=
  with_rows (initialised b) (csv_records (Bucket.File (initialised b))).

(** The local copy of the staging file of [b] verifies: it has the
    recorded digest and its rows pass. *)
Definition local_copy_verifies `{Env} (Validation : Bucket.validator)
    (b : Bucket.t) : Prop :=
  Bucket.UnzippedHash b = md5_hex (Bucket.File (initialised b)) /\
  rows_pass Validation (initialised b)
    (csv_records (Bucket.File (initialised b))).

(** An environment whose working directory holds a staging file of one
    row for the shard numbered 1. *)
Definition env_with_local_copy : Env :=
  {| md5_hex := Double.digest;
     zlib_compress := Double.compress;
     zlib_inflate := Double.inflate;
     csv_records := Double.records;
     csv_failed_read := [EmptyString];
     csv_encode := Double.encode;
     zlib_offset := String.length;
     csv_offset := fun content _ => String.length content;
     open_local := fun _ name =>
       if decide (name = "1.csv") then "+,A,1
" else EmptyString;
     http_get := fun _ => inl (ErrMessage "404 Not Found");
     DateTimeFormat := fun t => Itoa (Unix t) |}.

(** A backend that fails every call. *)
Definition unreachable_storage : Storage :=
  {| DownloadWriter := fun _ _ =>
       (EmptyString, Some (ErrMessage "unreachable"));
     GetUploadWriter := fun _ _ => Some (ErrMessage "unreachable");
     WriterCopyClose := fun _ _ _ => Some (ErrMessage "unreachable");
     WriterCopied := fun _ _ _ => 0%nat;
     MakePublic := fun _ _ => Some (ErrMessage "unreachable");
     GetDownloadReader := fun _ _ => inl (ErrMessage "unreachable");
     Ls := fun _ _ => inl (ErrMessage "unreachable");
     Delete := fun _ _ => Some (ErrMessage "unreachable") |}.

(** A master that knows one shard from its descriptor row. *)
Definition described_master : Master.t :=
  Sample.master
    [Bucket.NewBucket "store" "5-1.csv.zlib" "patches/5-1.csv.zlib" "/work"
       1 "md5:7" "md5:6" 1].

(** What a shard that [DownloadBuckets] loaded satisfies, against the
    shard [b] as the master knew it: its staging file has the recorded
    digest, every row of the file has at least two columns and is a patch
    at the end of the patch list, and the file is the local copy or is
    what the fetched artifact, which has the recorded digest, inflates
    to. *)
Definition loaded_from `{Env} (b b' : Bucket.t) : Prop :=
  Bucket.UnzippedHash b = md5_hex (Bucket.File b') /\
  (row_patch <$> csv_records (Bucket.File b')) `suffix_of` Bucket.Patches b' /\
  Forall (fun line => (2 <= length line)%nat) (csv_records (Bucket.File b')) /\
  (Bucket.File b' = open_local (Bucket.Dir b) (Bucket.FileName b) \/
   (Bucket.ZippedHash b = md5_hex (Bucket.ZippedFile b') /\
    zlib_inflate (Bucket.ZippedFile b') = Stream (Bucket.File b') None)).

(** A backend that holds the artifact of the shard of [described_master]. *)
Definition shard_store : Storage :=
  Double.storage [("patches/5-1.csv.zlib", "z+,A,1
")] [] [].

(** [file] is one of the paths the local sweep passes over: the bare
    name of the categories' staging file, the path of the staging file or
    of the compressed file of a shard, or the path of the master file. *)
Definition kept_locally (m : Master.t) (file : string) : Prop :=
  (exists c, Master.Categories m = Some c /\ file = Categories.FileName c) \/
  (exists b, b ∈ Master.Buckets m /\
     (file = Master.Dir m +:+ "/" +:+ Bucket.ZippedFileName b \/
      file = Master.Dir m +:+ "/" +:+ Bucket.FileName b)) \/
  file = Master.Dir m +:+ "/" +:+ Master.FileName m.

(** A master with categories and one shard, and its working directory:
    the files of the shard, of the categories and of the master, and one
    file nobody owns. *)
Definition swept_master : Master.t :=
  Master.set_Categories
    (Some (Categories.NewCategories "store" "" "" "/work" "" ""
             [sample_item]))
    (Sample.master [Sample.bucket 1 []]).

Definition work_listing : list string :=
  ["/work/1.csv"; "/work/1.csv.zlib"; "/work/categories.csv";
   "/work/categories.csv.zlib"; "/work/master.csv"; "/work/old.tmp"].

(** The categories [InitCategories] gives a master that has none: no
    remote name, no digest, the items of the master, both files empty. *)
Definition new_categories (m : Master.t) : Categories.t :=
  Categories.NewCategories (Master.StorageBucketName m) "" ""
    (Master.Dir m) "" "" (Master.CategoryItems m).

Definition sample_config : Master.Config :=
  {| Master.ConfigStorageBucketName := "store";
     Master.ConfigRemoteDir := "patches";
     Master.ConfigDir := "/work";
     Master.ConfigFileName := "master.csv";
     Master.ConfigPublic := false;
     Master.ConfigCategoryItems := [sample_item] |}.

(** The name of the object a remote change is about. *)
Definition op_name (op : StorageOp) : string :=
  match op with
  | OpPut _ name _ => name
  | OpMakePublic _ name => name
  | OpDelete _ name => name
  end.

(** The address a public master is fetched from. *)
Definition master_url (now : Time) (m : Master.t) : string :=
  "https://storage.googleapis.com/" +:+ Master.StorageBucketName m +:+ "/" +:+
  Master.RemoteDir m +:+ "/" +:+ Master.FileName m +:+ "?" +:+ Itoa (Unix now).

(** The error of a request that could not connect: it quotes the
    address, as that of [http.Get] does. *)
Definition refused (url : string) : error :=
  ErrMessage
    ("Get " +:+
     String "034"%char
       (url +:+ String "034"%char ": dial tcp: connection refused")).

(** An environment in which no connection can be made. *)
Definition env_offline : Env :=
  {| md5_hex := Double.digest;
     zlib_compress := Double.compress;
     zlib_inflate := Double.inflate;
     csv_records := Double.records;
     csv_failed_read := [EmptyString];
     csv_encode := Double.encode;
     zlib_offset := String.length;
     csv_offset := fun content _ => String.length content;
     open_local := fun _ _ => EmptyString;
     http_get := fun url => inl (refused url);
     DateTimeFormat := fun t => Itoa (Unix t) |}.

(** A public master, and two times: 1704040000 and 1700000000 seconds
    after the epoch. *)
Definition public_master : Master.t :=
  Master.NewMaster
    {| Master.ConfigStorageBucketName := "store";
       Master.ConfigRemoteDir := "patches";
       Master.ConfigDir := "/work";
       Master.ConfigFileName := "master.csv";
       Master.ConfigPublic := true;
       Master.ConfigCategoryItems := [] |}.
Definition time_with_404 : Time := 1704040000 * 1000000000.
Definition time_without_404 : Time := 1700000000 * 1000000000.




(** The bucket a reader has of the shard [b], fetched. *)
Definition fetched `{Env} (storageBucketName remoteDir dir : string)
    (b : Bucket.t) : Bucket.t :=
  with_rows
    (Bucket.set_File (Bucket.File b)
       (Bucket.set_ZippedFile (Bucket.ZippedFile b)
          (initialised (described storageBucketName remoteDir dir b))))
    (csv_records (Bucket.File b)).


(** The columns of the row [Categories.Write] writes for an item. *)
Definition item_fields (definition : CategoriesItem) : list string :=
  [Itoa (GetId definition); GetCategory definition;
   GetSubcategory definition; GetDescription definition].

(** The categories [Master.Download] installs from the descriptor row of
    the published categories [c], before their [Init]. *)
Definition described_categories (storageBucketName remoteDir dir : string)
    (items : list CategoriesItem) (c : Categories.t) : Categories.t :=
  Categories.NewCategories storageBucketName (Categories.RelativeFilePath c)
    (remoteDir +:+ "/" +:+ Categories.RelativeFilePath c) dir
    (Categories.ZippedHash c) (Categories.UnzippedHash c) items.

(** A backend that can be read and refuses every writer. *)
Definition read_only_storage (objects : list (string * bytes)) : Storage :=
  {| DownloadWriter := @DownloadWriter (Double.storage objects [] []);
     GetUploadWriter := fun _ _ =>
       Some (ErrMessage "googleapi: Error 403: Forbidden");
     WriterCopyClose := fun _ _ _ => None;
     WriterCopied := fun _ _ content => String.length content;
     MakePublic := fun _ _ => None;
     GetDownloadReader := @GetDownloadReader (Double.storage objects [] []);
     Ls := fun _ _ => inr [];
     Delete := fun _ _ => None |}.

(** A master with one unchanged shard. *)
Definition quiet_master : Master.t :=
  Sample.master [listed_bucket 2 false false].

(* ================================================================== *)
(** * Properties *)

(** ** Strings and writes at an offset *)

Lemma append_cons (c : ascii) (s t : string) :
  String c s +:+ t = String c (s +:+ t).
Proof. reflexivity. Qed.

Lemma length_append (s t : string) :
  String.length (s +:+ t) = (String.length s + String.length t)%nat.
Proof.
  induction s as [|c s IH]; [done|].
  rewrite append_cons. simpl. by rewrite IH.
Qed.

Lemma append_nil_r (s : string) : s +:+ EmptyString = s.
Proof.
  induction s as [|c s IH]; [done|]. rewrite append_cons. by rewrite IH.
Qed.

Lemma skip_nil (n : nat) : skip n EmptyString = EmptyString.
Proof. by destruct n. Qed.

Lemma skip_append (s t : string) : skip (String.length s) (s +:+ t) = t.
Proof. induction s as [|c s IH]; [by destruct t|]. exact IH. Qed.

Lemma put_at_end (content data : bytes) :
  put_at (String.length content) content data = content +:+ data.
Proof.
  induction content as [|c content IH].
  - cbn [String.length put_at]. by rewrite skip_nil, append_nil_r.
  - cbn [String.length put_at]. rewrite IH. reflexivity.
Qed.

(** A write at the start of an empty file leaves what was written. *)
Lemma write_at_0_nil (data : bytes) : write_at 0 EmptyString data = data.
Proof. destruct data; [done|]. apply (put_at_end EmptyString). Qed.

(** A write at the end of a file appends. *)
Lemma write_at_end (content data : bytes) :
  write_at (String.length content) content data = content +:+ data.
Proof.
  destruct data; [by rewrite append_nil_r|]. apply put_at_end.
Qed.

(** The same bytes written twice from the start of a file leave what
    the first write left. *)
Lemma write_at_0_again (content data : bytes) :
  write_at 0 (write_at 0 content data) data = write_at 0 content data.
Proof.
  destruct data as [|d data]; [done|].
  unfold write_at. cbn [put_at]. by rewrite skip_append.
Qed.

Lemma Master_write_File_end (data : bytes) (m : Master.t) :
  Master.FileOffset m = String.length (Master.File m) ->
  Master.write_File data m
  = (Ok tt, filled (Master.File m +:+ data) m, []).
Proof.
  intros Hend. unfold Master.write_File, modify, filled.
  rewrite Hend, write_at_end, length_append. reflexivity.
Qed.

(** ** CompileList *)

Lemma CompileList_fold (bs : list Bucket.t) (l : gmap string (list string))
    (n : nat) :
  foldl
    (fun '(list_, totalPatches) bucket =>
       if Bucket.IsDeleted bucket then (list_, totalPatches)
       else
         (foldl Master.apply_patch list_ (Bucket.Patches bucket),
          (totalPatches + length (Bucket.Patches bucket))%nat))
    (l, n) bs
  = (foldl Master.apply_patch l
       (concat (Bucket.Patches <$>
                filter (fun b => Bucket.IsDeleted b = false) bs)),
     (n + length (concat (Bucket.Patches <$>
                filter (fun b => Bucket.IsDeleted b = false) bs)))%nat).
Proof.
  revert l n. induction bs as [|b bs IH]; intros l n; simpl.
  - by rewrite Nat.add_0_r.
  - rewrite filter_cons. destruct (Bucket.IsDeleted b) eqn:Hd.
    + rewrite decide_False by discriminate. apply IH.
    + rewrite decide_True by reflexivity. rewrite IH. simpl.
      rewrite foldl_app, length_app. by rewrite Nat.add_assoc.
Qed.

(** C1. CompileList replays the shards in master order, skipping the
    shards flagged deleted, and each shard's patches in log order, on a
    map that starts empty: "+" sets the key to the values, "-" removes the
    key, "*" empties the map.  The two shards of the replay example
    compile to the map with the single entry C -> [3]. *)
Theorem CompileList_replays_live_patches :
  (forall m : Master.t,
     fst (Master.CompileList m)
     = foldl Master.apply_patch ∅ (live_patches m)) /\
  (forall (l : gmap string (list string)) (k : string) (vs : list string),
     Master.apply_patch l (DefaultPatch "+" k vs) = <[k := vs]> l) /\
  (forall (l : gmap string (list string)) (k : string) (vs : list string),
     Master.apply_patch l (DefaultPatch "-" k vs) = delete k l) /\
  (forall (l : gmap string (list string)) (k : string) (vs : list string),
     Master.apply_patch l (DefaultPatch "*" k vs) = ∅) /\
  fst (Master.CompileList Sample.replay_master) = {[ "C" := ["3"] ]}.
Proof.
  split; [|split; [|split; [|split]]].
  - intros m. unfold Master.CompileList, live_patches.
    rewrite CompileList_fold. reflexivity.
  - reflexivity.
  - reflexivity.
  - reflexivity.
  - vm_compute. reflexivity.
Qed.

(** ** CalculateWastage *)

Lemma even_mod2 (n : nat) : Nat.even n = (n mod 2 =? 0)%nat.
Proof.
  destruct (Nat.even n) eqn:E; symmetry.
  - apply Nat.even_spec in E as [k ->]. apply Nat.eqb_eq.
    by rewrite Nat.mul_comm, Nat.Div0.mod_mul.
  - rewrite <- Nat.negb_odd in E. apply negb_false_iff in E.
    apply Nat.odd_spec in E as [k ->]. apply Nat.eqb_neq.
    by rewrite Nat.add_comm, Nat.mul_comm, Nat.Div0.mod_add.
Qed.

Lemma add_wastage_length (wastage history : list Master.change) :
  length (Master.add_wastage wastage history)
  = (length wastage + wasted_of (length history))%nat.
Proof.
  unfold Master.add_wastage, wasted_of. rewrite even_mod2.
  generalize (length_app wastage history).
  generalize (length_app wastage (take (length history - 1) history)).
  rewrite length_take.
  generalize (length (Master.add_wastage wastage history)).
  destruct (Nat.ltb_spec 1 (length history)),
           (Nat.leb_spec (length history) 1); try lia.
  destruct (length history mod 2 =? 0)%nat; intros; lia.
Qed.

Lemma collect_wastage_length (hs : list (list Master.change))
    (wastage : list Master.change) :
  length (foldl Master.add_wastage wastage hs)
  = (length wastage + sum_list_with (fun h => wasted_of (length h)) hs)%nat.
Proof.
  revert wastage. induction hs as [|h hs IH]; intros wastage; simpl.
  - by rewrite Nat.add_0_r.
  - rewrite IH, add_wastage_length. by rewrite Nat.add_assoc.
Qed.

Lemma grouped_empty : grouped ∅ [].
Proof. intros k. by rewrite lookup_empty. Qed.

Lemma grouped_record (changes : gmap string (list Master.change))
    (cs : list Master.change) (bucketKey patchKey : nat) (patch : Patch) :
  grouped changes cs ->
  grouped (Master.record_change changes bucketKey patchKey patch)
          (cs ++ [{| Master.key := GetKey patch;
                     Master.bucketKey := bucketKey;
                     Master.patchKey := patchKey |}]).
Proof.
  intros G k. unfold Master.record_change.
  pose proof (G (GetKey patch)) as Gp. pose proof (G k) as Gk.
  unfold history_of in *.
  rewrite filter_app, filter_cons, filter_nil. simpl.
  destruct (decide (GetKey patch = k)) as [Hk|Hne].
  - subst k. rewrite Gp.
    destruct (decide (filter _ cs = [])) as [E|E]; rewrite lookup_insert_eq.
    + by rewrite E.
    + rewrite decide_False; [done|]. by intros [? _]%app_eq_nil.
  - rewrite app_nil_r, <- Gk.
    destruct (changes !! GetKey patch); by rewrite lookup_insert_ne.
Qed.

Lemma grouped_patches (bucketKey : nat) (patches : list Patch) :
  forall (i : nat) (changes : gmap string (list Master.change))
         (cs : list Master.change),
    grouped changes cs ->
    grouped
      (range_fold
         (fun changes patchKey patch =>
            Master.record_change changes bucketKey patchKey patch)
         i patches changes)
      (cs ++ imap
               (fun j patch =>
                  {| Master.key := GetKey patch;
                     Master.bucketKey := bucketKey;
                     Master.patchKey := i + j |})
               patches).
Proof.
  induction patches as [|p patches IH]; intros i changes cs G; simpl.
  - by rewrite app_nil_r.
  - rewrite Nat.add_0_r, cons_middle, app_assoc.
    rewrite (imap_ext _
      (fun j patch =>
         {| Master.key := GetKey patch;
            Master.bucketKey := bucketKey;
            Master.patchKey := S i + j |}) patches).
    + apply IH, grouped_record, G.
    + intros j x _. simpl. by rewrite Nat.add_succ_r.
Qed.

Lemma grouped_buckets (buckets : list Bucket.t) :
  forall (i : nat) (changes : gmap string (list Master.change))
         (cs : list Master.change),
    grouped changes cs ->
    grouped
      (range_fold
         (fun changes bucketKey bucket =>
            range_fold
              (fun changes patchKey patch =>
                 Master.record_change changes bucketKey patchKey patch)
              0%nat (Bucket.Patches bucket) changes)
         i buckets changes)
      (cs ++ concat
               (imap
                  (fun j bucket =>
                     imap
                       (fun patchKey patch =>
                          {| Master.key := GetKey patch;
                             Master.bucketKey := i + j;
                             Master.patchKey := patchKey |})
                       (Bucket.Patches bucket))
                  buckets)).
Proof.
  induction buckets as [|b buckets IH]; intros i changes cs G; simpl.
  - by rewrite app_nil_r.
  - rewrite Nat.add_0_r, app_assoc.
    rewrite (imap_ext _
      (fun j bucket =>
         imap
           (fun patchKey patch =>
              {| Master.key := GetKey patch;
                 Master.bucketKey := S i + j;
                 Master.patchKey := patchKey |})
           (Bucket.Patches bucket)) buckets).
    + apply IH, (grouped_patches i _ 0%nat), G.
    + intros j x _. simpl. by rewrite Nat.add_succ_r.
Qed.

(** The first loop groups all changes by key, in encounter order. *)
Lemma collect_changes_grouped (m : Master.t) :
  grouped (Master.collect_changes m) (all_changes m).
Proof.
  apply (grouped_buckets (Master.Buckets m) 0%nat ∅ []), grouped_empty.
Qed.

Lemma occurrences_history (k : string) (cs : list Master.change) :
  length (history_of k cs) = occurrences k (Master.key <$> cs).
Proof.
  unfold history_of, occurrences.
  induction cs as [|c cs IH]; [done|].
  rewrite fmap_cons, !filter_cons.
  destruct (decide (Master.key c = k)); simpl; by rewrite IH.
Qed.

Lemma grouped_lookup (changes : gmap string (list Master.change))
    (cs : list Master.change) (k : string) (h : list Master.change) :
  grouped changes cs -> changes !! k = Some h ->
  h = history_of k cs /\ k ∈ Master.key <$> cs.
Proof.
  intros G Hk. rewrite G in Hk.
  destruct (decide (history_of k cs = [])) as [E|E]; [done|].
  split; [congruence|].
  destruct (history_of k cs) as [|c h'] eqn:Eh; [done|].
  assert (c ∈ history_of k cs) as Hc by (rewrite Eh; left).
  apply list_elem_of_filter in Hc as [<- Hc].
  by apply list_elem_of_fmap_2.
Qed.

Lemma grouped_keys (changes : gmap string (list Master.change))
    (cs : list Master.change) :
  grouped changes cs ->
  (map_to_list changes).*1 ≡ₚ remove_dups (Master.key <$> cs).
Proof.
  intros G. apply NoDup_Permutation.
  - apply NoDup_fst_map_to_list.
  - apply NoDup_remove_dups.
  - intros k. rewrite elem_of_remove_dups. split.
    + intros [[k' h] [-> Hin]]%list_elem_of_fmap.
      apply elem_of_map_to_list in Hin. simpl.
      by destruct (grouped_lookup _ _ _ _ G Hin).
    + intros [c [-> Hc]]%list_elem_of_fmap.
      apply list_elem_of_fmap.
      exists (Master.key c, history_of (Master.key c) cs). split; [done|].
      apply elem_of_map_to_list. rewrite G.
      rewrite decide_False; [done|].
      intros E. eapply (filter_nil_not_elem_of _ _ c E); done.
Qed.

Lemma grouped_wasted (cs : list Master.change)
    (l : list (string * list Master.change)) :
  (forall k h, (k, h) ∈ l -> h = history_of k cs) ->
  sum_list_with (fun h => wasted_of (length h)) l.*2
  = sum_list_with
      (fun k => wasted_of (occurrences k (Master.key <$> cs))) l.*1.
Proof.
  induction l as [|[k h] l IH]; intros Hl; [done|].
  rewrite !fmap_cons. cbn [sum_list_with fst snd]. f_equal.
  - rewrite (Hl k h) by left. by rewrite occurrences_history.
  - apply IH. intros k' h' Hin. apply Hl. by right.
Qed.

Lemma add_wastage_wasted_part (wastage history : list Master.change) :
  Master.add_wastage wastage history = wastage ++ wasted_part history.
Proof.
  unfold Master.add_wastage, wasted_part. rewrite even_mod2.
  destruct (Nat.ltb_spec 1 (length history)),
           (Nat.leb_spec (length history) 1); try lia.
  - by destruct (length history mod 2 =? 0)%nat.
  - by rewrite app_nil_r.
Qed.

Lemma collect_wastage_elem (hs : list (list Master.change))
    (wastage : list Master.change) (c : Master.change) :
  c ∈ foldl Master.add_wastage wastage hs
  <-> c ∈ wastage \/ exists h, h ∈ hs /\ c ∈ wasted_part h.
Proof.
  revert wastage. induction hs as [|h hs IH]; intros wastage; simpl.
  - split; [by left|]. intros [?|[h [Hh _]]]; [done|]. by inversion Hh.
  - rewrite IH, add_wastage_wasted_part, elem_of_app. split.
    + intros [[?|?]|[h' [? ?]]]; [by left| |].
      * right. exists h. split; [left|done].
      * right. exists h'. split; [by right|done].
    + intros [?|[h' [Hh' ?]]]; [by left; left|].
      apply elem_of_cons in Hh' as [->|?]; [by left; right|].
      right. by exists h'.
Qed.

(** C2, amended. CalculateWastage groups the patches of all shards,
    deleted ones included, by key in encounter order; a key that occurs N
    times counts for N wasted changes when N > 1 is even, for N - 1 when
    N > 1 is odd and for none when N = 1; the result is the float64
    quotient of the wasted changes by the distinct keys, times 100, with
    its fraction discarded (not rounded to the nearest integer). *)
Theorem CalculateWastage_truncates (m : Master.t) :
  grouped (Master.collect_changes m) (all_changes m) /\
  (forall c : Master.change,
     c ∈ Master.collect_wastage (Master.collect_changes m)
     <-> exists k, c ∈ wasted_part (history_of k (all_changes m))) /\
  length (Master.collect_wastage (Master.collect_changes m))
  = total_wasted (all_keys m) /\
  size (Master.collect_changes m) = total_distinct (all_keys m) /\
  Master.CalculateWastage m
  = truncated_percentage (total_wasted (all_keys m))
                         (total_distinct (all_keys m)).
Proof.
  pose proof (collect_changes_grouped m) as G.
  pose proof (grouped_keys _ _ G) as P.
  assert (length (Master.collect_wastage (Master.collect_changes m))
          = total_wasted (all_keys m)) as Hw.
  { unfold Master.collect_wastage, total_wasted, all_keys.
    rewrite collect_wastage_length. simpl.
    rewrite (grouped_wasted (all_changes m)).
    - by rewrite P.
    - intros k h Hin. apply elem_of_map_to_list in Hin.
      by destruct (grouped_lookup _ _ _ _ G Hin). }
  assert (size (Master.collect_changes m) = total_distinct (all_keys m))
    as Hd.
  { unfold total_distinct, all_keys.
    by rewrite <- P, length_fmap, length_map_to_list. }
  split; [done|]. split; [|split; [done|split; [done|]]].
  - intros c. unfold Master.collect_wastage.
    rewrite collect_wastage_elem. split.
    + intros [Hc|[h [Hh Hc]]]; [by inversion Hc|].
      apply list_elem_of_fmap in Hh as [[k h'] [-> Hin]].
      apply elem_of_map_to_list in Hin.
      destruct (grouped_lookup _ _ _ _ G Hin) as [-> _]. by exists k.
    + intros [k Hc]. right. exists (history_of k (all_changes m)).
      split; [|done]. apply list_elem_of_fmap.
      exists (k, history_of k (all_changes m)). split; [done|].
      apply elem_of_map_to_list. rewrite G.
      destruct (decide (history_of k (all_changes m) = [])) as [E|E];
        [|done].
      rewrite E in Hc. by inversion Hc.
  - unfold Master.CalculateWastage, truncated_percentage.
    by rewrite Hw, Hd.
Qed.

(** C2, as stated, fails on a shard with the keys A, A, A, B, C: two
    changes are wasted over three distinct keys, the nearest integer to
    200/3 is 67, and CalculateWastage returns 66. *)
Lemma CalculateWastage_not_rounded :
  all_keys wastage_master = ["A"; "A"; "A"; "B"; "C"] /\
  total_wasted (all_keys wastage_master) = 2%nat /\
  total_distinct (all_keys wastage_master) = 3%nat /\
  rounded_percentage 2 3 = 67 /\
  Master.CalculateWastage wastage_master = Some 66 /\
  Master.CalculateWastage wastage_master
  <> Some (rounded_percentage (total_wasted (all_keys wastage_master))
                              (total_distinct (all_keys wastage_master))).
Proof. vm_compute. repeat split; discriminate. Qed.

(** ** AddPatch *)

Lemma wrap64_in_range (z : Z) :
  minInt64 <= z <= maxInt64 -> wrap64 z = z.
Proof.
  unfold minInt64, maxInt64, wrap64. intros Hz.
  rewrite Z.mod_small; lia.
Qed.

(** Buckets that do not beat the running maximum leave the loop's
    variables as they are. *)
Lemma latest_stable (bs : list Bucket.t) :
  forall (i0 : nat) (acc : Z * option (nat * Bucket.t)),
    (forall b', b' ∈ bs -> Bucket.Number b' <= fst acc) ->
    range_fold Master.latest_step i0 bs acc = acc.
Proof.
  induction bs as [|b0 bs IH]; intros i0 acc Hle; simpl; [done|].
  unfold Master.latest_step at 2.
  pose proof (Hle b0 ltac:(left)) as H0.
  destruct (Z.ltb_spec (fst acc) (Bucket.Number b0)); [lia|].
  apply IH. intros b' Hb'. apply Hle. by right.
Qed.

(** The loop stops at the first bucket that carries the greatest number,
    when that number beats the initial maximum. *)
Lemma latest_found (bs : list Bucket.t) :
  forall (i0 : nat) (acc : Z * option (nat * Bucket.t)) (i : nat)
         (b : Bucket.t),
    bs !! i = Some b ->
    fst acc < Bucket.Number b ->
    (forall j b', (j < i)%nat -> bs !! j = Some b' ->
                  Bucket.Number b' < Bucket.Number b) ->
    (forall b', b' ∈ bs -> Bucket.Number b' <= Bucket.Number b) ->
    range_fold Master.latest_step i0 bs acc
    = (Bucket.Number b, Some ((i0 + i)%nat, b)).
Proof.
  induction bs as [|b0 bs IH]; intros i0 acc i b Hi Hacc Hfirst Hmax;
    [done|].
  destruct i as [|i]; simpl in *.
  - injection Hi as ->. unfold Master.latest_step at 2.
    destruct (Z.ltb_spec (fst acc) (Bucket.Number b)); [|lia].
    rewrite Nat.add_0_r. apply latest_stable. simpl.
    intros b' Hb'. apply Hmax. by right.
  - pose proof (Hfirst 0%nat b0 ltac:(lia) eq_refl) as H0.
    rewrite <- Nat.add_succ_comm. apply IH; try done.
    + unfold Master.latest_step.
      by destruct (Z.ltb_spec (fst acc) (Bucket.Number b0)).
    + intros j b' Hj Hb'. apply (Hfirst (S j) b'); [lia|done].
    + intros b' Hb'. apply Hmax. by right.
Qed.

Lemma Bucket_AddPatch_run `{Env} (patch : Patch) (b : Bucket.t) :
  Bucket.AddPatch patch b = (Ok tt, appended patch b, []).
Proof. reflexivity. Qed.

Lemma Bucket_IsFull_run (b : Bucket.t) :
  Bucket.IsFull b = (Ok (over_cap b), b, []).
Proof. reflexivity. Qed.

Lemma on_Bucket_run {A} (m : Master.t) (i : nat) (b0 b : Bucket.t)
    (op : M Bucket.t A) :
  Master.Buckets m !! i = Some b ->
  Master.on_Bucket i b0 op m
  = (fst (fst (op b)),
     Master.set_Buckets (<[i := snd (fst (op b))]> (Master.Buckets m)) m,
     snd (op b)).
Proof.
  intros Hi. unfold Master.on_Bucket, zoom. rewrite Hi. simpl.
  by destruct (op b) as [[r b'] l].
Qed.

Lemma set_Buckets_same (m : Master.t) :
  Master.set_Buckets (Master.Buckets m) m = m.
Proof. by destruct m. Qed.

Lemma Bucket_Init_fresh `{Env} (m : Master.t) (n : Z) :
  Bucket.Init
    (Bucket.NewBucket (Master.StorageBucketName m) "" "" (Master.Dir m) n
       "" "" 0)
  = (Ok tt, fresh_bucket m n, []).
Proof. reflexivity. Qed.

Lemma set_Buckets_twice (v w : list Bucket.t) (m : Master.t) :
  Master.set_Buckets v (Master.set_Buckets w m) = Master.set_Buckets v m.
Proof. reflexivity. Qed.

Lemma insert_last {A} (l : list A) (x y : A) :
  <[length l := y]> (l ++ [x]) = l ++ [y].
Proof. rewrite <- (Nat.add_0_r (length l)). by rewrite insert_app_r. Qed.

(** The second half of [AddPatch] when a bucket is opened. *)
Lemma AddPatch_open_tail `{Env} (m : Master.t) (patch : Patch) (n : Z) :
  Master.on_Bucket (length (Master.Buckets m)) (fresh_bucket m n)
    (Bucket.AddPatch patch)
    (Master.set_Buckets (Master.Buckets m ++ [fresh_bucket m n]) m)
  = (Ok tt,
     Master.set_Buckets
       (Master.Buckets m ++ [appended patch (fresh_bucket m n)]) m,
     []).
Proof.
  rewrite (on_Bucket_run _ _ _ (fresh_bucket m n)).
  - rewrite Bucket_AddPatch_run. cbn [fst snd].
    rewrite set_Buckets_twice.
    change (Master.Buckets (Master.set_Buckets ?v m)) with v.
    by rewrite insert_last.
  - change (Master.Buckets (Master.set_Buckets ?v m)) with v.
    by apply list_lookup_middle.
Qed.

Lemma AddPatch_opens `{Env} (m : Master.t) (patch : Patch) (mx : Z)
    (latest : option (nat * Bucket.t)) :
  range_fold Master.latest_step 0%nat (Master.Buckets m) (0, None)
  = (mx, latest) ->
  match latest with
  | Some (i, b) => Master.Buckets m !! i = Some b /\ over_cap b = true
  | None => True
  end ->
  Master.AddPatch patch m
  = (Ok tt,
     Master.set_Buckets
       (Master.Buckets m
        ++ [appended patch (fresh_bucket m (wrap64 (mx + 1)))]) m,
     []).
Proof.
  intros Hfold Hfull. unfold Master.AddPatch, bind, get. rewrite Hfold.
  cbv beta iota zeta.
  destruct latest as [[i b]|].
  - destruct Hfull as [Hi Hover].
    rewrite (on_Bucket_run m i b b _ Hi), Bucket_IsFull_run.
    cbn [fst snd]. rewrite list_insert_id by done.
    rewrite set_Buckets_same, Hover.
    unfold run_on. rewrite Bucket_Init_fresh. unfold modify, ret.
    cbv beta iota zeta. cbn [fst snd].
    by rewrite AddPatch_open_tail.
  - unfold run_on. rewrite Bucket_Init_fresh. unfold modify, ret.
    cbv beta iota zeta. cbn [fst snd].
    by rewrite AddPatch_open_tail.
Qed.

Lemma AddPatch_appends `{Env} (m : Master.t) (patch : Patch) (mx : Z)
    (i : nat) (b : Bucket.t) :
  range_fold Master.latest_step 0%nat (Master.Buckets m) (0, None)
  = (mx, Some (i, b)) ->
  Master.Buckets m !! i = Some b ->
  over_cap b = false ->
  Master.AddPatch patch m
  = (Ok tt,
     Master.set_Buckets (<[i := appended patch b]> (Master.Buckets m)) m,
     []).
Proof.
  intros Hfold Hi Hover. unfold Master.AddPatch, bind, get. rewrite Hfold.
  cbv beta iota zeta.
  rewrite (on_Bucket_run m i b b _ Hi), Bucket_IsFull_run.
  cbn [fst snd]. rewrite list_insert_id by done.
  rewrite set_Buckets_same, Hover. unfold ret.
  cbv beta iota zeta. cbn [fst snd].
  rewrite (on_Bucket_run m i b b _ Hi), Bucket_AddPatch_run.
  reflexivity.
Qed.

(** C3, amended. When the greatest shard number is positive and below the
    largest 64-bit integer, AddPatch locates the first shard with that
    number; if the shard reports IsFull (its staging file has more than
    2,048,000 bytes) a new shard numbered one greater is initialised and
    appended to the shard list, and the patch is appended to the shard
    that is now current; every other shard is left as it was.  When no
    shard has a positive number (in particular when there is no shard) the
    new shard has the number 1. *)
Theorem AddPatch_routes_to_latest `{Env} (m : Master.t) (patch : Patch) :
  ((forall b', b' ∈ Master.Buckets m -> Bucket.Number b' <= 0) ->
   Master.AddPatch patch m
   = (Ok tt,
      Master.set_Buckets
        (Master.Buckets m ++ [appended patch (fresh_bucket m 1)]) m,
      [])) /\
  (forall (i : nat) (b : Bucket.t),
     Master.Buckets m !! i = Some b ->
     0 < Bucket.Number b < maxInt64 ->
     (forall b', b' ∈ Master.Buckets m ->
                 Bucket.Number b' <= Bucket.Number b) ->
     (forall j b', (j < i)%nat -> Master.Buckets m !! j = Some b' ->
                   Bucket.Number b' < Bucket.Number b) ->
     exists m' : Master.t,
       Master.AddPatch patch m = (Ok tt, m', []) /\
       m' = Master.set_Buckets
              (if over_cap b then
                 Master.Buckets m
                 ++ [appended patch (fresh_bucket m (Bucket.Number b + 1))]
               else <[i := appended patch b]> (Master.Buckets m))
              m /\
       Bucket.Number (appended patch (fresh_bucket m (Bucket.Number b + 1)))
       = Bucket.Number b + 1 /\
       (forall j b', Master.Buckets m !! j = Some b' ->
                     Bucket.Number b' < Bucket.Number b ->
                     Master.Buckets m' !! j = Some b')).
Proof.
  split.
  - intros Hle.
    rewrite (AddPatch_opens m patch 0 None); [done| |done].
    by apply latest_stable.
  - intros i b Hi Hb Hmax Hfirst.
    pose proof (latest_found (Master.Buckets m) 0%nat (0, None) i b Hi
                  (proj1 Hb) Hfirst Hmax) as Hfold.
    simpl in Hfold.
    eexists. split; [|split; [reflexivity|split; [reflexivity|]]].
    + destruct (over_cap b) eqn:Hover.
      * rewrite (AddPatch_opens m patch _ _ Hfold); [|done].
        rewrite wrap64_in_range; [done|].
        unfold minInt64, maxInt64 in *. lia.
      * by apply (AddPatch_appends m patch (Bucket.Number b) i b).
    + intros j b' Hj Hlt.
      change (Master.Buckets (Master.set_Buckets ?v m)) with v.
      destruct (over_cap b).
      * by apply lookup_app_l_Some.
      * rewrite list_lookup_insert_ne; [done|].
        intros <-. rewrite Hi in Hj. injection Hj as <-. lia.
Qed.

(** The theorem at three shards numbered 1, 3, 2 with empty staging files:
    the patch goes to the shard numbered 3. *)
Lemma AddPatch_routes_to_latest_witness :
  exists m' : Master.t,
    @Master.AddPatch Double.env (Sample.Set_ "A" ["1"]) three_shards_master
    = (Ok tt, m', []) /\
    m' = Sample.master
           [Sample.bucket 1 [];
            @appended Double.env (Sample.Set_ "A" ["1"]) (Sample.bucket 3 []);
            Sample.bucket 2 []] /\
    Bucket.Number
      (@appended Double.env (Sample.Set_ "A" ["1"])
         (@fresh_bucket Double.env three_shards_master 4)) = 4 /\
    (forall j b', Master.Buckets three_shards_master !! j = Some b' ->
                  Bucket.Number b' < 3 ->
                  Master.Buckets m' !! j = Some b').
Proof.
  apply (proj2 (@AddPatch_routes_to_latest Double.env three_shards_master
                  (Sample.Set_ "A" ["1"])) 1%nat (Sample.bucket 3 [])).
  - reflexivity.
  - vm_compute. split; reflexivity.
  - intros b' Hb'. vm_compute in Hb'.
    repeat (apply elem_of_cons in Hb' as [->|Hb']); try (vm_compute; discriminate).
    inversion Hb'.
  - intros j b' Hj Hb'. destruct j as [|[|]]; [|lia|lia].
    injection Hb' as <-. vm_compute. reflexivity.
Defined.

(** C3, as stated, fails on a master whose only shard has the number 0:
    that shard has the greatest number and is not full, yet the patch does
    not go to it; a shard numbered 1 is opened and receives the patch. *)
Lemma AddPatch_passes_over_shard_zero :
  Master.Buckets shard0_master = [Sample.bucket 0 []] /\
  Bucket.IsFull (Sample.bucket 0 []) = (Ok false, Sample.bucket 0 [], []) /\
  @Master.AddPatch Double.env (Sample.Set_ "A" ["1"]) shard0_master
  = (Ok tt,
     Master.set_Buckets
       [Sample.bucket 0 [];
        @appended Double.env (Sample.Set_ "A" ["1"])
          (@fresh_bucket Double.env shard0_master 1)]
       shard0_master,
     []).
Proof. vm_compute. auto. Qed.

(** ** Bucket: Unzip, VerifyUnzipped, Download *)

(** The three ways out of [Unzip]. *)
Lemma Unzip_run `{Env} (b : Bucket.t) :
  Bucket.Unzip b
  = if decide (Bucket.ZippedHash b ≠ md5_hex (Bucket.ZippedFile b)) then
      (Err (ErrInvalidZippedChecksum (Bucket.RemoteFilePath b)), b, [])
    else
      match zlib_inflate (Bucket.ZippedFile b) with
      | BadHeader e => (Err e, b, [])
      | Stream out tail =>
          (match tail with None => Ok tt | Some e => Err e end,
           Bucket.set_File out b, [])
      end.
Proof.
  unfold Bucket.Unzip, bind, get. cbv beta iota zeta.
  unfold Bucket.checksumReadSeeker.
  destruct (decide _); [done|].
  destruct (zlib_inflate _) as [e|out [e|]]; reflexivity.
Qed.

(** C4. Unzip compares the digest of the compressed bytes with the
    recorded zippedChecksum first: on a mismatch it returns the integrity
    error and leaves the bucket, its staging file included, as it was;
    whenever the staging file changes the digest had matched; on a match
    and a readable header the staging file is replaced by what the codec
    yields, with success when the stream ends well. *)
Theorem Unzip_verifies_before_decompressing `{Env} (b : Bucket.t) :
  (Bucket.ZippedHash b <> md5_hex (Bucket.ZippedFile b) ->
   Bucket.Unzip b
   = (Err (ErrInvalidZippedChecksum (Bucket.RemoteFilePath b)), b, [])) /\
  (forall r b' l,
     Bucket.Unzip b = (r, b', l) ->
     Bucket.File b' <> Bucket.File b ->
     Bucket.ZippedHash b = md5_hex (Bucket.ZippedFile b)) /\
  (Bucket.ZippedHash b = md5_hex (Bucket.ZippedFile b) ->
   (forall e, zlib_inflate (Bucket.ZippedFile b) = BadHeader e ->
              Bucket.Unzip b = (Err e, b, [])) /\
   (forall out tail,
      zlib_inflate (Bucket.ZippedFile b) = Stream out tail ->
      Bucket.Unzip b
      = (match tail with None => Ok tt | Some e => Err e end,
         Bucket.set_File out b, []))).
Proof.
  rewrite Unzip_run. split; [|split].
  - intros Hne. by rewrite decide_True.
  - intros r b' l Hrun Hfile.
    destruct (decide (Bucket.ZippedHash b ≠ md5_hex (Bucket.ZippedFile b)))
      as [Hne|Heq]; [congruence|]. by apply dec_stable.
  - intros Heq. rewrite decide_False by auto. split.
    + by intros e ->.
    + by intros out tail ->.
Qed.

(** The theorem at a compressed artifact whose digest is not the recorded
    one, and at one whose digest is. *)
Lemma Unzip_verifies_before_decompressing_witness :
  @Bucket.Unzip Double.env (fetched_bucket "md5:stale" "")
  = (Err (ErrInvalidZippedChecksum "patches/9-1.csv.zlib"),
     fetched_bucket "md5:stale" "", []) /\
  @Bucket.Unzip Double.env (fetched_bucket "md5:11" "")
  = (Ok tt,
     Bucket.set_File "+,A,1
-,A
" (fetched_bucket "md5:11" ""), []).
Proof.
  split.
  - apply (proj1 (@Unzip_verifies_before_decompressing Double.env
                    (fetched_bucket "md5:stale" ""))).
    vm_compute. discriminate.
  - apply (proj2 (proj2 (proj2
             (@Unzip_verifies_before_decompressing Double.env
                (fetched_bucket "md5:11" ""))) eq_refl) _ None).
    reflexivity.
Defined.

Lemma with_rows_nil (b : Bucket.t) : with_rows b [] = b.
Proof. unfold with_rows. simpl. rewrite app_nil_r. by destruct b. Qed.

Lemma with_rows_app (b : Bucket.t) (xs ys : list (list string)) :
  with_rows (with_rows b xs) ys = with_rows b (xs ++ ys).
Proof.
  unfold with_rows. destruct b. simpl.
  by rewrite fmap_app, app_assoc.
Qed.

(** One turn of the read loop: the validator is asked first, then the
    number of columns is tested, then one patch is appended. *)
Lemma verify_row_run `{Env} (Validation : Bucket.validator)
    (line : list string) (b : Bucket.t) :
  Bucket.verify_row Validation line b
  = match Validation line b with
    | Some e => (Err e, b, [])
    | None =>
        if (length line <? 2)%nat then
          (Err (ErrShortRow (Bucket.RemoteFilePath b)), b, [])
        else (Ok tt, with_rows b [line], [])
    end.
Proof.
  unfold Bucket.verify_row, bind, get, check. cbv beta iota zeta.
  destruct (Validation line b); [done|].
  destruct line as [|action [|key [|v values]]]; reflexivity.
Qed.

Lemma rows_pass_cons (Validation : Bucket.validator) (b : Bucket.t)
    (line : list string) (rows : list (list string)) :
  rows_pass Validation b (line :: rows) ->
  Validation line b = None /\ (2 <= length line)%nat /\
  rows_pass Validation (with_rows b [line]) rows.
Proof.
  intros Hpass. destruct (Hpass 0%nat line eq_refl) as [Hv Hlen].
  simpl in Hv. rewrite with_rows_nil in Hv.
  split; [done|]. split; [done|].
  intros i line' Hi. destruct (Hpass (S i) line' Hi) as [Hv' Hlen'].
  split; [|done]. simpl in Hv'. by rewrite with_rows_app.
Qed.

(** The read loop over records that pass amounts to materialising them. *)
Lemma verify_rows_pass `{Env} (Validation : Bucket.validator)
    (pre rest : list (list string)) :
  forall b : Bucket.t,
    rows_pass Validation b pre ->
    forM (pre ++ rest) (Bucket.verify_row Validation) b
    = forM rest (Bucket.verify_row Validation) (with_rows b pre).
Proof.
  induction pre as [|line pre IH]; intros b Hpass.
  - by rewrite with_rows_nil.
  - apply rows_pass_cons in Hpass as (Hv & Hlen & Hpass).
    simpl. unfold bind at 1. rewrite verify_row_run, Hv.
    destruct (Nat.ltb_spec (length line) 2); [lia|].
    rewrite (IH _ Hpass), with_rows_app. simpl.
    by destruct (forM rest _ _) as [[r b'] l].
Qed.

(** C5. Once the digest of the staging file matches, VerifyUnzipped goes
    through the records in file order and passes each one to the
    validator; a record the validator refuses ends the run with the
    validator's error, a record it accepts that has fewer than two columns
    ends it with the malformed-row error, and any other record adds exactly
    one patch (first column the action, second the key, the rest the
    values, none when there are two columns) behind those already there. *)
Theorem VerifyUnzipped_materialises_rows `{Env}
    (Validation : Bucket.validator) (b : Bucket.t)
    (pre : list (list string)) :
  Bucket.UnzippedHash b = md5_hex (Bucket.File b) ->
  rows_pass Validation b pre ->
  (csv_records (Bucket.File b) = pre ->
   Bucket.VerifyUnzipped Validation b = (Ok tt, with_rows b pre, [])) /\
  (forall line post,
     csv_records (Bucket.File b) = pre ++ line :: post ->
     (forall e, Validation line (with_rows b pre) = Some e ->
                Bucket.VerifyUnzipped Validation b
                = (Err e, with_rows b pre, [])) /\
     (Validation line (with_rows b pre) = None ->
      (length line < 2)%nat ->
      Bucket.VerifyUnzipped Validation b
      = (Err (ErrShortRow (Bucket.RemoteFilePath b)), with_rows b pre, []))) /\
  (forall action key values,
     row_patch (action :: key :: values) = DefaultPatch action key values).
Proof.
  intros Hsum Hpass.
  assert (forall rest,
    csv_records (Bucket.File b) = pre ++ rest ->
    Bucket.VerifyUnzipped Validation b
    = forM rest (Bucket.verify_row Validation) (with_rows b pre)) as Hrun.
  { intros rest Hrows. unfold Bucket.VerifyUnzipped, bind, get.
    cbv beta iota zeta. unfold Bucket.checksumReadSeeker.
    rewrite decide_False by auto. rewrite Hrows.
    rewrite (verify_rows_pass Validation pre rest b Hpass).
    by destruct (forM rest _ _) as [[r b'] l]. }
  split; [|split; [|done]].
  - intros Hrows. rewrite (Hrun []); [done|]. by rewrite app_nil_r.
  - intros line post Hrows. rewrite (Hrun _ Hrows). simpl. unfold bind.
    rewrite verify_row_run. split.
    + by intros e ->.
    + intros -> Hlen. by destruct (Nat.ltb_spec (length line) 2); [|lia].
Qed.

(** The theorem at a staging file of two well-formed rows, and at one with
    a third row of a single column. *)
Lemma VerifyUnzipped_materialises_rows_witness :
  @Bucket.VerifyUnzipped Double.env Double.accept_all
     (staged_bucket "+,A,1
-,A
")
  = (Ok tt,
     Bucket.set_Patches [DefaultPatch "+" "A" ["1"]; DefaultPatch "-" "A" []]
       (staged_bucket "+,A,1
-,A
"), []) /\
  @Bucket.VerifyUnzipped Double.env Double.accept_all
     (staged_bucket "+,A,1
-,A
bad
")
  = (Err (ErrShortRow "patches/9-1.csv.zlib"),
     Bucket.set_Patches [DefaultPatch "+" "A" ["1"]; DefaultPatch "-" "A" []]
       (staged_bucket "+,A,1
-,A
bad
"), []).
Proof.
  assert (forall b, rows_pass Double.accept_all b [["+"; "A"; "1"]; ["-"; "A"]])
    as Hpass.
  { intros b i line Hi. split; [reflexivity|].
    destruct i as [|[|i]]; simpl in Hi; [| |discriminate];
      injection Hi as <-; simpl; lia. }
  split.
  - apply (proj1 (@VerifyUnzipped_materialises_rows Double.env
                    Double.accept_all
                    (staged_bucket "+,A,1
-,A
")
                    [["+"; "A"; "1"]; ["-"; "A"]] eq_refl (Hpass _))).
    reflexivity.
  - apply (proj2 (proj1 (proj2 (@VerifyUnzipped_materialises_rows Double.env
                    Double.accept_all
                    (staged_bucket "+,A,1
-,A
bad
")
                    [["+"; "A"; "1"]; ["-"; "A"]] eq_refl (Hpass _)))
                    ["bad"] [] eq_refl)).
    + reflexivity.
    + simpl. lia.
Defined.

(** C5, as stated, fails on a staging file whose third row has a single
    column, with a validator that refuses such rows: the validator is asked
    before the columns are counted, so the run ends with the error of the
    validator and the malformed-row error is not returned. *)
Lemma VerifyUnzipped_asks_validator_first :
  @csv_records Double.env "+,A,1
-,A
bad
" = [["+"; "A"; "1"]; ["-"; "A"]; ["bad"]] /\
  (length ["bad"] < 2)%nat /\
  @Bucket.VerifyUnzipped Double.env Double.refuse_short_rows
     (staged_bucket "+,A,1
-,A
bad
")
  = (Err (ErrMessage "row refused"),
     Bucket.set_Patches [DefaultPatch "+" "A" ["1"]; DefaultPatch "-" "A" []]
       (staged_bucket "+,A,1
-,A
bad
"), []).
Proof. split; [|split]; [reflexivity|simpl; lia|reflexivity]. Qed.

(** A run of the read loop that succeeds went through records that all
    pass, and materialised them. *)
Lemma verify_rows_ok `{Env} (Validation : Bucket.validator)
    (rows : list (list string)) :
  forall (b b' : Bucket.t) (l : list StorageOp),
    forM rows (Bucket.verify_row Validation) b = (Ok tt, b', l) ->
    rows_pass Validation b rows /\ b' = with_rows b rows /\ l = [].
Proof.
  induction rows as [|line rows IH]; intros b b' l Hrun.
  - injection Hrun as <- <-. rewrite with_rows_nil.
    split; [|done]. by intros i line Hi.
  - simpl in Hrun. unfold bind in Hrun. rewrite verify_row_run in Hrun.
    destruct (Validation line b) eqn:Hv; [done|].
    destruct (Nat.ltb_spec (length line) 2) as [|Hlen]; [done|].
    destruct (forM rows _ _) as [[r b1] l1] eqn:Hrest.
    injection Hrun as -> <- <-.
    apply IH in Hrest as (Hpass & -> & ->).
    rewrite with_rows_app. split; [|done].
    intros [|i] line' Hi; simpl in Hi.
    + injection Hi as <-. simpl. by rewrite with_rows_nil.
    + destruct (Hpass i line' Hi) as [Hv' Hlen']. split; [|done].
      by rewrite with_rows_app in Hv'.
Qed.

(** C6. Download empties the compressed file and lets the backend write
    into it.  A backend error other than not-found is returned at once; on
    not-found (and on success) the operation goes on to Unzip and
    VerifyUnzipped with whatever the backend wrote (nothing, for an object
    that does not exist); and Download returns without error only when
    both digests matched, the artifact decompressed to the end and every
    row passed. *)
Theorem Download_tolerates_not_found `{Env} `{Storage}
    (Validation : Bucket.validator) (b : Bucket.t) (written : bytes)
    (e : option error) :
  DownloadWriter (Bucket.StorageBucketName b) (Bucket.RemoteFilePath b)
  = (written, e) ->
  (forall err, e = Some err -> is_ErrObjectNotExist err = false ->
     Bucket.Download Validation b
     = (Err err, Bucket.set_ZippedFile written b, [])) /\
  ((e = None \/ e = Some ErrObjectNotExist) ->
     Bucket.Download Validation b
     = (Bucket.Unzip ;; Bucket.VerifyUnzipped Validation)
         (Bucket.set_ZippedFile written b)) /\
  (forall b' l,
     Bucket.Download Validation b = (Ok tt, b', l) ->
     (e = None \/ e = Some ErrObjectNotExist) /\
     Bucket.ZippedHash b = md5_hex written /\
     zlib_inflate written = Stream (Bucket.File b') None /\
     Bucket.UnzippedHash b = md5_hex (Bucket.File b') /\
     rows_pass Validation
       (Bucket.set_File (Bucket.File b') (Bucket.set_ZippedFile written b))
       (csv_records (Bucket.File b')) /\
     b' = with_rows
            (Bucket.set_File (Bucket.File b')
               (Bucket.set_ZippedFile written b))
            (csv_records (Bucket.File b'))).
Proof.
  intros Hfetch.
  assert (Bucket.Download Validation b
          = match e with
            | Some err =>
                if is_ErrObjectNotExist err then
                  (Bucket.Unzip ;; Bucket.VerifyUnzipped Validation)
                    (Bucket.set_ZippedFile written b)
                else (Err err, Bucket.set_ZippedFile written b, [])
            | None =>
                (Bucket.Unzip ;; Bucket.VerifyUnzipped Validation)
                  (Bucket.set_ZippedFile written b)
            end) as Hrun.
  { unfold Bucket.Download. unfold bind at 1. unfold modify at 1.
    cbv beta iota zeta. unfold bind at 1, get at 1. cbv beta iota zeta.
    change (Bucket.StorageBucketName (Bucket.set_ZippedFile "" b))
      with (Bucket.StorageBucketName b).
    change (Bucket.RemoteFilePath (Bucket.set_ZippedFile "" b))
      with (Bucket.RemoteFilePath b).
    rewrite Hfetch. unfold bind at 1, modify at 1. cbv beta iota zeta.
    change (Bucket.set_ZippedFile written (Bucket.set_ZippedFile "" b))
      with (Bucket.set_ZippedFile written b).
    unfold bind at 1.
    destruct e as [err|]; [destruct (is_ErrObjectNotExist err)|];
      cbn [negb]; unfold ret, fail; cbv beta iota zeta;
      try reflexivity;
      by destruct ((Bucket.Unzip;; Bucket.VerifyUnzipped Validation) _)
        as [[r b'] l]. }
  split; [|split].
  - intros err -> Hne. by rewrite Hrun, Hne.
  - intros [->| ->]; by rewrite Hrun.
  - intros b' l Hok. rewrite Hrun in Hok.
    assert ((e = None \/ e = Some ErrObjectNotExist) /\
            (Bucket.Unzip ;; Bucket.VerifyUnzipped Validation)
              (Bucket.set_ZippedFile written b) = (Ok tt, b', l))
      as [He Hgo].
    { destruct e as [err|]; [|by split; [left|]].
      destruct err; try done. by split; [right|]. }
    split; [done|]. clear Hok Hrun.
    unfold bind in Hgo. rewrite Unzip_run in Hgo.
    change (Bucket.ZippedHash (Bucket.set_ZippedFile written b))
      with (Bucket.ZippedHash b) in Hgo.
    change (Bucket.ZippedFile (Bucket.set_ZippedFile written b))
      with written in Hgo.
    destruct (decide (Bucket.ZippedHash b ≠ md5_hex written)) as [|Hz];
      [done|].
    apply dec_stable in Hz.
    destruct (zlib_inflate written) as [e0|out [e0|]] eqn:Hinf;
      [done|done|].
    unfold Bucket.VerifyUnzipped, bind, get in Hgo.
    cbv beta iota zeta in Hgo.
    destruct (decide _) as [|Hu] in Hgo; [done|].
    apply dec_stable in Hu.
    destruct (forM _ _ _) as [[r b1] l1] eqn:Hrows in Hgo.
    simpl in Hgo. injection Hgo as -> -> <-.
    apply verify_rows_ok in Hrows as (Hpass & -> & _).
    change (Bucket.File (with_rows ?x ?rows)) with (Bucket.File x).
    change (Bucket.File (Bucket.set_File out ?x)) with out in *.
    change (Bucket.UnzippedHash (Bucket.set_File out ?x))
      with (Bucket.UnzippedHash b) in Hu.
    unfold Bucket.checksumReadSeeker in Hu.
    by repeat (split; [done|]).
Qed.

(** The theorem at a backend that does not hold the object (the operation
    goes on with an empty compressed file, whose digest is then refused),
    and at a backend that holds it. *)
Lemma Download_tolerates_not_found_witness :
  @Bucket.Download Double.env (Double.storage [] [] []) Double.accept_all
     (fetched_bucket "md5:11" "md5:10")
  = (Err (ErrInvalidZippedChecksum "patches/9-1.csv.zlib"),
     Bucket.set_ZippedFile ""
       (fetched_bucket "md5:11" "md5:10"), []) /\
  is_Ok (fst (fst
    (@Bucket.Download Double.env
       (Double.storage [("patches/9-1.csv.zlib", "z+,A,1
-,A
")] [] [])
       Double.accept_all
       (fetched_bucket "md5:11" "md5:10")))) = true.
Proof.
  split.
  - rewrite (proj1 (proj2
      (@Download_tolerates_not_found Double.env (Double.storage [] [] [])
         Double.accept_all
         (fetched_bucket "md5:11" "md5:10") "" (Some ErrObjectNotExist) eq_refl)) (or_intror eq_refl)).
    vm_compute. reflexivity.
  - rewrite (proj1 (proj2
      (@Download_tolerates_not_found Double.env
         (Double.storage [("patches/9-1.csv.zlib", "z+,A,1
-,A
")] [] [])
         Double.accept_all
         (fetched_bucket "md5:11" "md5:10") "z+,A,1
-,A
" None eq_refl)) (or_introl eq_refl)).
    vm_compute. reflexivity.
Defined.


(** ** UploadToStorageBucket *)

Lemma Bucket_Upload_run `{Storage} (public : bool) (b : Bucket.t) :
  Bucket.Upload public b
  = match GetUploadWriter (Bucket.StorageBucketName b)
            (Bucket.RemoteFilePath b) with
    | Some e => (Err e, b, [])
    | None =>
        match WriterCopyClose (Bucket.StorageBucketName b)
                (Bucket.RemoteFilePath b) (Bucket.ZippedFile b) with
        | Some e => (Err e, b, [])
        | None =>
            if public then
              match MakePublic (Bucket.StorageBucketName b)
                      (Bucket.RemoteFilePath b) with
              | Some e =>
                  (Err e, b,
                   [OpPut (Bucket.StorageBucketName b)
                      (Bucket.RemoteFilePath b) (Bucket.ZippedFile b)])
              | None =>
                  (Ok tt, b,
                   upload_ops true (Bucket.StorageBucketName b)
                     (Bucket.RemoteFilePath b) (Bucket.ZippedFile b))
              end
            else
              (Ok tt, b,
               upload_ops false (Bucket.StorageBucketName b)
                 (Bucket.RemoteFilePath b) (Bucket.ZippedFile b))
        end
    end.
Proof.
  unfold Bucket.Upload, bind, get, check, emit, fail, ret.
  cbv beta iota zeta.
  destruct (GetUploadWriter _ _); [done|].
  destruct (WriterCopyClose _ _ _); [done|].
  destruct public; [|done].
  by destruct (MakePublic _ _).
Qed.

(** A run of the upload that succeeds made exactly the remote changes of
    one upload. *)
Lemma Bucket_Upload_ok `{Storage} (public : bool) (b b' : Bucket.t)
    (l : list StorageOp) :
  Bucket.Upload public b = (Ok tt, b', l) ->
  b' = b /\
  l = upload_ops public (Bucket.StorageBucketName b)
        (Bucket.RemoteFilePath b) (Bucket.ZippedFile b).
Proof.
  rewrite Bucket_Upload_run.
  destruct (GetUploadWriter _ _); [done|].
  destruct (WriterCopyClose _ _ _); [done|].
  destruct public; [destruct (MakePublic _ _); [done|]|];
    by intros [= <- <-].
Qed.

Lemma validate_rows_frame (Validation : Bucket.validator) (b0 : Bucket.t)
    (rows : list (list string)) (b : Bucket.t) :
  exists r,
    forM rows (fun line => check (Validation line b0)) b = (r, b, []).
Proof.
  induction rows as [|line rows [r IH]]; simpl.
  - by exists (Ok tt).
  - unfold bind at 1. destruct (Validation line b0); cbn [check].
    + by eexists.
    + unfold ret at 1. rewrite IH. by eexists.
Qed.

(** The round trip reads and validates; it changes nothing. *)
Lemma VerifyZipped_frame `{Env} (Validation : Bucket.validator)
    (b : Bucket.t) :
  exists r, Bucket.VerifyZipped Validation b = (r, b, []).
Proof.
  unfold Bucket.VerifyZipped, bind, get. cbv beta iota zeta.
  destruct (zlib_inflate _) as [e|out tail]; [by eexists|].
  destruct (validate_rows_frame Validation b (csv_records out) b)
    as [r ->].
  destruct r; try by eexists.
  destruct tail; [|by eexists].
  destruct (Validation csv_failed_read b); by eexists.
Qed.

Lemma Bucket_Compress_run `{Env} (b : Bucket.t) :
  Bucket.Compress b
  = (Ok tt, Bucket.set_ZippedFile (zlib_compress (Bucket.File b)) b, []).
Proof. reflexivity. Qed.

Lemma Bucket_Hash_run `{Env} (b : Bucket.t) :
  Bucket.Hash b
  = (Ok tt,
     Bucket.set_ZippedHash (md5_hex (Bucket.ZippedFile b))
       (Bucket.set_UnzippedHash (md5_hex (Bucket.File b)) b), []).
Proof. reflexivity. Qed.

(** A master whose handle is at the end of its file. *)
Lemma filled_same (m : Master.t) :
  Master.FileOffset m = String.length (Master.File m) ->
  filled (Master.File m) m = m.
Proof. intros Hend. unfold filled. rewrite <- Hend. by destruct m. Qed.

Lemma publish_bucket_ok `{Env} `{Storage} (Validation : Bucket.validator)
    (b b' : Bucket.t) (m m' : Master.t) (l : list StorageOp) :
  Master.FileOffset m = String.length (Master.File m) ->
  Master.publish_bucket Validation (b, m) = (Ok tt, (b', m'), l) ->
  b' = published (Master.UnixTime m) (Master.RemoteDir m) b /\
  m' = filled (write_rows (Master.File m) [b']) m /\
  l = bucket_ops (Master.UnixTime m) (Master.RemoteDir m)
        (Master.Public m) b.
Proof.
  intros Hend.
  unfold Master.publish_bucket, published, bucket_ops, write_rows.
  unfold bind at 1, get at 1. cbv beta iota zeta. cbn [fst snd].
  destruct (Bucket.IsDeleted b) eqn:Hdel.
  { intros [= <- <-  <-]. cbn [foldl]. rewrite Hdel.
    split; [done|]. split; [|done]. symmetry. by apply filled_same. }
  destruct (Bucket.IsChanged b) eqn:Hch.
  - unfold bind, zoom, get, modify. cbv beta iota zeta. cbn [fst snd].
    rewrite Bucket_Compress_run. cbv beta iota zeta. cbn [fst snd].
    destruct (VerifyZipped_frame Validation
                (Bucket.set_ZippedFile (zlib_compress (Bucket.File b)) b))
      as [r ->].
    destruct r; [|done|done].
    cbv beta iota zeta. cbn [fst snd].
    rewrite Bucket_Hash_run. cbv beta iota zeta. cbn [fst snd].
    match goal with
    | |- context [Bucket.Upload _ ?x] =>
        change x
          with (republished (Master.UnixTime m) (Master.RemoteDir m) b)
    end.
    destruct (Bucket.Upload _ _) as [[r b3] l3] eqn:Hup.
    destruct r; [|done|done]. destruct a0.
    apply Bucket_Upload_ok in Hup as [-> ->].
    cbv beta iota zeta. cbn [fst snd].
    rewrite Master_write_File_end by exact Hend.
    intros [= <- <- <-]. rewrite !app_nil_r. cbn [foldl].
    change (Bucket.IsDeleted (republished ?u ?d b))
      with (Bucket.IsDeleted b).
    rewrite Hdel. done.
  - unfold bind, zoom, ret, get, modify. cbv beta iota zeta. cbn [fst snd].
    rewrite Master_write_File_end by exact Hend.
    intros [= <- <- <-]. cbn [foldl]. by rewrite Hdel.
Qed.

Lemma publish_loop_ok `{Env} `{Storage} (Validation : Bucket.validator)
    (bs : list Bucket.t) :
  forall (m : Master.t) (bs' : list Bucket.t) (m' : Master.t)
         (l : list StorageOp),
    Master.FileOffset m = String.length (Master.File m) ->
    for_range (Master.publish_bucket Validation) bs m
    = (Ok tt, (bs', m'), l) ->
    bs' = published (Master.UnixTime m) (Master.RemoteDir m) <$> bs /\
    m' = filled (write_rows (Master.File m) bs') m /\
    l = concat (bucket_ops (Master.UnixTime m) (Master.RemoteDir m)
                  (Master.Public m) <$> bs).
Proof.
  induction bs as [|b bs IH]; intros m bs' m' l Hend Hrun; simpl in Hrun.
  - injection Hrun as <- <- <-.
    split; [done|]. split; [|done]. symmetry. by apply filled_same.
  - destruct (Master.publish_bucket Validation (b, m))
      as [[r [b1 m1]] l1] eqn:Hb.
    destruct r as [[]| |]; [|done|done].
    destruct (for_range _ bs m1) as [[r2 [bs2 m2]] l2] eqn:Hrest.
    injection Hrun as -> <- <- <-.
    apply publish_bucket_ok in Hb as (-> & -> & ->); [|exact Hend].
    apply IH in Hrest as (-> & -> & ->); [|reflexivity].
    done.
Qed.

Lemma Categories_write_File_end (data : bytes) (c : Categories.t) :
  Categories.FileOffset c = String.length (Categories.File c) ->
  Categories.write_File data c
  = (Ok tt,
     Categories.set_FileOffset
       (String.length (Categories.File c +:+ data))
       (Categories.set_File (Categories.File c +:+ data) c), []).
Proof.
  intros Hend. unfold Categories.write_File, modify.
  rewrite Hend, write_at_end, length_append. reflexivity.
Qed.

Lemma Categories_Write_rows `{Env} (items : list CategoriesItem) :
  forall c : Categories.t,
    Categories.FileOffset c = String.length (Categories.File c) ->
    forM items
      (fun definition =>
         Categories.write_File
           (csv_encode [Itoa (GetId definition); GetCategory definition;
                        GetSubcategory definition;
                        GetDescription definition]))
      c
    = (Ok tt,
       Categories.set_FileOffset
         (String.length (snapshot_from (Categories.File c) items))
         (Categories.set_File (snapshot_from (Categories.File c) items) c),
       []).
Proof.
  induction items as [|d items IH]; intros c Hend; simpl.
  - rewrite <- Hend. by destruct c.
  - unfold bind at 1. rewrite Categories_write_File_end by exact Hend.
    by rewrite IH.
Qed.

Lemma Categories_Write_run `{Env} (c : Categories.t) :
  Categories.Write c = (Ok tt, rewritten c, []).
Proof.
  unfold Categories.Write, bind, get. unfold modify at 1 2.
  cbv beta iota zeta. by rewrite Categories_Write_rows.
Qed.

Lemma Categories_Compress_run `{Env} (c : Categories.t) :
  Categories.Compress c
  = (Ok tt,
     Categories.set_ZippedFileOffset
       (String.length (zlib_compress (Categories.File c)))
       (Categories.set_ZippedFile (zlib_compress (Categories.File c))
          (Categories.set_FileOffset (String.length (Categories.File c)) c)),
     []).
Proof.
  unfold Categories.Compress, Categories.write_ZippedFile, bind, get, modify.
  cbv beta iota zeta.
  cbn [Categories.File Categories.ZippedFile Categories.ZippedFileOffset
       Categories.set_File Categories.set_ZippedFile
       Categories.set_FileOffset Categories.set_ZippedFileOffset].
  rewrite write_at_0_nil. reflexivity.
Qed.

Lemma Categories_Hash_run `{Env} (c : Categories.t) :
  Categories.Hash c
  = (Ok tt,
     Categories.set_ZippedHash (md5_hex (Categories.ZippedFile c))
       (Categories.set_UnzippedHash (md5_hex (Categories.File c))
          (Categories.set_ZippedFileOffset
             (String.length (Categories.ZippedFile c))
             (Categories.set_FileOffset
                (String.length (Categories.File c)) c))), []).
Proof. reflexivity. Qed.

Lemma Categories_Upload_ok `{Storage} (public : bool) (c c' : Categories.t)
    (l : list StorageOp) :
  Categories.Upload public c = (Ok tt, c', l) ->
  c' = Categories.set_ZippedFileOffset
         (String.length (Categories.ZippedFile c)) c /\
  l = upload_ops public (Categories.StorageBucketName c)
        (Categories.RemoteFilePath c) (Categories.ZippedFile c).
Proof.
  unfold Categories.Upload, bind, get, modify, check, emit, fail, ret.
  cbv beta iota zeta.
  cbn [Categories.StorageBucketName Categories.RemoteFilePath
       Categories.ZippedFile Categories.set_ZippedFileOffset].
  destruct (GetUploadWriter _ _); [done|].
  destruct (WriterCopyClose _ _ _); [done|].
  destruct public; [destruct (MakePublic _ _); [done|]|];
    by intros [= <- <-].
Qed.

Lemma publish_categories_ok `{Env} `{Storage} (c0 : Categories.t)
    (m m' : Master.t) (l : list StorageOp) :
  Master.Categories m = Some c0 ->
  Master.FileOffset m = String.length (Master.File m) ->
  Master.publish_categories c0 m = (Ok tt, m', l) ->
  m' = filled
         (Master.File m +:+
          categories_row
            (published_categories (Master.UnixTime m) (Master.RemoteDir m)
               c0)
            (length (Master.CategoryItems m)))
         (Master.set_Categories
            (Some (published_categories (Master.UnixTime m)
                     (Master.RemoteDir m) c0)) m) /\
  l = categories_ops (Master.UnixTime m) (Master.RemoteDir m)
        (Master.Public m) c0.
Proof.
  intros Hc Hend.
  unfold Master.publish_categories, Master.on_Categories, zoom, bind, get.
  cbv beta iota zeta. rewrite Hc. cbn [default from_option].
  rewrite Categories_Write_run.
  cbn [Master.Categories Master.set_Categories default from_option fst snd].
  unfold Categories.IsChanged, Categories.checksum_File, bind, get, ret,
    modify.
  cbv beta iota zeta.
  unfold published_categories, categories_ops, Bucket.checksumReadSeeker.
  change (bool_decide _) with (categories_changed c0).
  change (Categories.set_FileOffset
            (String.length (Categories.File (rewritten c0))) (rewritten c0))
    with (rewritten c0).
  destruct (categories_changed c0).
  - cbn [Master.Categories Master.set_Categories default from_option
         fst snd].
    rewrite Categories_Compress_run.
    cbn [Master.Categories Master.set_Categories default from_option
         fst snd].
    rewrite Categories_Hash_run.
    cbn [Master.Categories Master.set_Categories default from_option
         fst snd modify].
    cbv beta iota zeta.
    match goal with
    | |- context [Categories.Upload _ ?x] =>
        change (Categories.Upload (Master.Public m) x)
          with (Categories.Upload (Master.Public m)
                  (republished_categories (Master.UnixTime m)
                     (Master.RemoteDir m) c0))
    end.
    destruct (Categories.Upload _ _) as [[r c3] l3] eqn:Hup.
    destruct r as [[]| |]; [|done|done].
    apply Categories_Upload_ok in Hup as [-> ->].
    cbv beta iota zeta.
    cbn [Master.Categories Master.set_Categories default from_option
         fst snd].
    rewrite Master_write_File_end by exact Hend.
    intros [= <- <-]. by rewrite !app_nil_r.
  - cbv beta iota zeta.
    cbn [Master.Categories Master.set_Categories default from_option
         fst snd].
    rewrite Master_write_File_end by exact Hend.
    by intros [= <- <-].
Qed.

Lemma publish_master_ok `{Storage} (m m' : Master.t) (l : list StorageOp) :
  Master.publish_master m = (Ok tt, m', l) ->
  m' = Master.set_FileOffset (String.length (Master.File m)) m /\
  l = upload_ops (Master.Public m) (Master.StorageBucketName m)
        (Master.RemoteDir m +:+ "/" +:+ Master.FileName m) (Master.File m).
Proof.
  unfold Master.publish_master, bind, get, modify, check, emit, fail, ret.
  cbv beta iota zeta.
  cbn [Master.StorageBucketName Master.RemoteDir Master.FileName
       Master.File Master.Public Master.set_FileOffset].
  change (joinPath [Master.RemoteDir m; Master.FileName m])
    with (Master.RemoteDir m +:+ "/" +:+ Master.FileName m).
  destruct (GetUploadWriter _ _); [done|].
  destruct (WriterCopyClose _ _ _); [done|].
  destruct (Master.Public m); [destruct (MakePublic _ _); [done|]|];
    by intros [= <- <-].
Qed.

(** A publish empties the master file, writes the header row from its
    start and goes on with the categories, the shards and the upload of
    the document. *)
Lemma UploadToStorageBucket_start `{Env} `{Storage}
    (Validation : Bucket.validator) (now : Time) (m : Master.t) :
  Master.UploadToStorageBucket Validation now m
  = (let! m := get in
     match Master.Categories m with
     | Some c0 => Master.publish_categories c0
     | None => ret tt
     end ;;
     Master.range_Buckets (Master.publish_bucket Validation) ;;
     Master.publish_master)
      (filled (header_row now)
         (Master.set_DateTime (DateTimeFormat now)
            (Master.set_UnixTime (Unix now) m))).
Proof.
  unfold Master.UploadToStorageBucket.
  do 4 (unfold bind at 1, modify at 1; cbv beta iota zeta).
  unfold bind at 1, get at 1. cbv beta iota zeta.
  unfold bind at 1.
  rewrite Master_write_File_end by reflexivity.
  match goal with
  | |- context [bind get ?k ?m0] =>
      change (bind get k m0)
        with (bind get k
                (filled (header_row now)
                   (Master.set_DateTime (DateTimeFormat now)
                      (Master.set_UnixTime (Unix now) m))));
      destruct (bind get k _) as [[r s] l]
  end.
  reflexivity.
Qed.

(** A publish that goes through leaves the master and makes the remote
    changes that [published_master] and [publish_ops] describe. *)
Lemma UploadToStorageBucket_ok `{Env} `{Storage}
    (Validation : Bucket.validator) (now : Time) (m m' : Master.t)
    (log : list StorageOp) :
  Master.UploadToStorageBucket Validation now m = (Ok tt, m', log) ->
  m' = published_master now m /\ log = publish_ops now m.
Proof.
  unfold Master.UploadToStorageBucket.
  do 4 (unfold bind at 1, modify at 1; cbv beta iota zeta).
  unfold bind at 1, get at 1. cbv beta iota zeta.
  unfold bind at 1.
  rewrite Master_write_File_end by reflexivity.
  unfold bind at 1, get at 1. cbv beta iota zeta.
  set (m0 := filled _ _).
  assert (m0 = filled (header_row now)
                 (Master.set_DateTime (DateTimeFormat now)
                    (Master.set_UnixTime (Unix now) m))) as Hm0
    by reflexivity.
  assert (Master.FileOffset m0 = String.length (Master.File m0)) as Hend0
    by reflexivity.
  clearbody m0.
  unfold bind at 1.
  destruct (match Master.Categories m0 with
            | Some c0 => Master.publish_categories c0
            | None => ret ()
            end m0) as [[r1 m1] l1] eqn:Hcat.
  destruct r1 as [[]| |]; [|done|done].
  assert (Master.FileOffset m1 = String.length (Master.File m1)) as Hend1.
  { destruct (Master.Categories m0) as [c0|] eqn:Hc.
    - apply publish_categories_ok in Hcat as [-> _]; done.
    - by injection Hcat as <- _. }
  unfold bind at 1. unfold Master.range_Buckets at 1.
  destruct (for_range _ _ m1) as [[r2 [bs2 m2]] l2] eqn:Hloop.
  destruct r2 as [[]| |]; [|done|done].
  apply publish_loop_ok in Hloop as (-> & -> & ->); [|exact Hend1].
  destruct (Master.publish_master _) as [[r3 m3] l3] eqn:Hlast.
  destruct r3 as [[]| |]; [|done|done].
  apply publish_master_ok in Hlast as (-> & ->).
  intros [= <- <-]. subst m0.
  unfold published_master, publish_ops, document_head.
  change (Master.Categories (filled ?f (Master.set_DateTime ?d
            (Master.set_UnixTime ?u m)))) with (Master.Categories m) in Hcat.
  destruct (Master.Categories m) as [c0|] eqn:Hc.
  - apply publish_categories_ok in Hcat as [-> ->]; [|done|done].
    destruct m. cbn in Hc. subst. done.
  - injection Hcat as <- <-. destruct m. cbn in Hc. subst. done.
Qed.

Lemma write_rows_app `{Env} (file : bytes) (xs ys : list Bucket.t) :
  write_rows file (xs ++ ys) = write_rows (write_rows file xs) ys.
Proof. apply foldl_app. Qed.

(** The row of a shard that is not deleted is written where the shard
    stands in the list. *)
Lemma write_rows_at `{Env} (file : bytes) (bs : list Bucket.t) (i : nat)
    (b : Bucket.t) :
  bs !! i = Some b -> Bucket.IsDeleted b = false ->
  write_rows file bs
  = write_rows (write_rows file (take i bs) +:+ descriptor_row b)
      (drop (S i) bs).
Proof.
  intros Hi Hdel. rewrite <- (take_drop_middle bs i b Hi) at 1.
  rewrite write_rows_app. unfold write_rows at 1. simpl. by rewrite Hdel.
Qed.

Lemma elem_of_concat_intro {A} (x : A) (l : list A) (ls : list (list A)) :
  l ∈ ls -> x ∈ l -> x ∈ concat ls.
Proof.
  induction 1 as [|l0 l ls Hl IH]; intros Hx; simpl; apply elem_of_app.
  - by left.
  - right. by apply IH.
Qed.

Lemma bucket_ops_in_publish_ops `{Env} (now : Time) (m : Master.t)
    (i : nat) (b : Bucket.t) (op : StorageOp) :
  Master.Buckets m !! i = Some b ->
  op ∈ bucket_ops (Unix now) (Master.RemoteDir m) (Master.Public m) b ->
  op ∈ publish_ops now m.
Proof.
  intros Hi Hop. unfold publish_ops.
  apply elem_of_app. right. apply elem_of_app. left.
  eapply elem_of_concat_intro; [|exact Hop].
  apply list_elem_of_fmap. exists b. split; [done|].
  by apply list_elem_of_lookup_2 with i.
Qed.

(** C7, amended. After a publish that returned without error: every shard
    that is changed and not flagged deleted was compressed, hashed, given
    the remote name {remoteDir}/{unix publish time}-{zipped file name} and
    uploaded under it; every shard that is unchanged or flagged deleted is
    as it was and caused no upload; the master document holds, after its
    head, one descriptor row for every shard that is not deleted, with the
    shard's current path and hashes, in order; and the document was
    uploaded to {remoteDir}/{fileName}.  The remote changes are exactly
    those of [publish_ops]. *)
Theorem publish_relocates_changed_shards `{Env} `{Storage}
    (Validation : Bucket.validator) (now : Time) (m m' : Master.t)
    (log : list StorageOp) :
  Master.UploadToStorageBucket Validation now m = (Ok tt, m', log) ->
  (forall i b,
     Master.Buckets m !! i = Some b ->
     Bucket.IsDeleted b = false -> Bucket.IsChanged b = true ->
     exists b',
       Master.Buckets m' !! i = Some b' /\
       Bucket.ZippedFile b' = zlib_compress (Bucket.File b) /\
       Bucket.ZippedHash b' = md5_hex (Bucket.ZippedFile b') /\
       Bucket.UnzippedHash b' = md5_hex (Bucket.File b) /\
       Bucket.RelativeFilePath b'
       = FormatInt (Unix now) +:+ "-" +:+ Bucket.ZippedFileName b /\
       Bucket.RemoteFilePath b'
       = Master.RemoteDir m +:+ "/" +:+ Bucket.RelativeFilePath b' /\
       OpPut (Bucket.StorageBucketName b) (Bucket.RemoteFilePath b')
         (Bucket.ZippedFile b') ∈ log) /\
  (forall i b,
     Master.Buckets m !! i = Some b ->
     Bucket.IsDeleted b = true \/ Bucket.IsChanged b = false ->
     Master.Buckets m' !! i = Some b /\
     bucket_ops (Unix now) (Master.RemoteDir m) (Master.Public m) b = []) /\
  (forall i b',
     Master.Buckets m' !! i = Some b' -> Bucket.IsDeleted b' = false ->
     Master.File m'
     = write_rows
         (write_rows (document_head now m) (take i (Master.Buckets m'))
          +:+ descriptor_row b')
         (drop (S i) (Master.Buckets m'))) /\
  OpPut (Master.StorageBucketName m)
    (Master.RemoteDir m +:+ "/" +:+ Master.FileName m) (Master.File m')
    ∈ log /\
  log = publish_ops now m.
Proof.
  intros Hrun. apply UploadToStorageBucket_ok in Hrun as [-> ->].
  change (Master.Buckets (published_master now m))
    with (published (Unix now) (Master.RemoteDir m) <$> Master.Buckets m).
  change (Master.File (published_master now m))
    with (write_rows (document_head now m)
            (published (Unix now) (Master.RemoteDir m) <$> Master.Buckets m)).
  split; [|split; [|split; [|split; [|done]]]].
  - intros i b Hi Hdel Hch.
    exists (republished (Unix now) (Master.RemoteDir m) b).
    split; [|repeat (split; [reflexivity|])].
    + rewrite list_lookup_fmap, Hi. simpl. unfold published.
      by rewrite Hdel, Hch.
    + apply (bucket_ops_in_publish_ops now m i b); [done|].
      unfold bucket_ops. rewrite Hdel, Hch. left.
  - intros i b Hi Hskip. rewrite list_lookup_fmap, Hi. simpl.
    unfold published, bucket_ops.
    destruct Hskip as [-> | ->]; [done|]. by destruct (Bucket.IsDeleted b).
  - intros i b' Hi Hdel. by apply write_rows_at.
  - unfold publish_ops. apply elem_of_app. right. apply elem_of_app. right.
    left.
Qed.

(** The theorem at a changed shard, an unchanged one and a changed one
    flagged deleted, published five seconds after the epoch. *)
Lemma publish_relocates_changed_shards_witness :
  exists m' log,
    @Master.UploadToStorageBucket Double.env (Double.storage [] [] [])
       Double.accept_all sample_now publish_master_sample
    = (Ok tt, m', log) /\
    log = [OpPut "store" "patches/5-1.csv.zlib" "z+,A,1
";
           OpPut "store" "patches/master.csv" (Master.File m')] /\
    Master.Buckets m' !! 1%nat = Some (listed_bucket 2 false false) /\
    Master.Buckets m' !! 2%nat = Some (listed_bucket 3 true true) /\
    Master.File m' = "V1,5,5
1,5-1.csv.zlib,zlib,md5:7,md5:6,1
2,3-2.csv.zlib,zlib,md5:7,md5:6,1
".
Proof.
  destruct (@Master.UploadToStorageBucket Double.env
              (Double.storage [] [] []) Double.accept_all sample_now
              publish_master_sample) as [[r m'] log] eqn:Hrun.
  assert (r = Ok tt) as -> by (vm_compute in Hrun; congruence).
  exists m', log. split; [reflexivity|].
  pose proof (@publish_relocates_changed_shards Double.env
                (Double.storage [] [] []) Double.accept_all sample_now
                publish_master_sample m' log Hrun)
    as (_ & Hkeep & _ & _ & Hlog).
  pose proof (proj1 (Hkeep 1%nat (listed_bucket 2 false false) eq_refl
                       (or_intror eq_refl))) as H1.
  pose proof (proj1 (Hkeep 2%nat (listed_bucket 3 true true) eq_refl
                       (or_introl eq_refl))) as H2.
  vm_compute in Hrun. injection Hrun as <- <-.
  split; [reflexivity|]. split; [exact H1|]. split; [exact H2|].
  reflexivity.
Defined.

(** C7, as stated, fails on a shard that is changed and flagged deleted:
    the publish returns without error, uploads nothing but the master
    document and leaves the shard under its old remote name. *)
Lemma publish_skips_deleted_changed_shard :
  Bucket.IsChanged (listed_bucket 3 true true) = true /\
  @Master.UploadToStorageBucket Double.env (Double.storage [] [] [])
     Double.accept_all sample_now deleted_changed_master
  = (Ok tt,
     filled "V1,5,5
"
       (Master.set_DateTime "5"
          (Master.set_UnixTime 5 deleted_changed_master)),
     [OpPut "store" "patches/master.csv" "V1,5,5
"]) /\
  Bucket.RemoteFilePath (listed_bucket 3 true true) = "patches/3-3.csv.zlib".
Proof. vm_compute. auto. Qed.

(** C8, amended. After a publish that returned without error on a master
    with categories: the snapshot was rewritten from the configured items;
    if its digest differs from the recorded one the artifact was
    compressed, hashed, given the remote name
    {remoteDir}/{unix publish time}-{zipped file name} and uploaded first
    of all (it is not decompressed or validated again before the upload);
    otherwise the categories keep their path, hashes and compressed
    artifact and nothing is uploaded for them; in both cases the master
    document holds exactly one categories row, right after the header,
    with the categories' current path and hashes. *)
Theorem publish_writes_categories_row `{Env} `{Storage}
    (Validation : Bucket.validator) (now : Time) (m m' : Master.t)
    (log : list StorageOp) (c0 : Categories.t) :
  Master.UploadToStorageBucket Validation now m = (Ok tt, m', log) ->
  Master.Categories m = Some c0 ->
  exists c',
    Master.Categories m' = Some c' /\
    Categories.File c' = snapshot_from "" (Categories.CategoryItems c0) /\
    (md5_hex (Categories.File c') <> Categories.UnzippedHash c0 ->
     Categories.ZippedFile c' = zlib_compress (Categories.File c') /\
     Categories.ZippedHash c' = md5_hex (Categories.ZippedFile c') /\
     Categories.UnzippedHash c' = md5_hex (Categories.File c') /\
     Categories.RelativeFilePath c'
     = FormatInt (Unix now) +:+ "-" +:+ Categories.ZippedFileName c0 /\
     Categories.RemoteFilePath c'
     = Master.RemoteDir m +:+ "/" +:+ Categories.RelativeFilePath c' /\
     exists rest,
       log = OpPut (Categories.StorageBucketName c0)
               (Categories.RemoteFilePath c') (Categories.ZippedFile c')
             :: rest) /\
    (md5_hex (Categories.File c') = Categories.UnzippedHash c0 ->
     c' = rewritten c0 /\
     categories_ops (Unix now) (Master.RemoteDir m) (Master.Public m) c0
     = []) /\
    Master.File m'
    = write_rows
        (header_row now +:+
         categories_row c' (length (Master.CategoryItems m)))
        (Master.Buckets m') /\
    log = publish_ops now m.
Proof.
  intros Hrun Hc. apply UploadToStorageBucket_ok in Hrun as [-> ->].
  exists (published_categories (Unix now) (Master.RemoteDir m) c0).
  assert (Categories.File
            (published_categories (Unix now) (Master.RemoteDir m) c0)
          = snapshot_from "" (Categories.CategoryItems c0)) as Hfile.
  { unfold published_categories. by destruct (categories_changed c0). }
  split; [|split; [done|split; [|split; [|split; [|done]]]]].
  - unfold published_master. simpl. by rewrite Hc.
  - rewrite Hfile. intros Hne.
    assert (categories_changed c0 = true) as Hch
      by (by apply bool_decide_eq_true).
    unfold publish_ops, categories_ops, published_categories.
    rewrite Hc, Hch. repeat (split; [reflexivity|]). by eexists.
  - rewrite Hfile. intros Heq.
    assert (categories_changed c0 = false) as Hch.
    { apply bool_decide_eq_false. by intros Hne. }
    unfold categories_ops, published_categories. by rewrite Hch.
  - unfold published_master, document_head. simpl. by rewrite Hc.
Qed.

(** The theorem at categories of one item that were never published. *)
Lemma publish_writes_categories_row_witness :
  exists m' c',
    @Master.UploadToStorageBucket Double.env (Double.storage [] [] [])
       Double.accept_all sample_now categories_master
    = (Ok tt, m',
       [OpPut "store" "patches/5-categories.csv.zlib" "z1,cat,sub,desc
";
        OpPut "store" "patches/master.csv" (Master.File m')]) /\
    Master.Categories m' = Some c' /\
    Categories.RemoteFilePath c' = "patches/5-categories.csv.zlib" /\
    Master.File m' = "V1,5,5
-1,5-categories.csv.zlib,zlib,md5:16,md5:15,1
".
Proof.
  destruct (@Master.UploadToStorageBucket Double.env
              (Double.storage [] [] []) Double.accept_all sample_now
              categories_master) as [[r m'] log] eqn:Hrun.
  assert (r = Ok tt) as -> by (vm_compute in Hrun; congruence).
  destruct (@publish_writes_categories_row Double.env
              (Double.storage [] [] []) Double.accept_all sample_now
              categories_master m' log
              (Categories.NewCategories "store" "" "" "/work" "" ""
                 [sample_item])
              Hrun eq_refl)
    as (c' & Hc' & _ & _ & _ & _ & _).
  exists m', c'.
  vm_compute in Hrun. injection Hrun as <- <-.
  vm_compute in Hc'. injection Hc' as <-.
  split; [reflexivity|]. split; [reflexivity|]. split; reflexivity.
Defined.

(** C8, as stated, fails: with a codec whose output cannot be read back,
    a publish of changed categories still returns without error and
    uploads the artifact, so the artifact was not decompressed and
    validated before the upload; the same codec makes the publish of a
    changed shard fail in its round trip. *)
Lemma publish_uploads_unverified_categories :
  @zlib_inflate Double.env_corrupt "z1,cat,sub,desc
" = BadHeader (ErrMessage "zlib: invalid header") /\
  (exists m',
     @Master.UploadToStorageBucket Double.env_corrupt
        (Double.storage [] [] []) Double.accept_all sample_now
        categories_master
     = (Ok tt, m',
        [OpPut "store" "patches/5-categories.csv.zlib" "z1,cat,sub,desc
";
         OpPut "store" "patches/master.csv" "V1,5,5
-1,5-categories.csv.zlib,zlib,md5:16,md5:15,1
"])) /\
  fst (fst (@Master.UploadToStorageBucket Double.env_corrupt
              (Double.storage [] [] []) Double.accept_all sample_now
              publish_master_sample))
  = Err (ErrMessage "zlib: invalid header").
Proof.
  split; [reflexivity|]. split; [|vm_compute; reflexivity].
  eexists. vm_compute. reflexivity.
Qed.


(** ** CleanupOldFiles *)

Lemma found_in_buckets (name : string) (bs : list Bucket.t) (init : bool) :
  foldl
    (fun found bucket =>
       if decide (name = Bucket.RemoteFilePath bucket) then true else found)
    init bs = true
  <-> init = true \/ exists b, b ∈ bs /\ name = Bucket.RemoteFilePath b.
Proof.
  revert init. induction bs as [|b bs IH]; intros init; simpl.
  - split; [by left|]. intros [?|[b [Hb _]]]; [done|]. by inversion Hb.
  - rewrite IH. split.
    + intros [Hhead|[b' [? ?]]].
      * destruct (decide (name = Bucket.RemoteFilePath b)).
        -- right. exists b. split; [left|done].
        -- by left.
      * right. exists b'. split; [by right|done].
    + intros [->|[b' [Hb' ?]]].
      * left. by destruct (decide _).
      * apply elem_of_cons in Hb' as [->|?].
        -- left. by rewrite decide_True.
        -- right. by exists b'.
Qed.

(** The three tests of the sweep find exactly the referenced names. *)
Lemma found_in_master_referenced (m : Master.t) (file : ObjectAttrs) :
  Master.found_in_master m file = true <-> referenced m (Name file).
Proof.
  unfold Master.found_in_master, referenced.
  destruct (decide (Name file = Master.RemoteDir m +:+ "/" +:+
                                Master.FileName m)) as [Hm|Hm].
  { split; [by right; right|done]. }
  rewrite found_in_buckets. split.
  - intros [Hc|Hb]; [left|by right; left].
    destruct (Master.Categories m) as [c|]; [|done].
    destruct (decide _); [|done]. by exists c.
  - intros [[c [Hc Hn]]|[Hb|?]]; [left|by right|done].
    rewrite Hc. by rewrite decide_True.
Qed.

(** What the loop of the sweep does from index [i] on. *)
Lemma sweep_loop `{Storage} (clock : nat -> Time) (m : Master.t)
    (files : list ObjectAttrs) :
  forall (i : nat) (s : Master.t) (r : result unit) (s' : Master.t)
         (log : list StorageOp),
    range_forM
      (fun i file =>
         if negb (Master.found_in_master m file) then
           if Before (Created file) (clock i + - Hour * 24) then
             check (Delete (Master.StorageBucketName m) (Name file)) ;;
             emit (OpDelete (Master.StorageBucketName m) (Name file))
           else ret tt
         else ret tt)
      i files s = (r, s', log) ->
    s' = s /\
    (forall op, op ∈ log ->
       exists j file,
         files !! j = Some file /\
         op = OpDelete (Master.StorageBucketName m) (Name file) /\
         Master.found_in_master m file = false /\
         older_than_a_day clock (i + j) file) /\
    (r = Ok tt ->
     forall j file,
       files !! j = Some file ->
       Master.found_in_master m file = false ->
       older_than_a_day clock (i + j) file ->
       OpDelete (Master.StorageBucketName m) (Name file) ∈ log).
Proof.
  induction files as [|file files IH]; intros i s r s' log Hrun;
    simpl in Hrun.
  - injection Hrun as <- <- <-. split; [done|]. split.
    + intros op Hop. by inversion Hop.
    + intros _ j file Hj. by destruct j.
  - unfold bind at 1 in Hrun.
    assert (forall l0 : list StorageOp,
      (forall op, op ∈ l0 ->
         op = OpDelete (Master.StorageBucketName m) (Name file) /\
         Master.found_in_master m file = false /\
         older_than_a_day clock i file) ->
      (Master.found_in_master m file = false ->
       older_than_a_day clock i file ->
       OpDelete (Master.StorageBucketName m) (Name file) ∈ l0) ->
      forall r0 s0 l1,
        (s0 = s /\
         (forall op, op ∈ l1 ->
            exists j file0,
              files !! j = Some file0 /\
              op = OpDelete (Master.StorageBucketName m) (Name file0) /\
              Master.found_in_master m file0 = false /\
              older_than_a_day clock (S i + j) file0) /\
         (r0 = Ok tt ->
          forall j file0,
            files !! j = Some file0 ->
            Master.found_in_master m file0 = false ->
            older_than_a_day clock (S i + j) file0 ->
            OpDelete (Master.StorageBucketName m) (Name file0) ∈ l1)) ->
        (r, s', log) = (r0, s0, l0 ++ l1) ->
        s' = s /\
        (forall op, op ∈ log ->
           exists j file0,
             (file :: files) !! j = Some file0 /\
             op = OpDelete (Master.StorageBucketName m) (Name file0) /\
             Master.found_in_master m file0 = false /\
             older_than_a_day clock (i + j) file0) /\
        (r = Ok tt ->
         forall j file0,
           (file :: files) !! j = Some file0 ->
           Master.found_in_master m file0 = false ->
           older_than_a_day clock (i + j) file0 ->
           OpDelete (Master.StorageBucketName m) (Name file0) ∈ log))
      as Hstep.
    { intros l0 Hl0 Hdone r0 s0 l1 (-> & Hlog & Hall) [= -> -> ->].
      split; [done|]. split.
      - intros op [Hop|Hop]%elem_of_app.
        + exists 0%nat, file. rewrite Nat.add_0_r.
          destruct (Hl0 op Hop) as (-> & ? & ?). done.
        + destruct (Hlog op Hop) as (j & file0 & ? & ? & ? & Hold).
          exists (S j), file0. rewrite Nat.add_succ_r. done.
      - intros Hok [|j] file0 Hj Hnot Hold; apply elem_of_app.
        + injection Hj as <-. rewrite Nat.add_0_r in Hold. left. auto.
        + right. rewrite Nat.add_succ_r in Hold. by apply (Hall Hok j). }
    destruct (Master.found_in_master m file) eqn:Hfound; cbn [negb] in Hrun.
    { unfold ret at 1 in Hrun.
      destruct (range_forM _ _ _ _) as [[r0 s0] l1] eqn:Hrest.
      apply IH in Hrest. simpl in Hrun. symmetry in Hrun.
      refine (Hstep [] _ _ r0 s0 l1 Hrest Hrun); [|done].
      intros op Hop. by inversion Hop. }
    unfold Before in Hrun.
    destruct (Z.ltb_spec (Created file) (clock i + - Hour * 24))
      as [Hold|Hyoung].
    + unfold bind at 1, check in Hrun.
      destruct (Delete _ _) as [e|] eqn:Hdel.
      * injection Hrun as <- <- <-. split; [done|]. split; [|done].
        intros op Hop. by inversion Hop.
      * unfold ret at 1, emit in Hrun.
        destruct (range_forM _ _ _ _) as [[r0 s0] l1] eqn:Hrest.
        apply IH in Hrest. simpl in Hrun. symmetry in Hrun.
        refine (Hstep [OpDelete (Master.StorageBucketName m) (Name file)]
                  _ _ r0 s0 l1 Hrest Hrun).
        -- intros op ->%list_elem_of_singleton. split; [done|].
           split; [done|]. unfold older_than_a_day. lia.
        -- intros _ _. left.
    + unfold ret at 1 in Hrun.
      destruct (range_forM _ _ _ _) as [[r0 s0] l1] eqn:Hrest.
      apply IH in Hrest. simpl in Hrun. symmetry in Hrun.
      refine (Hstep [] _ _ r0 s0 l1 Hrest Hrun).
      * intros op Hop. by inversion Hop.
      * intros _ Hold. unfold older_than_a_day in Hold. lia.
Qed.




(** ** Master.Download *)

(** An error of the integer parser comes with 0 when it is a syntax error
    and with the nearest bound when it is a range error. *)
Lemma ParseInt_as_error (fn s : string) (v : Z) (e : error) :
  ParseInt_as fn s = (v, Some e) ->
  (e = ErrSyntax fn s /\ v = 0) \/
  (e = ErrRange fn s /\ (v = maxInt64 \/ v = minInt64)).
Proof.
  unfold ParseInt_as. destruct s as [|c rest]; [intros [= <- <-]; by left|].
  set (body := if _ : bool then rest else String c rest).
  destruct body as [|c' body']; [intros [= <- <-]; by left|].
  destruct (ParseUint_loop _ 0) as [un|[|]].
  - destruct (bool_decide (c = "-"%char)); simpl.
    + destruct (2 ^ 63 <? un); [|done].
      intros [= <- <-]. right. auto.
    + destruct (2 ^ 63 <=? un); [|done].
      intros [= <- <-]. right. auto.
  - intros [= <- <-]. right. split; [done|].
    destruct (bool_decide (c = "-"%char)); auto.
  - intros [= <- <-]. by left.
Qed.

Lemma Download_row_skips `{Env} `{Storage} (line : list string)
    (m : Master.t) :
  length line ≠ 3%nat -> length line ≠ 6%nat ->
  Master.Download_row line m = (Ok tt, m, []).
Proof.
  intros H3 H6. unfold Master.Download_row.
  by rewrite !decide_False.
Qed.

(** The rows of the master document do not look at the handle of the
    master file. *)
Lemma Download_row_seek `{Env} `{Storage} (n : nat) (line : list string)
    (m : Master.t) :
  Master.Download_row line (Master.set_FileOffset n m)
  = (let '(r, m', l) := Master.Download_row line m in
     (r, Master.set_FileOffset n m', l)).
Proof.
  unfold Master.Download_row.
  destruct (decide (length line = 3%nat)); [reflexivity|].
  destruct (decide (length line = 6%nat)); [|reflexivity].
  cbv zeta. destruct (decide (fst (Atoi (idx line 0)) = -1)).
  - unfold bind, get, modify, Master.on_Categories, zoom.
    cbv beta iota zeta.
    cbn [Master.Categories Master.set_Categories Master.set_FileOffset
         Master.StorageBucketName Master.RemoteDir Master.Dir
         Master.CategoryItems default from_option fst snd].
    destruct (Categories.Init _) as [[r1 c1] l1].
    destruct r1 as [[]| |]; [|reflexivity|reflexivity].
    cbn [Master.Categories Master.set_Categories Master.set_FileOffset
         default from_option].
    unfold id.
    destruct (Categories.Download c1) as [[r2 c2] l2].
    by destruct r2.
  - destruct (Atoi (idx line 5)) as [lineCount [err|]]; reflexivity.
Qed.

(** The read loop of [Download] over rows that go through: the handle of
    the master file ends at the end of the file. *)
Lemma Download_rows_ok `{Env} `{Storage} (content : bytes)
    (rows : list (list string)) :
  forall (i : nat) (m m' : Master.t) (l : list StorageOp),
    forM rows Master.Download_row m = (Ok tt, m', l) ->
    (range_forM
       (fun i line =>
          modify (Master.set_FileOffset (csv_offset content (S i))) ;;
          Master.Download_row line)
       i rows ;;
     modify (Master.set_FileOffset (String.length content))) m
    = (Ok tt, Master.set_FileOffset (String.length content) m', l).
Proof.
  induction rows as [|line rows IH]; intros i m m' l Hrun.
  - injection Hrun as <- <-. reflexivity.
  - cbn [forM] in Hrun. unfold bind in Hrun.
    destruct (Master.Download_row line m) as [[r1 m1] l1] eqn:Hrow.
    destruct r1 as [[]| |]; [|done|done].
    destruct (forM rows _ m1) as [[r2 m2] l2] eqn:Hrest.
    injection Hrun as -> <- <-.
    cbn [range_forM]. unfold bind at 1 2 3, modify at 1.
    rewrite Download_row_seek, Hrow.
    pose proof (IH (S i) (Master.set_FileOffset
                            (csv_offset content (S i)) m1)) as IH'.
    assert (forall rs (n : nat) (s : Master.t),
              forM rs Master.Download_row (Master.set_FileOffset n s)
              = (let '(r, s', l) := forM rs Master.Download_row s in
                 (r, Master.set_FileOffset n s', l))) as Hframe.
    { clear. induction rs as [|x rs IHrs]; intros n s; [reflexivity|].
      cbn [forM]. unfold bind. rewrite Download_row_seek.
      destruct (Master.Download_row x s) as [[r s1] l1].
      destruct r as [[]| |]; [|reflexivity|reflexivity].
      rewrite IHrs. by destruct (forM rs _ s1) as [[r2 s2] l2]. }
    specialize (IH' (Master.set_FileOffset (csv_offset content (S i)) m2) l2).
    rewrite Hframe, Hrest in IH'. specialize (IH' eq_refl).
    unfold bind in IH'.
    destruct (range_forM _ (S i) rows _) as [[r3 m3] l3].
    destruct r3 as [[]| |]; [|done|done].
    unfold modify in IH' |- *.
    assert (Master.set_FileOffset (String.length content) m3
            = Master.set_FileOffset (String.length content)
                (Master.set_FileOffset (csv_offset content (S i)) m2))
      as -> by congruence.
    assert (l3 ++ [] = l2) as Hl by congruence.
    rewrite app_nil_r in Hl. subst l3. rewrite !app_nil_r. reflexivity.
Qed.

Lemma Download_csv_loop_ok `{Env} `{Storage} (content : bytes)
    (m m' : Master.t) (l : list StorageOp) :
  forM (csv_records content) Master.Download_row m = (Ok tt, m', l) ->
  csv_loop Master.set_FileOffset content Master.Download_row m
  = (Ok tt, Master.set_FileOffset (String.length content) m', l).
Proof. apply Download_rows_ok. Qed.

(** C10, amended. The read loop of Master.Download skips every row whose
    column count is neither 3 nor 6; a header row sets UnixTime to what the
    integer parser returns and ignores its error (0 on a syntax error, the
    nearest 64-bit bound on a numeral out of range); a 6-column row takes
    its shard number the same way, so a first column with a syntax error
    makes shard number 0; the only malformation that makes a shard row
    return an error is a count column that does not parse. *)
Theorem Download_ignores_malformed_rows `{Env} `{Storage} :
  (forall fn s v e,
     ParseInt_as fn s = (v, Some e) ->
     (e = ErrSyntax fn s /\ v = 0) \/
     (e = ErrRange fn s /\ (v = maxInt64 \/ v = minInt64))) /\
  (forall line m,
     length line ≠ 3%nat -> length line ≠ 6%nat ->
     Master.Download_row line m = (Ok tt, m, [])) /\
  (forall line m,
     length line = 3%nat ->
     Master.Download_row line m
     = (Ok tt,
        Master.set_DateTime (idx line 2)
          (Master.set_UnixTime (fst (ParseInt (idx line 1)))
             (Master.set_Version (idx line 0) m)),
        [])) /\
  (forall line m n,
     length line = 6%nat ->
     fst (Atoi (idx line 0)) ≠ -1 ->
     Atoi (idx line 5) = (n, None) ->
     Master.Download_row line m
     = (Ok tt,
        Master.set_Buckets
          (Master.Buckets m ++
           [Bucket.NewBucket (Master.StorageBucketName m) (idx line 1)
              (Master.RemoteDir m +:+ "/" +:+ idx line 1) (Master.Dir m)
              (fst (Atoi (idx line 0))) (idx line 3) (idx line 4) n])
          m,
        [])) /\
  (forall line m v e,
     length line = 6%nat ->
     fst (Atoi (idx line 0)) ≠ -1 ->
     Atoi (idx line 5) = (v, Some e) ->
     Master.Download_row line m = (Err e, m, [])) /\
  (forall now m body,
     Master.Public m = false ->
     GetDownloadReader (Master.StorageBucketName m)
       (Master.RemoteDir m +:+ "/" +:+ Master.FileName m) = inr body ->
     (forall line,
        line ∈ csv_records
                 (write_at (Master.FileOffset m) (Master.File m) body) ->
        length line ≠ 3%nat /\ length line ≠ 6%nat) ->
     Master.Download now m
     = (Ok tt,
        filled (write_at (Master.FileOffset m) (Master.File m) body) m,
        [])).
Proof.
  split; [apply ParseInt_as_error|].
  split; [apply Download_row_skips|].
  split; [|split; [|split]].
  - intros line m Hlen. unfold Master.Download_row.
    by rewrite decide_True.
  - intros line m n Hlen Hnum Hcount. unfold Master.Download_row.
    rewrite decide_False by (rewrite Hlen; done).
    rewrite decide_True by done. cbv zeta.
    rewrite decide_False by done. by rewrite Hcount.
  - intros line m v e Hlen Hnum Hcount. unfold Master.Download_row.
    rewrite decide_False by (rewrite Hlen; done).
    rewrite decide_True by done. cbv zeta.
    rewrite decide_False by done. by rewrite Hcount.
  - intros now m body Hpub Hget Hrows.
    unfold Master.Download. unfold bind at 1, get at 1. cbv beta iota zeta.
    rewrite Hpub.
    change (joinPath [Master.RemoteDir m; Master.FileName m])
      with (Master.RemoteDir m +:+ "/" +:+ Master.FileName m).
    rewrite Hget. unfold bind at 1, Master.write_File, modify at 1.
    unfold Master.Download_rows.
    unfold bind at 1, modify at 1. cbv beta iota zeta.
    unfold bind at 1, get at 1. cbv beta iota zeta.
    cbn [Master.File Master.set_File Master.set_FileOffset].
    assert (forall rows (s : Master.t),
              (forall line, line ∈ rows ->
                 length line ≠ 3%nat /\ length line ≠ 6%nat) ->
              forM rows Master.Download_row s = (Ok tt, s, [])) as Hloop.
    { induction rows as [|line rows IH]; intros s Hall; [done|].
      simpl. unfold bind.
      destruct (Hall line ltac:(left)) as [H3 H6].
      rewrite Download_row_skips by done.
      rewrite IH; [done|]. intros l Hl. apply Hall. by right. }
    rewrite (Download_csv_loop_ok _ _ _ [] (Hloop _ _ Hrows)).
    reflexivity.
Qed.

(** The theorem at a shard row whose number is not a numeral and at a
    header row whose timestamp is not one. *)
Lemma Download_ignores_malformed_rows_witness :
  @Master.Download_row Double.env (Double.storage [] [] [])
     ["x"; "p"; "zlib"; "a"; "b"; "7"] (Sample.master [])
  = (Ok tt,
     Sample.master [Bucket.NewBucket "store" "p" "patches/p" "/work" 0
                      "a" "b" 7],
     []) /\
  @Master.Download_row Double.env (Double.storage [] [] [])
     ["V1"; "soon"; "d"] (Sample.master [])
  = (Ok tt,
     Master.set_DateTime "d"
       (Master.set_UnixTime 0 (Master.set_Version "V1" (Sample.master []))),
     []).
Proof.
  pose proof (@Download_ignores_malformed_rows Double.env
                (Double.storage [] [] []))
    as (_ & _ & Hheader & Hshard & _).
  split.
  - apply (Hshard ["x"; "p"; "zlib"; "a"; "b"; "7"] (Sample.master []) 7).
    + reflexivity.
    + vm_compute. discriminate.
    + vm_compute. reflexivity.
  - apply (Hheader ["V1"; "soon"; "d"] (Sample.master [])). reflexivity.
Defined.

(** C10, as stated, fails twice: a shard row whose count column is not a
    numeral makes Download return the parser's error, and a header row
    whose timestamp is a numeral out of the 64-bit range fails to parse
    and leaves UnixTime at the largest 64-bit integer, not at 0. *)
Lemma Download_fails_on_count_and_saturates :
  @Master.Download Double.env
     (Double.storage [("patches/master.csv", "1,p,zlib,a,b,x
")] [] [])
     0 (Sample.master [])
  = (Err (ErrSyntax "Atoi" "x"),
     filled "1,p,zlib,a,b,x
" (Sample.master []), []) /\
  ParseInt "99999999999999999999"
  = (9223372036854775807, Some (ErrRange "ParseInt" "99999999999999999999")) /\
  @Master.Download Double.env
     (Double.storage [("patches/master.csv", "V1,99999999999999999999,d
")] [] [])
     0 (Sample.master [])
  = (Ok tt,
     filled "V1,99999999999999999999,d
"
       (Master.set_DateTime "d"
          (Master.set_UnixTime 9223372036854775807
             (Master.set_Version "V1" (Sample.master [])))),
     []).
Proof. vm_compute. auto. Qed.

(* ================================================================== *)
(** * Further properties *)

(** ** Numbers written and read back *)

Lemma digit_of_pretty_N_char (d : N) :
  (d < 10)%N -> digit_of (pretty_N_char d) = Some (Z.of_N d).
Proof.
  intros Hd.
  assert (d = 0 \/ d = 1 \/ d = 2 \/ d = 3 \/ d = 4 \/ d = 5 \/ d = 6 \/
          d = 7 \/ d = 8 \/ d = 9)%N as Hcases by lia.
  repeat (destruct Hcases as [->|Hcases]; [reflexivity|]).
  by subst d.
Qed.

(** The digit loop reads the digits of [x] back to [x]. *)
Lemma ParseUint_loop_digits (x : N) :
  forall s : string,
    Z.of_N x <= 2 ^ 64 - 1 ->
    ParseUint_loop (pretty_N_go x s) 0 = ParseUint_loop s (Z.of_N x).
Proof.
  induction (N.lt_wf_0 x) as [x _ IH]; intros s Hx.
  destruct (decide (x = 0%N)) as [->|Hne].
  - by rewrite pretty_N_go_0.
  - rewrite pretty_N_go_step by lia.
    rewrite IH.
    + cbn [ParseUint_loop].
      rewrite digit_of_pretty_N_char by (apply N.mod_lt; lia).
      rewrite N2Z.inj_div, N2Z.inj_mod.
      change (Z.of_N 10) with 10.
      pose proof (Z.div_mod (Z.of_N x) 10 ltac:(lia)) as Hdm.
      pose proof (Z.mod_pos_bound (Z.of_N x) 10 ltac:(lia)) as Hm.
      assert (Z.of_N x `div` 10 * 10 + Z.of_N x `mod` 10 = Z.of_N x) as ->
        by lia.
      destruct ((2 ^ 64 - 1) `div` 10 + 1 <=? Z.of_N x `div` 10) eqn:Hcut.
      { apply Z.leb_le in Hcut.
        pose proof (Z.div_le_mono (Z.of_N x) (2 ^ 64 - 1) 10 ltac:(lia) Hx).
        lia. }
      destruct (2 ^ 64 - 1 <? Z.of_N x) eqn:Hmax; [|done].
      apply Z.ltb_lt in Hmax. lia.
    + apply N.div_lt; lia.
    + rewrite N2Z.inj_div. change (Z.of_N 10) with 10.
      assert (0 <= Z.of_N x) by lia.
      pose proof (Z.div_le_mono (Z.of_N x) (2 ^ 64 - 1) 10 ltac:(lia) Hx).
      assert ((2 ^ 64 - 1) `div` 10 <= 2 ^ 64 - 1) by
        (apply Z.div_le_upper_bound; lia).
      lia.
Qed.

Lemma ParseUint_loop_positive (p : positive) :
  Z.pos p <= 2 ^ 64 - 1 ->
  exists c rest d,
    pretty_N_go (N.pos p) "" = String c rest /\
    digit_of c = Some d /\
    ParseUint_loop (String c rest) 0 = inl (Z.pos p).
Proof.
  intros Hp.
  pose proof (ParseUint_loop_digits (N.pos p) "" Hp) as Hloop.
  simpl in Hloop.
  destruct (pretty_N_go (N.pos p) "") as [|c rest]; [done|].
  exists c, rest.
  destruct (digit_of c) as [d|] eqn:Hd.
  - by exists d.
  - simpl in Hloop. by rewrite Hd in Hloop.
Qed.

(** What [Itoa] and [FormatInt] write of a 64-bit integer, [Atoi] and
    [ParseInt] read back without an error. *)
Lemma ParseInt_as_pretty (fn : string) (z : Z) :
  minInt64 <= z <= maxInt64 -> ParseInt_as fn (pretty z) = (z, None).
Proof.
  unfold minInt64, maxInt64. intros Hz. destruct z as [|p|p].
  - reflexivity.
  - destruct (ParseUint_loop_positive p ltac:(lia))
      as (c & rest & d & Hs & Hd & Hloop).
    change (pretty (Z.pos p)) with (pretty_N_go (N.pos p) "").
    rewrite Hs. unfold ParseInt_as.
    assert (bool_decide (c = "-"%char) = false) as ->.
    { apply bool_decide_eq_false. intros ->. done. }
    assert (bool_decide (c = "+"%char) = false) as ->.
    { apply bool_decide_eq_false. intros ->. done. }
    cbn [orb negb andb]. rewrite Hloop.
    destruct (2 ^ 63 <=? Z.pos p) eqn:Hle; [|reflexivity].
    apply Z.leb_le in Hle. lia.
  - destruct (ParseUint_loop_positive p ltac:(lia))
      as (c & rest & d & Hs & Hd & Hloop).
    change (pretty (Z.neg p))
      with (String "-"%char (pretty_N_go (N.pos p) "")).
    rewrite Hs. unfold ParseInt_as.
    assert (bool_decide ("-"%char = "-"%char) = true) as -> by done.
    assert (bool_decide ("-"%char = "+"%char) = false) as -> by done.
    cbn [orb negb andb]. rewrite Hloop.
    destruct (2 ^ 63 <? Z.pos p) eqn:Hlt; [|reflexivity].
    apply Z.ltb_lt in Hlt. lia.
Qed.

(** ** Replay: what a key maps to *)

Lemma CompileList_live (m : Master.t) :
  fst (Master.CompileList m) = foldl Master.apply_patch ∅ (live_patches m).
Proof.
  unfold Master.CompileList, live_patches. by rewrite CompileList_fold.
Qed.

Lemma apply_patch_other (l : gmap string (list string)) (k : string)
    (q : Patch) :
  ~ sets k q -> ~ removes k q ->
  Master.apply_patch l q !! k = l !! k.
Proof.
  unfold sets, removes, Master.apply_patch. intros Hs Hr.
  destruct (decide (GetAction q = "+")) as [Hp|_].
  { apply lookup_insert_ne. intros Hk. by apply Hs. }
  destruct (decide (GetAction q = "-")) as [Hd|_].
  { apply lookup_delete_ne. intros Hk. apply Hr. by left. }
  destruct (decide (GetAction q = "*")) as [Hc|_]; [|done].
  exfalso. apply Hr. by right.
Qed.

Lemma replay_other (k : string) (post : list Patch) :
  forall l : gmap string (list string),
    (forall q, q ∈ post -> ~ sets k q /\ ~ removes k q) ->
    foldl Master.apply_patch l post !! k = l !! k.
Proof.
  induction post as [|q post IH]; intros l Hpost; [done|].
  simpl. rewrite IH.
  - apply apply_patch_other; apply Hpost; left.
  - intros q' Hq'. apply Hpost. by right.
Qed.

Lemma apply_patch_absent (l : gmap string (list string)) (k : string)
    (q : Patch) :
  l !! k = None -> ~ sets k q -> Master.apply_patch l q !! k = None.
Proof.
  unfold sets, Master.apply_patch. intros Hl Hs.
  destruct (decide (GetAction q = "+")) as [Hp|_].
  { rewrite lookup_insert_ne; [done|]. intros Hk. by apply Hs. }
  destruct (decide (GetAction q = "-")) as [Hd|_].
  { apply lookup_delete_None. by right. }
  by destruct (decide (GetAction q = "*")).
Qed.

Lemma replay_absent (k : string) (post : list Patch) :
  forall l : gmap string (list string),
    l !! k = None ->
    (forall q, q ∈ post -> ~ sets k q) ->
    foldl Master.apply_patch l post !! k = None.
Proof.
  induction post as [|q post IH]; intros l Hl Hpost; [done|].
  simpl. apply IH.
  - apply apply_patch_absent; [done|]. apply Hpost. left.
  - intros q' Hq'. apply Hpost. by right.
Qed.

(** X1. The compiled list maps a key to the values of the last live patch
    that set it, when no live patch after that one deletes the key, sets
    it again or clears the list. *)
Theorem CompileList_last_set_wins (m : Master.t) (pre post : list Patch)
    (p : Patch) :
  live_patches m = pre ++ p :: post ->
  GetAction p = "+" ->
  (forall q, q ∈ post -> ~ sets (GetKey p) q /\ ~ removes (GetKey p) q) ->
  fst (Master.CompileList m) !! GetKey p = Some (GetValues p).
Proof.
  intros Hlive Hp Hpost.
  rewrite CompileList_live, Hlive, foldl_app. simpl.
  rewrite replay_other by done.
  unfold Master.apply_patch. rewrite decide_True by done.
  apply lookup_insert_eq.
Qed.

(** The theorem at the key C of the replay example: the patch that sets
    it is the last one. *)
Lemma CompileList_last_set_wins_witness :
  fst (Master.CompileList Sample.replay_master) !! "C" = Some ["3"].
Proof.
  apply (CompileList_last_set_wins Sample.replay_master
           [Sample.Set_ "A" ["1"]; Sample.Set_ "B" ["2"]; Sample.Delete_ "A";
            Sample.ClearAll]
           [] (Sample.Set_ "C" ["3"])).
  - reflexivity.
  - reflexivity.
  - intros q Hq. by apply elem_of_nil in Hq.
Defined.

(** X2. The compiled list does not hold a key when no live patch sets it,
    and when a live patch deletes it or clears the list and no live patch
    after that one sets it. *)
Theorem CompileList_removed_key_absent (m : Master.t) (k : string) :
  ((forall q, q ∈ live_patches m -> ~ sets k q) ->
   fst (Master.CompileList m) !! k = None) /\
  (forall (pre post : list Patch) (p : Patch),
     live_patches m = pre ++ p :: post ->
     removes k p ->
     (forall q, q ∈ post -> ~ sets k q) ->
     fst (Master.CompileList m) !! k = None).
Proof.
  split.
  - intros Hnone. rewrite CompileList_live.
    by apply replay_absent.
  - intros pre post p Hlive Hp Hpost.
    rewrite CompileList_live, Hlive, foldl_app. simpl.
    apply replay_absent; [|done].
    unfold Master.apply_patch.
    destruct Hp as [[Hd <-]|Hc].
    + rewrite decide_False by (rewrite Hd; done).
      rewrite decide_True by done. apply lookup_delete_eq.
    + rewrite decide_False by (rewrite Hc; done).
      rewrite decide_False by (rewrite Hc; done).
      by rewrite decide_True.
Qed.

Lemma replay_known (ps : list Patch) :
  forall l : gmap string (list string),
    foldl Master.apply_patch l ps
    = foldl Master.apply_patch l (filter known_action ps).
Proof.
  induction ps as [|p ps IH]; intros l; [done|].
  rewrite filter_cons. destruct (decide (known_action p)) as [Hk|Hk].
  - simpl. apply IH.
  - simpl. rewrite <- IH. f_equal.
    unfold Master.apply_patch, known_action in *.
    repeat case_decide; try done; exfalso; apply Hk; auto.
Qed.

(** X3. A live patch whose action is none of [+], [-] and [*] is passed
    over without an error: the compiled list is that of the live patches
    with a known action, and two masters that agree on those compile to
    the same list. *)
Theorem CompileList_passes_over_unknown_actions :
  (forall m : Master.t,
     fst (Master.CompileList m)
     = foldl Master.apply_patch ∅ (filter known_action (live_patches m))) /\
  (forall m1 m2 : Master.t,
     filter known_action (live_patches m1)
     = filter known_action (live_patches m2) ->
     fst (Master.CompileList m1) = fst (Master.CompileList m2)) /\
  (forall (l : gmap string (list string)) (p : Patch),
     ~ known_action p -> Master.apply_patch l p = l).
Proof.
  split; [|split].
  - intros m. rewrite CompileList_live. apply replay_known.
  - intros m1 m2 Heq. rewrite !CompileList_live.
    rewrite (replay_known (live_patches m1)), (replay_known (live_patches m2)).
    by rewrite Heq.
  - intros l p Hk. unfold Master.apply_patch, known_action in *.
    repeat case_decide; try done; exfalso; apply Hk; auto.
Qed.

Lemma live_patches_snoc (m : Master.t) (bs : list Bucket.t) (b : Bucket.t) :
  live_patches (Master.set_Buckets (bs ++ [b]) m)
  = live_patches (Master.set_Buckets bs m)
    ++ (if Bucket.IsDeleted b then [] else Bucket.Patches b).
Proof.
  unfold live_patches. cbn [Master.Buckets Master.set_Buckets].
  rewrite filter_app, fmap_app, concat_app. f_equal.
  rewrite filter_cons, filter_nil.
  destruct (Bucket.IsDeleted b); simpl; [done|].
  by rewrite app_nil_r.
Qed.

(** X4. With the shards in increasing order of positive numbers, a patch
    that [AddPatch] takes shows in the replay as its last step, whether it
    went to the last shard or to a new one; unless the last shard is
    flagged deleted and has room, in which case the patch is appended to
    it and the replay does not see it. *)
Theorem AddPatch_is_last_replay_step `{Env} (m : Master.t) (patch : Patch)
    (bs : list Bucket.t) (b : Bucket.t) :
  Master.Buckets m = bs ++ [b] ->
  0 < Bucket.Number b < maxInt64 ->
  (forall b', b' ∈ bs -> Bucket.Number b' < Bucket.Number b) ->
  exists m' : Master.t,
    Master.AddPatch patch m = (Ok tt, m', []) /\
    (Bucket.IsDeleted b = false \/ over_cap b = true ->
     fst (Master.CompileList m')
     = Master.apply_patch (fst (Master.CompileList m)) patch) /\
    (Bucket.IsDeleted b = true -> over_cap b = false ->
     Master.Buckets m' = bs ++ [appended patch b] /\
     fst (Master.CompileList m') = fst (Master.CompileList m)).
Proof.
  intros Hbs Hnum Hlow.
  assert (Master.Buckets m !! length bs = Some b) as Hat.
  { rewrite Hbs. by apply list_lookup_middle. }
  assert (range_fold Master.latest_step 0%nat (Master.Buckets m) (0, None)
          = (Bucket.Number b, Some (length bs, b))) as Hlatest.
  { rewrite (latest_found (Master.Buckets m) 0%nat (0, None) (length bs) b);
      [done|done|simpl; lia|..].
    - intros j b' Hj Hb'. apply Hlow.
      rewrite Hbs, lookup_app_l in Hb' by done.
      by apply list_elem_of_lookup_2 with j.
    - intros b' Hb'. rewrite Hbs in Hb'.
      apply elem_of_app in Hb' as [Hb'|Hb'].
      + apply Hlow in Hb'. lia.
      + apply list_elem_of_singleton in Hb' as ->. lia. }
  assert (m = Master.set_Buckets (bs ++ [b]) m) as Hm.
  { rewrite <- Hbs. symmetry. apply set_Buckets_same. }
  assert (live_patches m
          = live_patches (Master.set_Buckets bs m)
            ++ (if Bucket.IsDeleted b then [] else Bucket.Patches b))
    as Hlive.
  { rewrite Hm at 1. apply live_patches_snoc. }
  destruct (over_cap b) eqn:Hcap.
  - exists (Master.set_Buckets
              (Master.Buckets m
               ++ [appended patch
                     (fresh_bucket m (wrap64 (Bucket.Number b + 1)))]) m).
    split; [|split].
    + by apply (AddPatch_opens m patch (Bucket.Number b)
                  (Some (length bs, b))).
    + intros _. rewrite !CompileList_live, live_patches_snoc.
      rewrite set_Buckets_same. cbn [Bucket.IsDeleted appended fresh_bucket
        Bucket.set_Patches Bucket.set_IsChanged Bucket.set_File
        Bucket.set_ZippedFile Bucket.NewBucket Bucket.Patches].
      by rewrite foldl_app.
    + done.
  - exists (Master.set_Buckets
              (<[length bs := appended patch b]> (Master.Buckets m)) m).
    assert (<[length bs := appended patch b]> (Master.Buckets m)
            = bs ++ [appended patch b]) as Hins.
    { rewrite Hbs. apply insert_last. }
    split; [|split].
    + by apply (AddPatch_appends m patch (Bucket.Number b) (length bs) b).
    + intros [Hdel|]; [|done].
      rewrite !CompileList_live, Hins, live_patches_snoc, Hlive.
      change (Bucket.IsDeleted (appended patch b)) with (Bucket.IsDeleted b).
      rewrite Hdel.
      change (Bucket.Patches (appended patch b))
        with (Bucket.Patches b ++ [patch]).
      by rewrite app_assoc, foldl_app.
    + intros Hdel _. rewrite Hins. split; [done|].
      rewrite !CompileList_live, live_patches_snoc, Hlive.
      change (Bucket.IsDeleted (appended patch b)) with (Bucket.IsDeleted b).
      by rewrite Hdel.
Qed.

(** The theorem at the replay example, with a patch on a new key D: the
    patch goes to the shard numbered 2 and the compiled list gains D. *)
Lemma AddPatch_is_last_replay_step_witness :
  exists m' : Master.t,
    @Master.AddPatch Double.env (Sample.Set_ "D" ["4"]) Sample.replay_master
    = (Ok tt, m', []) /\
    fst (Master.CompileList m') = {[ "C" := ["3"]; "D" := ["4"] ]}.
Proof.
  destruct (@AddPatch_is_last_replay_step Double.env Sample.replay_master
              (Sample.Set_ "D" ["4"])
              [Sample.bucket 1 [Sample.Set_ "A" ["1"]; Sample.Set_ "B" ["2"];
                                Sample.Delete_ "A"]]
              (Sample.bucket 2 [Sample.ClearAll; Sample.Set_ "C" ["3"]])
              eq_refl)
    as (m' & Hrun & Hlive & _).
  - vm_compute. split; reflexivity.
  - intros b' Hb'. apply list_elem_of_singleton in Hb' as ->.
    vm_compute. reflexivity.
  - exists m'. split; [exact Hrun|].
    rewrite Hlive by (left; reflexivity).
    vm_compute. reflexivity.
Defined.

(** ** Wastage of a master without patches *)

Lemma imap_nil_patches {B} (f : nat -> nat -> Patch -> B) (bs : list Bucket.t) :
  (forall b, b ∈ bs -> Bucket.Patches b = []) ->
  forall g : nat -> nat,
    concat (imap (fun i b => imap (f (g i)) (Bucket.Patches b)) bs) = [].
Proof.
  induction bs as [|b bs IH]; intros Hall g; [done|].
  simpl. rewrite (Hall b) by left. simpl.
  apply (IH (fun b' Hb' => Hall b' (list_elem_of_further _ _ _ Hb'))
            (g ∘ S)).
Qed.

(** X5. When no shard holds a patch there is no key, the quotient of the
    wastage is 0/0, and the conversion of that float64 to [int] has no
    value the language defines. *)
Theorem CalculateWastage_undefined_without_patches (m : Master.t) :
  (forall b, b ∈ Master.Buckets m -> Bucket.Patches b = []) ->
  Master.collect_changes m = ∅ /\
  Master.collect_wastage (Master.collect_changes m) = [] /\
  Master.CalculateWastage m = None.
Proof.
  intros Hall.
  assert (all_changes m = []) as Hnone.
  { unfold all_changes.
    apply (imap_nil_patches
             (fun bucketKey patchKey patch =>
                {| Master.key := GetKey patch;
                   Master.bucketKey := bucketKey;
                   Master.patchKey := patchKey |})
             (Master.Buckets m) Hall id). }
  assert (Master.collect_changes m = ∅) as Hempty.
  { apply map_empty. intros k.
    pose proof (collect_changes_grouped m k) as Hk.
    by rewrite Hnone in Hk. }
  split; [done|].
  unfold Master.CalculateWastage. rewrite Hempty.
  split; [done|].
  unfold Master.collect_wastage. rewrite map_to_list_empty, map_size_empty.
  reflexivity.
Qed.

(** The theorem at a master of one shard without patches. *)
Lemma CalculateWastage_undefined_without_patches_witness :
  Master.CalculateWastage (Sample.master [Sample.bucket 1 []]) = None.
Proof.
  apply (CalculateWastage_undefined_without_patches
           (Sample.master [Sample.bucket 1 []])).
  intros b Hb. apply list_elem_of_singleton in Hb as ->. reflexivity.
Defined.

(** ** A shard's file and its patches *)

Lemma row_patch_fields (patch : Patch) :
  row_patch (patch_fields patch) = patch.
Proof. by destruct patch. Qed.

(** X6. [Bucket.AddPatch] keeps the staging file and the patch list in
    step: when the file read back gives the patches of the bucket, and the
    CSV reader reads the new row behind the old ones, the file read back
    after the append gives the patches with the new one last. *)
Theorem AddPatch_keeps_file_in_step `{Env} (patch : Patch) (b : Bucket.t) :
  in_step b ->
  csv_records (Bucket.File b +:+ csv_encode (patch_fields patch))
  = csv_records (Bucket.File b) ++ [patch_fields patch] ->
  exists b' : Bucket.t,
    Bucket.AddPatch patch b = (Ok tt, b', []) /\
    in_step b' /\
    Bucket.Patches b' = Bucket.Patches b ++ [patch] /\
    Bucket.IsChanged b' = true.
Proof.
  intros Hstep Hcsv. exists (appended patch b).
  split; [reflexivity|]. split; [|done].
  unfold in_step, appended.
  cbn [Bucket.File Bucket.Patches Bucket.set_File Bucket.set_IsChanged
       Bucket.set_Patches].
  unfold patch_fields in Hcsv. rewrite Hcsv, fmap_app, Hstep.
  simpl. f_equal. f_equal. apply row_patch_fields.
Qed.

(** The theorem at a shard whose file holds one row, with a patch of two
    values. *)
Lemma AddPatch_keeps_file_in_step_witness :
  exists b' : Bucket.t,
    @Bucket.AddPatch Double.env (Sample.Set_ "B" ["2"; "3"])
       (listed_bucket 1 false false)
    = (Ok tt, b', []) /\
    @in_step Double.env b' /\
    Bucket.Patches b' = [Sample.Set_ "A" ["1"]; Sample.Set_ "B" ["2"; "3"]] /\
    Bucket.IsChanged b' = true.
Proof.
  apply (@AddPatch_keeps_file_in_step Double.env
           (Sample.Set_ "B" ["2"; "3"]) (listed_bucket 1 false false));
    reflexivity.
Defined.

(** ** A published shard, fetched *)

Lemma Bucket_Download_run `{Env} `{Storage} (Validation : Bucket.validator)
    (b : Bucket.t) (written : bytes) (e : option error) :
  DownloadWriter (Bucket.StorageBucketName b) (Bucket.RemoteFilePath b)
  = (written, e) ->
  Bucket.Download Validation b
  = match e with
    | Some err =>
        if is_ErrObjectNotExist err then
          (Bucket.Unzip ;; Bucket.VerifyUnzipped Validation)
            (Bucket.set_ZippedFile written b)
        else (Err err, Bucket.set_ZippedFile written b, [])
    | None =>
        (Bucket.Unzip ;; Bucket.VerifyUnzipped Validation)
          (Bucket.set_ZippedFile written b)
    end.
Proof.
  intros Hfetch.
  unfold Bucket.Download. unfold bind at 1. unfold modify at 1.
  cbv beta iota zeta. unfold bind at 1, get at 1. cbv beta iota zeta.
  change (Bucket.StorageBucketName (Bucket.set_ZippedFile "" b))
    with (Bucket.StorageBucketName b).
  change (Bucket.RemoteFilePath (Bucket.set_ZippedFile "" b))
    with (Bucket.RemoteFilePath b).
  rewrite Hfetch. unfold bind at 1, modify at 1. cbv beta iota zeta.
  change (Bucket.set_ZippedFile written (Bucket.set_ZippedFile "" b))
    with (Bucket.set_ZippedFile written b).
  unfold bind at 1.
  destruct e as [err|]; [destruct (is_ErrObjectNotExist err)|];
    cbn [negb]; unfold ret, fail; cbv beta iota zeta;
    try reflexivity;
    by destruct ((Bucket.Unzip;; Bucket.VerifyUnzipped Validation) _)
      as [[r b'] l].
Qed.

Lemma VerifyUnzipped_run `{Env} (Validation : Bucket.validator)
    (b : Bucket.t) :
  Bucket.VerifyUnzipped Validation b
  = if decide (Bucket.UnzippedHash b ≠ md5_hex (Bucket.File b)) then
      (Err (ErrInvalidUnzippedChecksum (Bucket.RemoteFilePath b)), b, [])
    else forM (csv_records (Bucket.File b)) (Bucket.verify_row Validation) b.
Proof.
  unfold Bucket.VerifyUnzipped, bind, get. cbv beta iota zeta.
  unfold Bucket.checksumReadSeeker.
  destruct (decide _); [reflexivity|].
  by destruct (forM _ _ b) as [[r b'] l].
Qed.

Lemma verify_rows_all `{Env} (Validation : Bucket.validator)
    (rows : list (list string)) (b : Bucket.t) :
  rows_pass Validation b rows ->
  forM rows (Bucket.verify_row Validation) b = (Ok tt, with_rows b rows, []).
Proof.
  intros Hpass.
  pose proof (verify_rows_pass Validation rows [] b Hpass) as Hrun.
  by rewrite app_nil_r in Hrun.
Qed.

(** X7. A shard that a publish compressed, hashed and uploaded can be
    fetched by a reader that knows it from its descriptor row: when the
    backend returns the artifact it was given, the codec inflates what it
    compressed and the rows pass the validator, [Bucket.Download] goes
    through both digest checks and leaves the reader with the publisher's
    file and with one patch for every row of it. *)
Theorem published_shard_downloads `{Env} `{Storage}
    (Validation : Bucket.validator) (unix : Z) (remoteDir dir : string)
    (b : Bucket.t) :
  let b' := republished unix remoteDir b in
  let reader := described (Bucket.StorageBucketName b) remoteDir dir b' in
  DownloadWriter (Bucket.StorageBucketName b) (Bucket.RemoteFilePath b')
  = (Bucket.ZippedFile b', None) ->
  zlib_inflate (zlib_compress (Bucket.File b)) = Stream (Bucket.File b) None ->
  rows_pass Validation
    (Bucket.set_File (Bucket.File b)
       (Bucket.set_ZippedFile (Bucket.ZippedFile b') reader))
    (csv_records (Bucket.File b)) ->
  exists fetched : Bucket.t,
    Bucket.Download Validation reader = (Ok tt, fetched, []) /\
    Bucket.File fetched = Bucket.File b /\
    Bucket.ZippedFile fetched = zlib_compress (Bucket.File b) /\
    Bucket.Patches fetched = row_patch <$> csv_records (Bucket.File b).
Proof.
  intros b' reader Hfetch Hcodec Hpass.
  exists (with_rows
            (Bucket.set_File (Bucket.File b)
               (Bucket.set_ZippedFile (Bucket.ZippedFile b') reader))
            (csv_records (Bucket.File b))).
  split; [|done].
  rewrite (Bucket_Download_run Validation reader (Bucket.ZippedFile b') None)
    by exact Hfetch.
  unfold bind. rewrite Unzip_run.
  change (Bucket.ZippedHash (Bucket.set_ZippedFile _ reader))
    with (md5_hex (zlib_compress (Bucket.File b))).
  change (Bucket.ZippedFile (Bucket.set_ZippedFile (Bucket.ZippedFile b')
            reader))
    with (zlib_compress (Bucket.File b)).
  rewrite decide_False by (intros Hne; by apply Hne).
  rewrite Hcodec.
  rewrite VerifyUnzipped_run.
  change (Bucket.UnzippedHash (Bucket.set_File (Bucket.File b) _))
    with (md5_hex (Bucket.File b)).
  change (Bucket.File (Bucket.set_File (Bucket.File b) _))
    with (Bucket.File b).
  rewrite decide_False by (intros Hne; by apply Hne).
  change (Bucket.set_ZippedFile (zlib_compress (Bucket.File b)) reader)
    with (Bucket.set_ZippedFile (Bucket.ZippedFile b') reader).
  by rewrite (verify_rows_all Validation _ _ Hpass).
Qed.

(** The theorem at the shard numbered 1, published in the second 5 and
    fetched into another working directory. *)
Lemma published_shard_downloads_witness :
  exists fetched : Bucket.t,
    @Bucket.Download Double.env
       (Double.storage [("patches/5-1.csv.zlib", "z+,A,1
")] [] [])
       Double.accept_all
       (described "store" "patches" "/home"
          (@republished Double.env 5 "patches" (listed_bucket 1 true false)))
    = (Ok tt, fetched, []) /\
    Bucket.File fetched = "+,A,1
" /\
    Bucket.ZippedFile fetched = "z+,A,1
" /\
    Bucket.Patches fetched = [DefaultPatch "+" "A" ["1"]].
Proof.
  apply (@published_shard_downloads Double.env
           (Double.storage [("patches/5-1.csv.zlib", "z+,A,1
")] [] [])
           Double.accept_all 5 "patches" "/home"
           (listed_bucket 1 true false)).
  - reflexivity.
  - reflexivity.
  - intros i line Hline. split; [reflexivity|].
    destruct i as [|[|i]]; vm_compute in Hline; [|done|done].
    injection Hline as <-. vm_compute. lia.
Defined.

(** ** Publish: what it leaves alone, and what it checks *)

Lemma published_keeps `{Env} (unix : Z) (remoteDir : string) (b : Bucket.t) :
  Bucket.File (published unix remoteDir b) = Bucket.File b /\
  Bucket.Patches (published unix remoteDir b) = Bucket.Patches b /\
  Bucket.Number (published unix remoteDir b) = Bucket.Number b /\
  Bucket.IsChanged (published unix remoteDir b) = Bucket.IsChanged b /\
  Bucket.IsDeleted (published unix remoteDir b) = Bucket.IsDeleted b.
Proof.
  unfold published.
  destruct (Bucket.IsDeleted b) eqn:Hdel; [done|].
  destruct (Bucket.IsChanged b) eqn:Hch; [|done].
  by repeat split.
Qed.

(** X8. A publish that went through changed no shard's staging file,
    patch list, number or flags.  In particular the changed flag of a
    shard is still set, and every later publish uploads the shard again,
    under the name of its own second, with no patch added in between. *)
Theorem publish_leaves_changed_flag_set `{Env} `{Storage}
    (Validation : Bucket.validator) (now later : Time)
    (m m' m'' : Master.t) (log log' : list StorageOp) :
  Master.UploadToStorageBucket Validation now m = (Ok tt, m', log) ->
  Master.UploadToStorageBucket Validation later m' = (Ok tt, m'', log') ->
  (forall i b,
     Master.Buckets m !! i = Some b ->
     exists b',
       Master.Buckets m' !! i = Some b' /\
       Bucket.File b' = Bucket.File b /\
       Bucket.Patches b' = Bucket.Patches b /\
       Bucket.Number b' = Bucket.Number b /\
       Bucket.IsChanged b' = Bucket.IsChanged b /\
       Bucket.IsDeleted b' = Bucket.IsDeleted b) /\
  (forall i b,
     Master.Buckets m !! i = Some b ->
     Bucket.IsDeleted b = false -> Bucket.IsChanged b = true ->
     OpPut (Bucket.StorageBucketName b)
       (Master.RemoteDir m +:+ "/" +:+
        relocated (Unix later) (Bucket.ZippedFileName b))
       (zlib_compress (Bucket.File b)) ∈ log').
Proof.
  intros Hrun Hagain.
  apply UploadToStorageBucket_ok in Hrun as [-> ->].
  apply UploadToStorageBucket_ok in Hagain as [-> ->].
  split.
  - intros i b Hi.
    exists (published (Unix now) (Master.RemoteDir m) b). split.
    + change (Master.Buckets (published_master now m))
        with (published (Unix now) (Master.RemoteDir m) <$> Master.Buckets m).
      by rewrite list_lookup_fmap, Hi.
    + apply published_keeps.
  - intros i b Hi Hdel Hch.
    apply (bucket_ops_in_publish_ops later (published_master now m) i
             (republished (Unix now) (Master.RemoteDir m) b)).
    + change (Master.Buckets (published_master now m))
        with (published (Unix now) (Master.RemoteDir m) <$> Master.Buckets m).
      rewrite list_lookup_fmap, Hi. simpl. unfold published.
      by rewrite Hdel, Hch.
    + unfold bucket_ops.
      change (Bucket.IsDeleted (republished ?u ?d b))
        with (Bucket.IsDeleted b).
      change (Bucket.IsChanged (republished ?u ?d b))
        with (Bucket.IsChanged b).
      rewrite Hdel, Hch. left.
Qed.

(** The theorem at two publishes, in the seconds 5 and 9, with nothing
    in between: the changed shard is uploaded under 5-1.csv.zlib and
    again under 9-1.csv.zlib. *)
Lemma publish_leaves_changed_flag_set_witness :
  exists m' m'' log log',
    @Master.UploadToStorageBucket Double.env (Double.storage [] [] [])
       Double.accept_all sample_now publish_master_sample = (Ok tt, m', log) /\
    @Master.UploadToStorageBucket Double.env (Double.storage [] [] [])
       Double.accept_all later_now m' = (Ok tt, m'', log') /\
    OpPut "store" "patches/5-1.csv.zlib" "z+,A,1
" ∈ log /\
    OpPut "store" "patches/9-1.csv.zlib" "z+,A,1
" ∈ log'.
Proof.
  destruct (@Master.UploadToStorageBucket Double.env
              (Double.storage [] [] []) Double.accept_all sample_now
              publish_master_sample) as [[r m'] log] eqn:Hrun.
  assert (r = Ok tt) as -> by (vm_compute in Hrun; congruence).
  destruct (@Master.UploadToStorageBucket Double.env
              (Double.storage [] [] []) Double.accept_all later_now m')
    as [[r' m''] log'] eqn:Hagain.
  assert (r' = Ok tt) as ->.
  { assert (m' = @published_master Double.env sample_now
                   publish_master_sample) as Hm'
      by (vm_compute in Hrun; vm_compute; congruence).
    rewrite Hm' in Hagain. vm_compute in Hagain. congruence. }
  exists m', m'', log, log'. split; [reflexivity|]. split; [exact Hagain|].
  pose proof (proj2 (@publish_leaves_changed_flag_set Double.env
                       (Double.storage [] [] []) Double.accept_all
                       sample_now later_now publish_master_sample m' m''
                       log log' Hrun Hagain)
                    0%nat (listed_bucket 1 true false) eq_refl eq_refl
                    eq_refl) as Hput.
  split; [|exact Hput].
  vm_compute in Hrun. injection Hrun as <- <-. left.
Defined.

Lemma VerifyZipped_ok `{Env} (Validation : Bucket.validator)
    (b b' : Bucket.t) (l : list StorageOp) :
  Bucket.VerifyZipped Validation b = (Ok tt, b', l) ->
  exists out : bytes,
    zlib_inflate (Bucket.ZippedFile b) = Stream out None /\
    forall line, line ∈ csv_records out -> Validation line b = None.
Proof.
  unfold Bucket.VerifyZipped, bind, get. cbv beta iota zeta.
  destruct (zlib_inflate (Bucket.ZippedFile b)) as [e|out tail]; [done|].
  intros Hrun. exists out.
  assert (forall rows : list (list string),
            fst (fst (forM rows (fun line => check (Validation line b)) b))
            = Ok tt ->
            forall line, line ∈ rows -> Validation line b = None) as Hrows.
  { induction rows as [|row rows IH]; intros Hok line Hline.
    - by apply elem_of_nil in Hline.
    - simpl in Hok. unfold bind at 1, check at 1 in Hok.
      destruct (Validation row b) as [e|] eqn:Hrow; [done|].
      unfold ret in Hok.
      destruct (forM rows _ b) as [[r2 b2] l2] eqn:Hrest.
      apply elem_of_cons in Hline as [->|Hline]; [done|].
      apply IH; [|done].
      destruct r2 as [[]| |]; done. }
  destruct (forM (csv_records out) _ b) as [[r1 b1] l1] eqn:Hloop.
  destruct r1 as [[]| |]; [|done|done].
  destruct tail as [e|].
  { unfold fail, hang in Hrun. by destruct (Validation csv_failed_read _). }
  split; [done|]. apply Hrows. by rewrite Hloop.
Qed.

Lemma publish_bucket_reads_back `{Env} `{Storage}
    (Validation : Bucket.validator) (b : Bucket.t) (m : Master.t)
    (s' : Bucket.t * Master.t) (l : list StorageOp) :
  Master.publish_bucket Validation (b, m) = (Ok tt, s', l) ->
  Bucket.IsDeleted b = false -> Bucket.IsChanged b = true ->
  reads_back Validation b.
Proof.
  intros Hrun Hdel Hch. revert Hrun.
  unfold Master.publish_bucket.
  unfold bind at 1, get at 1. cbv beta iota zeta. cbn [fst snd].
  rewrite Hdel, Hch.
  unfold bind, zoom, get, modify. cbv beta iota zeta. cbn [fst snd].
  rewrite Bucket_Compress_run. cbv beta iota zeta. cbn [fst snd].
  destruct (Bucket.VerifyZipped Validation
              (Bucket.set_ZippedFile (zlib_compress (Bucket.File b)) b))
    as [[r b1] l1] eqn:Hverify.
  destruct r as [[]| |]; [|done|done].
  intros _. apply VerifyZipped_ok in Hverify as (out & Hout & Hrows).
  by exists out.
Qed.

Lemma publish_loop_reads_back `{Env} `{Storage}
    (Validation : Bucket.validator) (bs : list Bucket.t) :
  forall (m : Master.t) (s' : list Bucket.t * Master.t)
         (l : list StorageOp),
    for_range (Master.publish_bucket Validation) bs m = (Ok tt, s', l) ->
    forall b, b ∈ bs ->
      Bucket.IsDeleted b = false -> Bucket.IsChanged b = true ->
      reads_back Validation b.
Proof.
  induction bs as [|b0 bs IH]; intros m s' l Hrun b Hb Hdel Hch.
  - by apply elem_of_nil in Hb.
  - simpl in Hrun.
    destruct (Master.publish_bucket Validation (b0, m))
      as [[r [b1 m1]] l1] eqn:Hb0.
    destruct r as [[]| |]; [|done|done].
    destruct (for_range _ bs m1) as [[r2 [bs2 m2]] l2] eqn:Hrest.
    apply elem_of_cons in Hb as [->|Hb].
    + by apply (publish_bucket_reads_back Validation b0 m (b1, m1) l1).
    + destruct r2 as [[]| |]; [|done|done].
      by apply (IH m1 (bs2, m2) l2).
Qed.

(** X9. A publish goes through only if the compressed artifact of every
    shard it uploads read back: the codec inflated it to its end and the
    validator accepted every row of the result. *)
Theorem publish_uploads_only_shards_that_read_back `{Env} `{Storage}
    (Validation : Bucket.validator) (now : Time) (m m' : Master.t)
    (log : list StorageOp) :
  Master.UploadToStorageBucket Validation now m = (Ok tt, m', log) ->
  forall b, b ∈ Master.Buckets m ->
    Bucket.IsDeleted b = false -> Bucket.IsChanged b = true ->
    reads_back Validation b.
Proof.
  rewrite UploadToStorageBucket_start.
  set (m0 := filled _ _).
  assert (Master.Buckets m0 = Master.Buckets m) as Hbs by reflexivity.
  assert (Master.FileOffset m0 = String.length (Master.File m0)) as Hend0
    by reflexivity.
  clearbody m0.
  unfold bind at 1, get at 1. cbv beta iota zeta.
  unfold bind at 1.
  destruct (match Master.Categories m0 with
            | Some c0 => Master.publish_categories c0
            | None => ret ()
            end m0) as [[r1 m1] l1] eqn:Hcat.
  destruct r1 as [[]| |]; [|done|done].
  assert (Master.Buckets m1 = Master.Buckets m) as Hbs1.
  { destruct (Master.Categories m0) as [c0|] eqn:Hc.
    - apply publish_categories_ok in Hcat as [-> _]; [|done|done].
      exact Hbs.
    - injection Hcat as <- _. exact Hbs. }
  unfold bind at 1. unfold Master.range_Buckets at 1.
  destruct (for_range _ _ m1) as [[r2 [bs2 m2]] l2] eqn:Hloop.
  destruct r2 as [[]| |]; [|done|done].
  intros _ b Hb. rewrite Hbs1 in Hloop.
  by apply (publish_loop_reads_back Validation _ _ _ _ Hloop).
Qed.

(** The theorem at the changed shard of a publish that goes through. *)
Lemma publish_uploads_only_shards_that_read_back_witness :
  @reads_back Double.env Double.accept_all (listed_bucket 1 true false).
Proof.
  destruct (@Master.UploadToStorageBucket Double.env
              (Double.storage [] [] []) Double.accept_all sample_now
              publish_master_sample) as [[r m'] log] eqn:Hrun.
  assert (r = Ok tt) as -> by (vm_compute in Hrun; congruence).
  apply (@publish_uploads_only_shards_that_read_back Double.env
           (Double.storage [] [] []) Double.accept_all sample_now
           publish_master_sample m' log Hrun);
    [left|reflexivity|reflexivity].
Defined.

(** ** Publish: what a failure leaves behind *)

Lemma upload_prefix (public : bool) (bucket name : string) (content : bytes)
    (o : option error) :
  (if public then
     match o with
     | Some _ => [OpPut bucket name content]
     | None => upload_ops true bucket name content
     end
   else upload_ops false bucket name content)
  `prefix_of` upload_ops public bucket name content.
Proof.
  destruct public; [|done]. destruct o; [|done].
  by exists [OpMakePublic bucket name].
Qed.

Lemma Bucket_Upload_prefix `{Storage} (public : bool) (b : Bucket.t) :
  snd (Bucket.Upload public b)
  `prefix_of` upload_ops public (Bucket.StorageBucketName b)
                (Bucket.RemoteFilePath b) (Bucket.ZippedFile b).
Proof.
  rewrite Bucket_Upload_run.
  destruct (GetUploadWriter _ _); [apply prefix_nil|].
  destruct (WriterCopyClose _ _ _); [apply prefix_nil|].
  destruct public; [|done].
  destruct (MakePublic _ _); [|done].
  by exists [OpMakePublic (Bucket.StorageBucketName b)
               (Bucket.RemoteFilePath b)].
Qed.

Lemma publish_bucket_prefix `{Env} `{Storage} (Validation : Bucket.validator)
    (b : Bucket.t) (m : Master.t) :
  snd (Master.publish_bucket Validation (b, m))
  `prefix_of` bucket_ops (Master.UnixTime m) (Master.RemoteDir m)
                (Master.Public m) b.
Proof.
  unfold Master.publish_bucket, bucket_ops.
  unfold bind at 1, get at 1. cbv beta iota zeta. cbn [fst snd].
  destruct (Bucket.IsDeleted b) eqn:Hdel; [done|].
  destruct (Bucket.IsChanged b) eqn:Hch; [|done].
  unfold Master.write_File, bind, zoom, get, modify.
  cbv beta iota zeta. cbn [fst snd].
  rewrite Bucket_Compress_run. cbv beta iota zeta. cbn [fst snd].
  destruct (VerifyZipped_frame Validation
              (Bucket.set_ZippedFile (zlib_compress (Bucket.File b)) b))
    as [r ->].
  destruct r; [|apply prefix_nil|apply prefix_nil].
  cbv beta iota zeta. cbn [fst snd].
  rewrite Bucket_Hash_run. cbv beta iota zeta. cbn [fst snd].
  match goal with
  | |- context [Bucket.Upload _ ?x] =>
      change x
        with (republished (Master.UnixTime m) (Master.RemoteDir m) b)
  end.
  pose proof (Bucket_Upload_prefix (Master.Public m)
                (republished (Master.UnixTime m) (Master.RemoteDir m) b))
    as Hup.
  destruct (Bucket.Upload _ _) as [[r b3] l3].
  destruct r; cbn [snd] in *; by rewrite ?app_nil_r.
Qed.

Lemma publish_loop_prefix `{Env} `{Storage} (Validation : Bucket.validator)
    (bs : list Bucket.t) :
  forall m : Master.t,
    Master.FileOffset m = String.length (Master.File m) ->
    snd (for_range (Master.publish_bucket Validation) bs m)
    `prefix_of` concat (bucket_ops (Master.UnixTime m) (Master.RemoteDir m)
                          (Master.Public m) <$> bs).
Proof.
  induction bs as [|b bs IH]; intros m Hend; simpl; [done|].
  pose proof (publish_bucket_prefix Validation b m) as Hb.
  destruct (Master.publish_bucket Validation (b, m))
    as [[r [b1 m1]] l1] eqn:Hrun.
  cbn [snd] in Hb.
  destruct r as [[]| |]; [|by apply prefix_app_r..].
  apply publish_bucket_ok in Hrun as (_ & -> & ->); [|exact Hend].
  specialize (IH (filled (write_rows (Master.File m) [b1]) m) eq_refl).
  destruct (for_range _ bs _) as [[r2 [bs2 m2]] l2].
  cbn [snd] in *. by apply prefix_app.
Qed.

Lemma publish_categories_prefix `{Env} `{Storage} (c0 : Categories.t)
    (m : Master.t) :
  Master.Categories m = Some c0 ->
  snd (Master.publish_categories c0 m)
  `prefix_of` categories_ops (Master.UnixTime m) (Master.RemoteDir m)
                (Master.Public m) c0.
Proof.
  intros Hc.
  unfold Master.publish_categories, Master.on_Categories, zoom, bind, get.
  cbv beta iota zeta. rewrite Hc. cbn [default from_option].
  rewrite Categories_Write_run.
  cbn [Master.Categories Master.set_Categories default from_option fst snd].
  unfold Categories.IsChanged, Categories.checksum_File, Master.write_File,
    bind, get, ret, modify.
  cbv beta iota zeta.
  unfold categories_ops, Bucket.checksumReadSeeker.
  change (bool_decide _) with (categories_changed c0).
  change (Categories.set_FileOffset
            (String.length (Categories.File (rewritten c0))) (rewritten c0))
    with (rewritten c0).
  destruct (categories_changed c0); [|done].
  cbn [Master.Categories Master.set_Categories default from_option
       fst snd].
  rewrite Categories_Compress_run.
  cbn [Master.Categories Master.set_Categories default from_option
       fst snd].
  rewrite Categories_Hash_run.
  cbn [Master.Categories Master.set_Categories default from_option
       fst snd].
  cbv beta iota zeta.
  match goal with
  | |- context [Categories.Upload _ ?x] =>
      change (Categories.Upload (Master.Public m) x)
        with (Categories.Upload (Master.Public m)
                (republished_categories (Master.UnixTime m)
                   (Master.RemoteDir m) c0))
  end.
  set (c1 := republished_categories _ _ c0).
  assert (snd (Categories.Upload (Master.Public m) c1)
          `prefix_of` upload_ops (Master.Public m)
                        (Categories.StorageBucketName c0)
                        (Categories.RemoteFilePath c1)
                        (Categories.ZippedFile c1)) as Hup.
  { unfold Categories.Upload, bind, get, modify, check, emit, fail, ret.
    cbv beta iota zeta.
    cbn [Categories.StorageBucketName Categories.RemoteFilePath
         Categories.ZippedFile Categories.set_ZippedFileOffset].
    change (Categories.StorageBucketName c1)
      with (Categories.StorageBucketName c0).
    destruct (GetUploadWriter _ _); [apply prefix_nil|].
    destruct (WriterCopyClose _ _ _); [apply prefix_nil|].
    destruct (Master.Public m); [|done].
    destruct (MakePublic _ _); [|done].
    by exists [OpMakePublic (Categories.StorageBucketName c0)
                 (Categories.RemoteFilePath c1)]. }
  destruct (Categories.Upload _ _) as [[r c3] l3].
  destruct r as [[]| |]; cbn [snd] in *;
    cbv beta iota zeta; cbn [snd modify]; by rewrite ?app_nil_r.
Qed.

Lemma publish_master_prefix `{Storage} (m : Master.t) :
  snd (Master.publish_master m)
  `prefix_of` upload_ops (Master.Public m) (Master.StorageBucketName m)
                (Master.RemoteDir m +:+ "/" +:+ Master.FileName m)
                (Master.File m) /\
  (fst (fst (Master.publish_master m)) ≠ Ok tt ->
   (length (snd (Master.publish_master m))
    < length (upload_ops (Master.Public m) (Master.StorageBucketName m)
                (Master.RemoteDir m +:+ "/" +:+ Master.FileName m)
                (Master.File m)))%nat).
Proof.
  unfold Master.publish_master, bind, get, modify, check, emit, fail, ret.
  cbv beta iota zeta.
  cbn [Master.StorageBucketName Master.RemoteDir Master.FileName
       Master.File Master.Public Master.set_FileOffset].
  change (joinPath [Master.RemoteDir m; Master.FileName m])
    with (Master.RemoteDir m +:+ "/" +:+ Master.FileName m).
  destruct (GetUploadWriter _ _).
  { split; [apply prefix_nil|]. intros _. destruct (Master.Public m);
      simpl; lia. }
  destruct (WriterCopyClose _ _ _).
  { split; [apply prefix_nil|]. intros _. destruct (Master.Public m);
      simpl; lia. }
  destruct (Master.Public m); [|done].
  destruct (MakePublic _ _); [|done].
  split; [|simpl; lia].
  by exists [OpMakePublic (Master.StorageBucketName m)
               (Master.RemoteDir m +:+ "/" +:+ Master.FileName m)].
Qed.

Lemma prefix_rest {A} (l a rest : list A) :
  l `prefix_of` a -> rest ≠ [] ->
  exists k, a ++ rest = l ++ k /\ k ≠ [].
Proof.
  intros [k1 ->] Hne. exists (k1 ++ rest). split; [by rewrite app_assoc|].
  intros Heq. apply app_eq_nil in Heq as [_ Heq]. done.
Qed.

Lemma upload_ops_not_nil (public : bool) (bucket name : string)
    (content : bytes) :
  upload_ops public bucket name content ≠ [].
Proof. done. Qed.

(** The outcome of a publish, stage by stage: what is left to do of
    [publish_ops] is nothing only when the publish went through. *)
Lemma UploadToStorageBucket_rest `{Env} `{Storage}
    (Validation : Bucket.validator) (now : Time) (m m' : Master.t)
    (r : result unit) (log : list StorageOp) :
  Master.UploadToStorageBucket Validation now m = (r, m', log) ->
  exists rest : list StorageOp,
    publish_ops now m = log ++ rest /\ (r ≠ Ok tt -> rest ≠ []).
Proof.
  rewrite UploadToStorageBucket_start.
  set (m0 := filled _ _).
  assert (m0 = filled (header_row now)
                 (Master.set_DateTime (DateTimeFormat now)
                    (Master.set_UnixTime (Unix now) m))) as Hm0
    by reflexivity.
  clearbody m0.
  unfold bind at 1, get at 1. cbv beta iota zeta.
  set (A := match Master.Categories m with
            | Some c =>
                categories_ops (Unix now) (Master.RemoteDir m)
                  (Master.Public m) c
            | None => []
            end).
  set (B := concat (bucket_ops (Unix now) (Master.RemoteDir m)
                      (Master.Public m) <$> Master.Buckets m)).
  set (C := upload_ops (Master.Public m) (Master.StorageBucketName m)
              (Master.RemoteDir m +:+ "/" +:+ Master.FileName m)
              (Master.File (published_master now m))).
  change (publish_ops now m) with (A ++ B ++ C).
  unfold bind at 1.
  destruct (match Master.Categories m0 with
            | Some c0 => Master.publish_categories c0
            | None => ret ()
            end m0) as [[r1 m1] l1] eqn:Hcat.
  assert (l1 `prefix_of` A /\
          (r1 = Ok tt ->
           l1 = A /\
           Master.Buckets m1 = Master.Buckets m /\
           Master.UnixTime m1 = Unix now /\
           Master.RemoteDir m1 = Master.RemoteDir m /\
           Master.Public m1 = Master.Public m /\
           Master.StorageBucketName m1 = Master.StorageBucketName m /\
           Master.FileName m1 = Master.FileName m /\
           Master.File m1 = document_head now m /\
           Master.FileOffset m1 = String.length (Master.File m1)))
    as [HpA HokA].
  { subst m0 A. unfold document_head.
    change (Master.Categories (filled ?f (Master.set_DateTime ?d
              (Master.set_UnixTime ?u m)))) with (Master.Categories m)
      in Hcat.
    destruct (Master.Categories m) as [c0|] eqn:Hc.
    - split.
      + pose proof (publish_categories_prefix c0
                      (filled (header_row now)
                         (Master.set_DateTime (DateTimeFormat now)
                            (Master.set_UnixTime (Unix now) m))) Hc) as Hp.
        by rewrite Hcat in Hp.
      + intros ->. apply publish_categories_ok in Hcat as [-> ->]; done.
    - injection Hcat as <- <- <-. by split. }
  destruct r1 as [[]| |].
  2,3: intros [= <- <- <-];
    destruct (prefix_rest l1 A (B ++ C) HpA) as (k & Hk & Hne);
    [intros Heq; apply app_eq_nil in Heq as [_ Heq]; done|];
    exists k; by split.
  destruct (HokA eq_refl)
    as (-> & Hbs & Hu & Hd & Hp & Hn & Hf & Hfile & Hend).
  clear HpA HokA Hcat.
  unfold bind at 1. unfold Master.range_Buckets at 1.
  pose proof (publish_loop_prefix Validation (Master.Buckets m1) m1 Hend)
    as HpB.
  destruct (for_range _ _ m1) as [[r2 [bs2 m2]] l2] eqn:Hloop.
  cbn [snd] in HpB. rewrite Hbs, Hu, Hd, Hp in HpB. fold B in HpB.
  destruct r2 as [[]| |].
  2,3: intros [= <- <- <-];
    destruct (prefix_rest l2 B C HpB) as (k & Hk & Hne);
    [done|]; exists k; rewrite <- app_assoc, Hk; by split.
  apply publish_loop_ok in Hloop as (-> & -> & Hl2); [|exact Hend].
  rewrite Hbs, Hu, Hd, Hp in Hl2. fold B in Hl2. subst l2. clear HpB.
  set (m3 := Master.set_Buckets _ _).
  pose proof (publish_master_prefix m3) as [HpC HltC].
  assert (upload_ops (Master.Public m3) (Master.StorageBucketName m3)
            (Master.RemoteDir m3 +:+ "/" +:+ Master.FileName m3)
            (Master.File m3) = C) as HC.
  { subst m3 C. unfold filled.
    cbn [Master.Public Master.StorageBucketName Master.RemoteDir
      Master.FileName Master.File Master.set_Buckets Master.set_File
      Master.set_FileOffset].
    rewrite Hp, Hn, Hd, Hf, Hfile, Hbs, Hu. reflexivity. }
  rewrite HC in HpC, HltC.
  destruct (Master.publish_master m3) as [[r3 m4] l3].
  cbn [fst snd] in *.
  intros [= <- <- <-]. destruct HpC as [k Hk].
  exists k. rewrite <- !app_assoc. split; [by rewrite Hk|].
  intros Hne Hnil. subst k. rewrite app_nil_r in Hk. subst l3.
  specialize (HltC Hne). lia.
Qed.

(** X10. Whatever a publish comes to, the remote changes it made are the
    first ones of those a publish that goes through makes, in the same
    order; when it does not go through, at least the last one is missing.
    The upload of the master document comes after those of the categories
    and of every shard. *)
Theorem publish_failure_leaves_a_prefix `{Env} `{Storage}
    (Validation : Bucket.validator) (now : Time) (m m' : Master.t)
    (r : result unit) (log : list StorageOp) :
  Master.UploadToStorageBucket Validation now m = (r, m', log) ->
  log `prefix_of` publish_ops now m /\
  (r ≠ Ok tt -> (length log < length (publish_ops now m))%nat) /\
  (exists shards : list StorageOp,
     publish_ops now m
     = shards ++ upload_ops (Master.Public m) (Master.StorageBucketName m)
                   (Master.RemoteDir m +:+ "/" +:+ Master.FileName m)
                   (Master.File (published_master now m))).
Proof.
  intros Hrun.
  apply UploadToStorageBucket_rest in Hrun as (rest & Hops & Hrest).
  split; [by exists rest|]. split.
  - intros Hne. rewrite Hops, length_app.
    specialize (Hrest Hne). destruct rest; [done|]. simpl. lia.
  - unfold publish_ops. eexists. by rewrite app_assoc.
Qed.

(** The theorem at two changed shards and a validator that refuses the
    second: the first shard is uploaded, the second and the master
    document are not. *)
Lemma publish_failure_leaves_a_prefix_witness :
  exists m' : Master.t,
    @Master.UploadToStorageBucket Double.env (Double.storage [] [] [])
       (refuse_shard 2) sample_now two_changed_master
    = (Err (ErrMessage "refused"), m',
       [OpPut "store" "patches/5-1.csv.zlib" "z+,A,1
"]) /\
    [OpPut "store" "patches/5-1.csv.zlib" "z+,A,1
"] `prefix_of` @publish_ops Double.env sample_now two_changed_master /\
    (1 < length (@publish_ops Double.env sample_now two_changed_master))%nat.
Proof.
  destruct (@Master.UploadToStorageBucket Double.env
              (Double.storage [] [] []) (refuse_shard 2) sample_now
              two_changed_master) as [[r m'] log] eqn:Hrun.
  pose proof (@publish_failure_leaves_a_prefix Double.env
                (Double.storage [] [] []) (refuse_shard 2) sample_now
                two_changed_master m' r log Hrun) as (Hpre & Hlen & _).
  vm_compute in Hrun. injection Hrun as <- <- <-.
  eexists. split; [reflexivity|]. split; [exact Hpre|].
  apply Hlen. discriminate.
Defined.

(** ** The master document, written and read back *)

Lemma write_rows_encode `{Env} (bs : list Bucket.t) :
  forall file : bytes,
    write_rows file bs = encode_rows file (descriptor_fields <$> live bs).
Proof.
  induction bs as [|b bs IH]; intros file; [done|].
  unfold live. rewrite filter_cons. simpl.
  destruct (Bucket.IsDeleted b) eqn:Hdel.
  - rewrite decide_False by done. apply IH.
  - rewrite decide_True by done. simpl. apply IH.
Qed.

Lemma Download_row_header `{Env} `{Storage}
    (version unix date : string) (m : Master.t) :
  Master.Download_row [version; unix; date] m
  = (Ok tt,
     Master.set_DateTime date
       (Master.set_UnixTime (fst (ParseInt unix))
          (Master.set_Version version m)),
     []).
Proof. reflexivity. Qed.

Lemma Download_row_descriptor `{Env} `{Storage} (b : Bucket.t)
    (m : Master.t) :
  fits_a_row b ->
  Master.Download_row (descriptor_fields b) m
  = (Ok tt,
     Master.set_Buckets
       (Master.Buckets m ++
        [described (Master.StorageBucketName m) (Master.RemoteDir m)
           (Master.Dir m) b])
       m,
     []).
Proof.
  intros (Hn & Hc & Hl).
  unfold Master.Download_row.
  change (length (descriptor_fields b)) with 6%nat.
  rewrite decide_False by done. rewrite decide_True by done. cbv zeta.
  change (idx (descriptor_fields b) 0) with (Itoa (Bucket.Number b)).
  change (idx (descriptor_fields b) 1) with (Bucket.RelativeFilePath b).
  change (idx (descriptor_fields b) 3) with (Bucket.ZippedHash b).
  change (idx (descriptor_fields b) 4) with (Bucket.UnzippedHash b).
  change (idx (descriptor_fields b) 5)
    with (Itoa (Z.of_nat (length (Bucket.Patches b)))).
  unfold Atoi, Itoa.
  rewrite (ParseInt_as_pretty "Atoi" (Bucket.Number b)) by done.
  cbn [fst]. rewrite decide_False by done.
  rewrite (ParseInt_as_pretty "Atoi" (Z.of_nat (length (Bucket.Patches b))))
    by (unfold minInt64; lia).
  reflexivity.
Qed.

Lemma Download_rows_descriptors `{Env} `{Storage} (bs : list Bucket.t) :
  forall m : Master.t,
    (forall b, b ∈ bs -> fits_a_row b) ->
    forM (descriptor_fields <$> bs) Master.Download_row m
    = (Ok tt,
       Master.set_Buckets
         (Master.Buckets m ++
          (described (Master.StorageBucketName m) (Master.RemoteDir m)
             (Master.Dir m) <$> bs))
         m,
       []).
Proof.
  induction bs as [|b bs IH]; intros m Hfit.
  - simpl. rewrite app_nil_r. by destruct m.
  - simpl. unfold bind at 1.
    rewrite Download_row_descriptor by (apply Hfit; left).
    rewrite IH by (intros b' Hb'; apply Hfit; by right).
    cbn [Master.Buckets Master.set_Buckets Master.StorageBucketName
         Master.RemoteDir Master.Dir].
    by rewrite <- app_assoc.
Qed.

(** [Download] of a document that holds a header row and the descriptor
    rows of the shards [bs]. *)
Lemma Download_document `{Env} `{Storage} (now later : Time)
    (reader : Master.t) (document : bytes) (bs : list Bucket.t) :
  minInt64 <= Unix now <= maxInt64 ->
  (forall b, b ∈ bs -> fits_a_row b) ->
  Master.Public reader = false ->
  GetDownloadReader (Master.StorageBucketName reader)
    (Master.RemoteDir reader +:+ "/" +:+ Master.FileName reader)
  = inr document ->
  csv_records
    (write_at (Master.FileOffset reader) (Master.File reader) document)
  = header_fields now :: (descriptor_fields <$> bs) ->
  Master.Download later reader
  = (Ok tt, read_back now bs document reader, []).
Proof.
  intros Hnow Hfit Hprivate Hfetch Hcsv.
  unfold Master.Download. unfold bind at 1, get at 1.
  cbv beta iota zeta. rewrite Hprivate.
  change (joinPath [Master.RemoteDir reader; Master.FileName reader])
    with (Master.RemoteDir reader +:+ "/" +:+ Master.FileName reader).
  rewrite Hfetch. unfold bind at 1, Master.write_File, modify at 1.
  unfold Master.Download_rows.
  unfold bind at 1, modify at 1. unfold bind at 1, get at 1.
  cbv beta iota zeta.
  cbn [Master.File Master.set_File Master.set_FileOffset].
  match goal with
  | |- context [csv_loop _ ?file _ ?s] =>
      assert (forM (csv_records file) Master.Download_row s
              = (Ok tt,
                 Master.set_Buckets
                   (Master.Buckets reader ++
                    (described (Master.StorageBucketName reader)
                       (Master.RemoteDir reader) (Master.Dir reader) <$> bs))
                   (Master.set_DateTime (DateTimeFormat now)
                      (Master.set_UnixTime (Unix now)
                         (Master.set_Version "V1" s))),
                 [])) as Hrows
  end.
  { rewrite Hcsv. cbn [forM]. unfold bind at 1. unfold header_fields.
    rewrite Download_row_header.
    rewrite Download_rows_descriptors by done.
    unfold FormatInt, ParseInt. rewrite ParseInt_as_pretty by done.
    reflexivity. }
  rewrite (Download_csv_loop_ok _ _ _ _ Hrows). reflexivity.
Qed.

(** X11. The master document of a publish without categories is the
    header row and one descriptor row for every shard that is not
    deleted, and a reader's [Download] of that document takes from it the
    version, the second and the date of the publish and, for every such
    shard, a bucket with the shard's number, relative path, digests and
    count of patches, in the order of the rows, behind the buckets the
    reader had.  It needs the seconds, the numbers and the counts to be
    64-bit integers, no shard to be numbered -1, and the CSV reader to
    read the rows that were written from the reader's master file, once
    the document is written into it at the offset of its handle. *)
Theorem Download_reads_what_publish_wrote `{Env} `{Storage}
    (Validation : Bucket.validator) (now later : Time)
    (m m' reader : Master.t) (log : list StorageOp) :
  Master.UploadToStorageBucket Validation now m = (Ok tt, m', log) ->
  Master.Categories m = None ->
  minInt64 <= Unix now <= maxInt64 ->
  (forall b, b ∈ live (Master.Buckets m') -> fits_a_row b) ->
  Master.Public reader = false ->
  GetDownloadReader (Master.StorageBucketName reader)
    (Master.RemoteDir reader +:+ "/" +:+ Master.FileName reader)
  = inr (Master.File m') ->
  csv_records
    (write_at (Master.FileOffset reader) (Master.File reader)
       (Master.File m'))
  = header_fields now :: (descriptor_fields <$> live (Master.Buckets m')) ->
  Master.File m'
  = encode_rows ""
      (header_fields now :: (descriptor_fields <$> live (Master.Buckets m'))) /\
  Master.Download later reader
  = (Ok tt,
     read_back now (live (Master.Buckets m')) (Master.File m') reader, []).
Proof.
  intros Hrun Hcat Hnow Hfit Hprivate Hfetch Hcsv.
  apply UploadToStorageBucket_ok in Hrun as [Hm' _].
  split.
  - rewrite Hm'.
    change (Master.File (published_master now m))
      with (write_rows (document_head now m)
              (Master.Buckets (published_master now m))).
    rewrite write_rows_encode. unfold document_head. by rewrite Hcat.
  - by apply Download_document.
Qed.

(** The theorem at the publish of a changed shard, an unchanged one and
    a deleted one, and a reader without shards. *)
Lemma Download_reads_what_publish_wrote_witness :
  exists m' log,
    @Master.UploadToStorageBucket Double.env
       (Double.storage [("patches/master.csv", "V1,5,5
1,5-1.csv.zlib,zlib,md5:7,md5:6,1
2,3-2.csv.zlib,zlib,md5:7,md5:6,1
")] [] [])
       Double.accept_all sample_now publish_master_sample
    = (Ok tt, m', log) /\
    @Master.Download Double.env
       (Double.storage [("patches/master.csv", "V1,5,5
1,5-1.csv.zlib,zlib,md5:7,md5:6,1
2,3-2.csv.zlib,zlib,md5:7,md5:6,1
")] [] [])
       later_now (Sample.master [])
    = (Ok tt,
       filled (Master.File m')
         (Master.set_DateTime "5"
            (Master.set_UnixTime 5
               (Master.set_Version "V1"
                  (Sample.master
                     [Bucket.NewBucket "store" "5-1.csv.zlib"
                        "patches/5-1.csv.zlib" "/work" 1 "md5:7" "md5:6" 1;
                      Bucket.NewBucket "store" "3-2.csv.zlib"
                        "patches/3-2.csv.zlib" "/work" 2 "md5:7" "md5:6"
                        1])))),
       []).
Proof.
  set (store := Double.storage [("patches/master.csv", "V1,5,5
1,5-1.csv.zlib,zlib,md5:7,md5:6,1
2,3-2.csv.zlib,zlib,md5:7,md5:6,1
")] [] []).
  destruct (@Master.UploadToStorageBucket Double.env store
              Double.accept_all sample_now publish_master_sample)
    as [[r m'] log] eqn:Hrun.
  assert (r = Ok tt) as -> by (vm_compute in Hrun; congruence).
  assert (m' = @published_master Double.env sample_now publish_master_sample)
    as Hm' by (vm_compute in Hrun; vm_compute; congruence).
  exists m', log. split; [reflexivity|].
  rewrite (proj2 (@Download_reads_what_publish_wrote Double.env store
                    Double.accept_all sample_now later_now
                    publish_master_sample m' (Sample.master []) log Hrun
                    eq_refl
                    ltac:(vm_compute; split; discriminate)
                    ltac:(rewrite Hm'; intros b Hb; vm_compute in Hb;
                          repeat (apply elem_of_cons in Hb as [->|Hb];
                                  [vm_compute; repeat split; discriminate|]);
                          by apply elem_of_nil in Hb)
                    eq_refl
                    ltac:(rewrite Hm'; vm_compute; reflexivity)
                    ltac:(rewrite Hm'; vm_compute; reflexivity))).
  rewrite Hm'. vm_compute. reflexivity.
Defined.

(** ** Names that do not collide *)

(** Two strings with the same ending are equal when the whole strings
    are. *)
Lemma append_inv_tail (s1 s2 t : string) :
  s1 +:+ t = s2 +:+ t -> s1 = s2.
Proof.
  revert s2. induction s1 as [|c s1 IH]; intros [|c2 s2] Heq.
  - done.
  - apply (f_equal String.length) in Heq.
    rewrite !length_append in Heq. simpl in Heq. lia.
  - apply (f_equal String.length) in Heq.
    rewrite !length_append in Heq. simpl in Heq. lia.
  - rewrite !append_cons in Heq. injection Heq as -> Heq.
    f_equal. by apply IH.
Qed.

(** X12. The names the package gives do not collide: two shards with
    different numbers have different staging files and different
    compressed files, two publishes of a shard in different seconds give
    it different remote names, and two shards with different numbers get
    different remote names in one publish. *)
Theorem shard_names_do_not_collide `{Env} :
  (forall (s1 r1 p1 d1 z1 u1 s2 r2 p2 d2 z2 u2 : string) (n1 n2 c1 c2 : Z),
     let b1 := Bucket.NewBucket s1 r1 p1 d1 n1 z1 u1 c1 in
     let b2 := Bucket.NewBucket s2 r2 p2 d2 n2 z2 u2 c2 in
     (Bucket.FileName b1 = Bucket.FileName b2 -> n1 = n2) /\
     (Bucket.ZippedFileName b1 = Bucket.ZippedFileName b2 -> n1 = n2) /\
     (forall (unix : Z) (remoteDir : string),
        Bucket.RemoteFilePath (republished unix remoteDir b1)
        = Bucket.RemoteFilePath (republished unix remoteDir b2) ->
        n1 = n2)) /\
  (forall (unix1 unix2 : Z) (remoteDir : string) (b : Bucket.t),
     Bucket.RemoteFilePath (republished unix1 remoteDir b)
     = Bucket.RemoteFilePath (republished unix2 remoteDir b) ->
     unix1 = unix2).
Proof.
  split.
  - intros s1 r1 p1 d1 z1 u1 s2 r2 p2 d2 z2 u2 n1 n2 c1 c2 b1 b2.
    split; [|split].
    + intros Heq. apply append_inv_tail in Heq. by apply (inj pretty).
    + intros Heq. apply append_inv_tail in Heq. by apply (inj pretty).
    + intros unix remoteDir Heq.
      change (remoteDir +:+ "/" +:+ FormatInt unix +:+ "-" +:+
              (Itoa n1 +:+ ".csv.zlib")
              = remoteDir +:+ "/" +:+ FormatInt unix +:+ "-" +:+
                (Itoa n2 +:+ ".csv.zlib")) in Heq.
      do 4 apply (inj (String.app _)) in Heq.
      apply append_inv_tail in Heq. by apply (inj pretty).
  - intros unix1 unix2 remoteDir b Heq.
    change (remoteDir +:+ "/" +:+
            (FormatInt unix1 +:+ "-" +:+ Bucket.ZippedFileName b)
            = remoteDir +:+ "/" +:+
              (FormatInt unix2 +:+ "-" +:+ Bucket.ZippedFileName b)) in Heq.
    do 2 apply (inj (String.app _)) in Heq.
    apply append_inv_tail in Heq. by apply (inj pretty).
Qed.

(** ** Categories.Download *)

(** The read loop of [Categories.Download]: it stops at the first row
    that has not four columns, with the handle where the reader had read
    to, and otherwise leaves the handle at the end of the file. *)
Lemma categories_rows_run `{Env} (remote : string) (content : bytes)
    (rows : list (list string)) :
  forall (i : nat) (c : Categories.t),
    (range_forM
       (fun i line =>
          modify (Categories.set_FileOffset (csv_offset content (S i))) ;;
          (if decide (length line ≠ 4%nat) then
             fail (ErrCategoriesRow remote)
           else ret tt))
       i rows ;;
     modify (Categories.set_FileOffset (String.length content))) c
    = match list_find (fun line => length line ≠ 4%nat) rows with
      | Some (k, _) =>
          (Err (ErrCategoriesRow remote),
           Categories.set_FileOffset (csv_offset content (S (i + k))) c, [])
      | None =>
          (Ok tt, Categories.set_FileOffset (String.length content) c, [])
      end.
Proof.
  induction rows as [|line rows IH]; intros i c; [reflexivity|].
  cbn [range_forM list_find]. unfold bind at 1 2 3, modify at 1.
  destruct (decide (length line ≠ 4%nat)) as [Hne|Heq].
  - unfold fail. by rewrite Nat.add_0_r.
  - unfold ret at 1.
    specialize (IH (S i) (Categories.set_FileOffset
                            (csv_offset content (S i)) c)).
    unfold bind at 1 in IH.
    destruct (range_forM _ (S i) rows _) as [[r c'] l].
    destruct (list_find _ rows) as [[k x]|]; cbn [fmap option_fmap option_map
      prod_map fst snd id].
    + destruct r as [[]| |]; [done| |done].
      injection IH as -> -> ->. by rewrite Nat.add_succ_r.
    + destruct r as [[]| |]; [|done|done].
      unfold modify in IH |- *.
      assert (l ++ [] = []) as Hl by congruence.
      rewrite app_nil_r in Hl. subst l.
      assert (Categories.set_FileOffset (String.length content) c'
              = Categories.set_FileOffset (String.length content)
                  (Categories.set_FileOffset (csv_offset content (S i)) c))
        as -> by congruence.
      reflexivity.
Qed.

(** The ways out of [Categories.Download], with the two files and their
    handles as each one leaves them. *)
Lemma Categories_Download_run `{Env} `{Storage} (c : Categories.t)
    (written : bytes) (e : option error) :
  DownloadWriter (Categories.StorageBucketName c) (Categories.RemoteFilePath c)
  = (written, e) ->
  let zipped :=
    write_at (Categories.ZippedFileOffset c) (Categories.ZippedFile c)
      written in
  let c1 :=
    Categories.set_ZippedFileOffset
      (Categories.ZippedFileOffset c + String.length written)
      (Categories.set_ZippedFile zipped c) in
  let checked :=
    if decide (Categories.ZippedHash c ≠ md5_hex zipped) then
      (Err (ErrInvalidZippedChecksum (Categories.RemoteFilePath c)),
       Categories.set_ZippedFileOffset (String.length zipped) c1, [])
    else
      let c2 := Categories.set_ZippedFileOffset (zlib_offset zipped) c1 in
      match zlib_inflate zipped with
      | BadHeader err => (Err err, c2, [])
      | Stream out tail =>
          let file :=
            write_at (Categories.FileOffset c) (Categories.File c) out in
          let c3 :=
            Categories.set_FileOffset
              (Categories.FileOffset c + String.length out)
              (Categories.set_File file c2) in
          match tail with
          | Some err => (Err err, c3, [])
          | None =>
              if decide (Categories.UnzippedHash c ≠ md5_hex file) then
                (Err (ErrInvalidUnzippedChecksum (Categories.RemoteFilePath c)),
                 Categories.set_FileOffset (String.length file) c3, [])
              else
                match list_find (fun line => length line ≠ 4%nat)
                        (csv_records file) with
                | Some (k, _) =>
                    (Err (ErrCategoriesRow (Categories.RemoteFilePath c)),
                     Categories.set_FileOffset (csv_offset file (S k)) c3,
                     [])
                | None => (Ok tt, Categories.set_FileOffset 0 c3, [])
                end
          end
      end in
  Categories.Download c
  = match e with
    | Some err =>
        if is_ErrObjectNotExist err then checked else (Err err, c1, [])
    | None => checked
    end.
Proof.
  intros Hfetch zipped c1 checked.
  unfold Categories.Download. unfold bind at 1, get at 1.
  cbv beta iota zeta. rewrite Hfetch.
  unfold bind at 1. unfold Categories.write_ZippedFile at 1, modify at 1.
  cbv beta iota zeta. fold zipped. fold c1.
  unfold bind at 1.
  match goal with
  | |- context [bind Categories.checksum_ZippedFile ?k] =>
      set (rest := bind Categories.checksum_ZippedFile k)
  end.
  assert (rest c1 = checked) as Hrest.
  { subst rest.
    unfold Categories.checksum_ZippedFile, Bucket.checksumReadSeeker.
    unfold bind at 1. unfold bind at 1, modify at 1.
    unfold bind at 1, get at 1. unfold ret at 1.
    cbv beta iota zeta.
    unfold bind at 1, get at 1. cbv beta iota zeta.
    change (Categories.ZippedFile (Categories.set_ZippedFileOffset ?n c1))
      with zipped.
    change (Categories.ZippedFile c1) with zipped.
    change (Categories.ZippedHash (Categories.set_ZippedFileOffset ?n c1))
      with (Categories.ZippedHash c).
    change (Categories.RemoteFilePath
              (Categories.set_ZippedFileOffset ?n c1))
      with (Categories.RemoteFilePath c).
    subst checked.
    destruct (decide (Categories.ZippedHash c ≠ md5_hex zipped));
      [reflexivity|].
    unfold bind at 1, modify at 1. unfold bind at 1, modify at 1.
    cbv beta iota zeta.
    destruct (zlib_inflate zipped) as [err|out tail]; [reflexivity|].
    unfold Categories.write_File. unfold bind at 1, modify at 1.
    cbv beta iota zeta.
    unfold bind at 1. destruct tail as [err|]; [reflexivity|].
    unfold check, ret at 1.
    unfold Categories.checksum_File, Bucket.checksumReadSeeker.
    unfold bind at 1. unfold bind at 1, modify at 1.
    unfold bind at 1, get at 1. unfold ret at 1.
    cbv beta iota zeta.
    unfold bind at 1, get at 1. cbv beta iota zeta.
    cbn [Categories.File Categories.FileOffset Categories.UnzippedHash
         Categories.RemoteFilePath Categories.set_File
         Categories.set_FileOffset Categories.set_ZippedFileOffset].
    change (Categories.File c1) with (Categories.File c).
    change (Categories.FileOffset c1) with (Categories.FileOffset c).
    change (Categories.UnzippedHash c1) with (Categories.UnzippedHash c).
    change (Categories.RemoteFilePath c1) with (Categories.RemoteFilePath c).
    destruct (decide (Categories.UnzippedHash c ≠ _)); [reflexivity|].
    unfold bind at 1, modify at 1. cbv beta iota zeta.
    unfold csv_loop. unfold bind at 1. rewrite categories_rows_run.
    destruct (list_find _ _) as [[k' x]|]; reflexivity. }
  clearbody rest.
  destruct e as [err|].
  - destruct (is_ErrObjectNotExist err) eqn:Hnf; cbn [negb].
    + unfold ret. rewrite Hrest. by destruct checked as [[r s] l].
    + reflexivity.
  - unfold ret. rewrite Hrest. by destruct checked as [[r s] l].
Qed.

Lemma four_columns_find (rows : list (list string)) :
  list_find (fun line : list string => length line ≠ 4%nat) rows = None
  <-> Forall (fun line => length line = 4%nat) rows.
Proof.
  rewrite list_find_None. split; intros Hall;
    (eapply Forall_impl; [exact Hall|]); intros line Hline.
  - by apply dec_stable.
  - intros Hne. by apply Hne.
Qed.

(** X13. [Categories.Download] writes what the backend delivers into the
    compressed file at the offset of its handle, and what that file then
    inflates to into the staging file at the offset of its handle: it
    neither truncates nor seeks before it writes.  A backend error other
    than not-found is returned at once.  The call returns without an
    error exactly when the backend gave no error or not-found, the
    compressed file has the recorded digest and inflates to its end, the
    staging file then has the recorded digest, and every row of it has
    four columns; it then leaves the handle of the staging file at the
    start of the file.  Whatever it comes to, it makes no remote change
    and leaves the items as they were: the rows are checked, not loaded.
    So a second [Download], on categories whose first one started at the
    start of the staging file and went through, goes through again and
    changes nothing when the backend now reports not-found and delivers
    nothing. *)
Theorem Categories_Download_checks `{Env} `{first : Storage}
    (c : Categories.t)
    (written : bytes) (e : option error) :
  DownloadWriter (Categories.StorageBucketName c) (Categories.RemoteFilePath c)
  = (written, e) ->
  let zipped :=
    write_at (Categories.ZippedFileOffset c) (Categories.ZippedFile c)
      written in
  (forall err, e = Some err -> is_ErrObjectNotExist err = false ->
     Categories.Download c
     = (Err err,
        Categories.set_ZippedFileOffset
          (Categories.ZippedFileOffset c + String.length written)
          (Categories.set_ZippedFile zipped c),
        [])) /\
  (forall c' l,
     Categories.Download c = (Ok tt, c', l)
     <-> (e = None \/ e = Some ErrObjectNotExist) /\
         Categories.ZippedHash c = md5_hex zipped /\
         exists out,
           zlib_inflate zipped = Stream out None /\
           Categories.UnzippedHash c
           = md5_hex
               (write_at (Categories.FileOffset c) (Categories.File c) out) /\
           Forall (fun line => length line = 4%nat)
             (csv_records
                (write_at (Categories.FileOffset c) (Categories.File c)
                   out)) /\
           c' = Categories.set_FileOffset 0
                  (Categories.set_File
                     (write_at (Categories.FileOffset c) (Categories.File c)
                        out)
                     (Categories.set_ZippedFileOffset (zlib_offset zipped)
                        (Categories.set_ZippedFile zipped c))) /\
           l = []) /\
  (forall r c' l,
     Categories.Download c = (r, c', l) ->
     l = [] /\
     Categories.CategoryItems c' = Categories.CategoryItems c /\
     Categories.ZippedFile c' = zipped) /\
  (forall (again : Storage) c' l,
     Categories.FileOffset c = 0%nat ->
     @Categories.Download _ first c = (Ok tt, c', l) ->
     @DownloadWriter again (Categories.StorageBucketName c')
       (Categories.RemoteFilePath c')
     = (EmptyString, Some ErrObjectNotExist) ->
     @Categories.Download _ again c' = (Ok tt, c', [])).
Proof.
  intros Hfetch zipped.
  pose proof (Categories_Download_run c written e Hfetch) as Hrun.
  cbv zeta in Hrun. fold zipped in Hrun.
  match type of Hrun with
  | _ = match e with
        | Some err => if _ then ?k else _
        | None => _
        end => set (checked := k) in *
  end.
  assert (forall c' l,
            checked = (Ok tt, c', l)
            <-> Categories.ZippedHash c = md5_hex zipped /\
                exists out,
                  zlib_inflate zipped = Stream out None /\
                  Categories.UnzippedHash c
                  = md5_hex
                      (write_at (Categories.FileOffset c)
                         (Categories.File c) out) /\
                  Forall (fun line => length line = 4%nat)
                    (csv_records
                       (write_at (Categories.FileOffset c)
                          (Categories.File c) out)) /\
                  c' = Categories.set_FileOffset 0
                         (Categories.set_File
                            (write_at (Categories.FileOffset c)
                               (Categories.File c) out)
                            (Categories.set_ZippedFileOffset
                               (zlib_offset zipped)
                               (Categories.set_ZippedFile zipped c))) /\
                  l = []) as Hok.
  { intros c' l. subst checked. split.
    - intros Hgo.
      destruct (decide (Categories.ZippedHash c ≠ _)) as [|Hz]; [done|].
      apply dec_stable in Hz. split; [done|].
      destruct (zlib_inflate _) as [err|out [err|]]; [done|done|].
      exists out. split; [done|].
      destruct (decide (Categories.UnzippedHash c ≠ _)) as [|Hu]; [done|].
      apply dec_stable in Hu. split; [done|].
      destruct (list_find _ _) as [[k x]|] eqn:Hfind; [done|].
      apply four_columns_find in Hfind.
      split; [done|]. by injection Hgo as <- <-.
    - intros (Hz & out & Hout & Hu & Hall & -> & ->).
      rewrite decide_False by (intros Hne; by apply Hne).
      rewrite Hout.
      rewrite decide_False by (intros Hne; by apply Hne).
      apply four_columns_find in Hall. by rewrite Hall. }
  assert (snd checked = [] /\
          Categories.CategoryItems (snd (fst checked))
          = Categories.CategoryItems c /\
          Categories.ZippedFile (snd (fst checked)) = zipped) as Hframe.
  { subst checked.
    destruct (decide (Categories.ZippedHash c ≠ _)); [done|].
    destruct (zlib_inflate _) as [err|out [err|]]; [done|done|].
    destruct (decide (Categories.UnzippedHash c ≠ _)); [done|].
    by destruct (list_find _ _) as [[k x]|]. }
  clearbody checked.
  assert (forall c' l,
            Categories.Download c = (Ok tt, c', l)
            <-> (e = None \/ e = Some ErrObjectNotExist) /\
                checked = (Ok tt, c', l)) as Hgo.
  { intros c' l. rewrite Hrun. split.
    - intros Hgo.
      destruct e as [err|]; [destruct err; try done|].
      + split; [by right|done].
      + split; [by left|done].
    - intros (He & Hrest). by destruct He as [-> | ->]. }
  split; [|split; [|split]].
  - intros err -> Hnf. by rewrite Hrun, Hnf.
  - intros c' l. rewrite Hgo, Hok. reflexivity.
  - intros r c' l. rewrite Hrun.
    destruct e as [err|]; [destruct (is_ErrObjectNotExist err)|].
    + intros Hx. by rewrite Hx in Hframe.
    + by intros [= <- <- <-].
    + intros Hx. by rewrite Hx in Hframe.
  - intros again c' l Hstart Hfirst Hfetch'.
    apply (proj1 (Hgo _ _)) in Hfirst as [_ Hfirst].
    apply (proj1 (Hok _ _)) in Hfirst
      as (Hz & out & Hout & Hu & Hall & Hc' & ->).
    rewrite Hstart in Hu, Hall, Hc'.
    rewrite (@Categories_Download_run _ again c' EmptyString
               (Some ErrObjectNotExist) Hfetch').
    cbv zeta. cbn [is_ErrObjectNotExist]. subst c'.
    cbn [Categories.File Categories.FileOffset Categories.ZippedFile
         Categories.ZippedFileOffset Categories.ZippedHash
         Categories.UnzippedHash Categories.RemoteFilePath
         Categories.set_File Categories.set_FileOffset
         Categories.set_ZippedFile Categories.set_ZippedFileOffset
         write_at String.length].
    rewrite decide_False by (intros Hne; by apply Hne).
    rewrite Hout, write_at_0_again.
    rewrite decide_False by (intros Hne; by apply Hne).
    apply four_columns_find in Hall. rewrite Hall.
    rewrite !Nat.add_0_r. reflexivity.
Qed.

(** The theorem at categories whose artifact of one row the backend
    holds, and then at a backend that holds it no more. *)
Lemma Categories_Download_checks_witness :
  @Categories.Download Double.env categories_store
     (listed_categories "md5:16" "md5:15")
  = (Ok tt, downloaded_categories, []) /\
  @Categories.Download Double.env (Double.storage [] [] [])
     downloaded_categories
  = (Ok tt, downloaded_categories, []).
Proof.
  pose proof (@Categories_Download_checks Double.env categories_store
                (listed_categories "md5:16" "md5:15")
                "z1,cat,sub,desc
" None eq_refl) as (_ & Hok & _ & Hagain).
  assert (@Categories.Download Double.env categories_store
            (listed_categories "md5:16" "md5:15")
          = (Ok tt, downloaded_categories, [])) as Hfirst.
  { apply Hok. split; [by left|]. split; [reflexivity|].
    exists "1,cat,sub,desc
". split; [reflexivity|]. split; [reflexivity|].
    split; [|by split].
    vm_compute. repeat constructor. }
  split; [exact Hfirst|].
  apply (Hagain (Double.storage [] [] []) downloaded_categories []
           eq_refl Hfirst).
  reflexivity.
Defined.

(** ** DownloadBuckets *)

Lemma Bucket_Init_run `{Env} (b : Bucket.t) :
  Bucket.Init b = (Ok tt, initialised b, []).
Proof. reflexivity. Qed.

Lemma download_bucket_run `{Env} `{Storage} (Validation : Bucket.validator)
    (b : Bucket.t) (m : Master.t) :
  Master.download_bucket Validation (b, m)
  = match Bucket.VerifyUnzipped Validation (initialised b) with
    | (Ok _, b1, l1) => (Ok tt, (b1, m), l1)
    | (Err _, b1, l1) =>
        let '(r, b2, l2) := Bucket.Download Validation b1 in
        (r, (b2, m), l1 ++ l2)
    | (Hang, b1, l1) => (Hang, (b1, m), l1)
    end.
Proof.
  unfold Master.download_bucket.
  unfold bind at 1, zoom at 1. cbn [fst snd].
  rewrite Bucket_Init_run. cbv beta iota zeta.
  unfold bind at 1, attempt at 1, zoom at 1. cbn [fst snd].
  destruct (Bucket.VerifyUnzipped Validation (initialised b))
    as [[r b1] l1].
  destruct r as [[]|e|]; cbv beta iota zeta; [| |done].
  - unfold ret. by rewrite app_nil_r.
  - unfold zoom. cbn [fst snd].
    by destruct (Bucket.Download Validation b1) as [[r2 b2] l2].
Qed.

Lemma for_range_all {E S} (body : M (E * S) unit) (f : E -> E)
    (xs : list E) (s : S) :
  (forall x, x ∈ xs -> body (x, s) = (Ok tt, (f x, s), [])) ->
  for_range body xs s = (Ok tt, (f <$> xs, s), []).
Proof.
  induction xs as [|x xs IH]; intros Hall; [done|].
  simpl. rewrite Hall by left.
  rewrite IH by (intros x' Hx'; apply Hall; by right). done.
Qed.

(** X14. [DownloadBuckets] takes a shard from the working directory when
    the local copy of its staging file has the recorded digest and its
    rows pass: when that holds for every shard the call returns without
    an error, every shard has the patches of its local file, and the
    outcome is the same whatever the backend would answer. *)
Theorem DownloadBuckets_prefers_local_copies `{Env} `{Storage}
    (Validation : Bucket.validator) (m : Master.t) :
  (forall b, b ∈ Master.Buckets m -> local_copy_verifies Validation b) ->
  Master.DownloadBuckets Validation m
  = (Ok tt, Master.set_Buckets (loaded_locally <$> Master.Buckets m) m, []).
Proof.
  intros Hlocal. unfold Master.DownloadBuckets, Master.range_Buckets.
  rewrite (for_range_all (Master.download_bucket Validation)
             loaded_locally); [done|].
  intros b Hb. destruct (Hlocal b Hb) as [Hsum Hrows].
  rewrite download_bucket_run, VerifyUnzipped_run.
  change (Bucket.UnzippedHash (initialised b)) with (Bucket.UnzippedHash b).
  rewrite decide_False by (intros Hne; by apply Hne).
  by rewrite verify_rows_all.
Qed.

(** The theorem at a shard with a local copy and a backend that fails
    every call. *)
Lemma DownloadBuckets_prefers_local_copies_witness :
  @Master.DownloadBuckets env_with_local_copy unreachable_storage
     Double.accept_all described_master
  = (Ok tt,
     Sample.master
       [Bucket.set_Patches [DefaultPatch "+" "A" ["1"]]
          (Bucket.set_ZippedFile EmptyString
             (Bucket.set_File "+,A,1
"
                (Bucket.NewBucket "store" "5-1.csv.zlib"
                   "patches/5-1.csv.zlib" "/work" 1 "md5:7" "md5:6" 1)))],
     []).
Proof.
  apply (@DownloadBuckets_prefers_local_copies env_with_local_copy
           unreachable_storage Double.accept_all described_master).
  intros b Hb. apply list_elem_of_singleton in Hb as ->.
  split; [reflexivity|].
  intros i line Hline. split; [reflexivity|].
  destruct i as [|[|i]]; vm_compute in Hline; [|done|done].
  injection Hline as <-. vm_compute. lia.
Defined.

Lemma verify_rows_frame `{Env} (Validation : Bucket.validator)
    (rows : list (list string)) :
  forall (b b' : Bucket.t) (r : result unit) (l : list StorageOp),
    forM rows (Bucket.verify_row Validation) b = (r, b', l) ->
    l = [] /\ exists pre, b' = with_rows b pre.
Proof.
  induction rows as [|line rows IH]; intros b b' r l Hrun.
  - injection Hrun as <- <- <-. split; [done|]. exists [].
    by rewrite with_rows_nil.
  - simpl in Hrun. unfold bind at 1 in Hrun.
    rewrite verify_row_run in Hrun.
    destruct (Validation line b) as [e|].
    { injection Hrun as <- <- <-. split; [done|]. exists [].
      by rewrite with_rows_nil. }
    destruct (length line <? 2)%nat.
    { injection Hrun as <- <- <-. split; [done|]. exists [].
      by rewrite with_rows_nil. }
    destruct (forM rows _ (with_rows b [line])) as [[r2 b2] l2] eqn:Hrest.
    injection Hrun as <- <- <-.
    apply IH in Hrest as [-> [pre ->]]. split; [done|].
    exists ([line] ++ pre). by rewrite with_rows_app.
Qed.

Lemma rows_pass_lengths (Validation : Bucket.validator) (b : Bucket.t)
    (rows : list (list string)) :
  rows_pass Validation b rows ->
  Forall (fun line => (2 <= length line)%nat) rows.
Proof.
  intros Hpass. apply Forall_lookup_2. intros i line Hline.
  by destruct (Hpass i line Hline).
Qed.

Lemma VerifyUnzipped_frame `{Env} (Validation : Bucket.validator)
    (b b' : Bucket.t) (r : result unit) (l : list StorageOp) :
  Bucket.VerifyUnzipped Validation b = (r, b', l) ->
  l = [] /\ exists pre, b' = with_rows b pre.
Proof.
  rewrite VerifyUnzipped_run.
  destruct (decide _).
  - intros [= <- <- <-]. split; [done|]. exists [].
    by rewrite with_rows_nil.
  - apply verify_rows_frame.
Qed.

Lemma Bucket_Download_ok `{Env} `{Storage} (Validation : Bucket.validator)
    (b b' : Bucket.t) (l : list StorageOp) :
  Bucket.Download Validation b = (Ok tt, b', l) ->
  Bucket.ZippedHash b = md5_hex (Bucket.ZippedFile b') /\
  zlib_inflate (Bucket.ZippedFile b') = Stream (Bucket.File b') None /\
  Bucket.UnzippedHash b = md5_hex (Bucket.File b') /\
  rows_pass Validation
    (Bucket.set_File (Bucket.File b')
       (Bucket.set_ZippedFile (Bucket.ZippedFile b') b))
    (csv_records (Bucket.File b')) /\
  b' = with_rows
         (Bucket.set_File (Bucket.File b')
            (Bucket.set_ZippedFile (Bucket.ZippedFile b') b))
         (csv_records (Bucket.File b')) /\
  l = [].
Proof.
  destruct (DownloadWriter (Bucket.StorageBucketName b)
              (Bucket.RemoteFilePath b)) as [written e] eqn:Hfetch.
  rewrite (Bucket_Download_run Validation b written e Hfetch).
  intros Hok.
  assert ((Bucket.Unzip ;; Bucket.VerifyUnzipped Validation)
            (Bucket.set_ZippedFile written b) = (Ok tt, b', l)) as Hgo.
  { destruct e as [err|]; [|done].
    by destruct (is_ErrObjectNotExist err). }
  clear Hok. unfold bind in Hgo. rewrite Unzip_run in Hgo.
  change (Bucket.ZippedHash (Bucket.set_ZippedFile written b))
    with (Bucket.ZippedHash b) in Hgo.
  change (Bucket.ZippedFile (Bucket.set_ZippedFile written b))
    with written in Hgo.
  destruct (decide (Bucket.ZippedHash b ≠ md5_hex written)) as [|Hz];
    [done|].
  apply dec_stable in Hz.
  destruct (zlib_inflate written) as [e0|out [e0|]] eqn:Hinf;
    [done|done|].
  rewrite VerifyUnzipped_run in Hgo.
  change (Bucket.UnzippedHash (Bucket.set_File out ?x))
    with (Bucket.UnzippedHash b) in Hgo.
  change (Bucket.File (Bucket.set_File out ?x)) with out in Hgo.
  destruct (decide (Bucket.UnzippedHash b ≠ md5_hex out)) as [|Hu];
    [done|].
  apply dec_stable in Hu.
  destruct (forM _ _ _) as [[r b1] l1] eqn:Hrows.
  injection Hgo as -> -> <-.
  apply verify_rows_ok in Hrows as (Hpass & -> & ->).
  change (Bucket.File (with_rows (Bucket.set_File out ?x) ?rows)) with out.
  change (Bucket.ZippedFile
            (with_rows (Bucket.set_File out
                          (Bucket.set_ZippedFile written b)) ?rows))
    with written.
  rewrite Hinf. by repeat (split; [done|]).
Qed.

Lemma download_bucket_ok `{Env} `{Storage} (Validation : Bucket.validator)
    (b b' : Bucket.t) (m m' : Master.t) (l : list StorageOp) :
  Master.download_bucket Validation (b, m) = (Ok tt, (b', m'), l) ->
  m' = m /\ l = [] /\ loaded_from b b'.
Proof.
  rewrite download_bucket_run.
  destruct (Bucket.VerifyUnzipped Validation (initialised b))
    as [[r b1] l1] eqn:Hlocal.
  destruct r as [[]|e|]; [| |done].
  - intros [= <- <- <-].
    rewrite VerifyUnzipped_run in Hlocal.
    change (Bucket.UnzippedHash (initialised b))
      with (Bucket.UnzippedHash b) in Hlocal.
    destruct (decide _) as [|Hu] in Hlocal; [done|].
    apply dec_stable in Hu.
    apply verify_rows_ok in Hlocal as (Hpass & -> & ->).
    split; [done|]. split; [done|].
    split; [done|]. split; [|split].
    + by apply suffix_app_r.
    + by apply rows_pass_lengths in Hpass.
    + by left.
  - apply VerifyUnzipped_frame in Hlocal as [-> [pre ->]].
    destruct (Bucket.Download Validation _) as [[r2 b2] l2] eqn:Hfetch.
    intros [= -> <- <- <-].
    apply Bucket_Download_ok in Hfetch as (Hz & Hinf & Hu & Hpass & Hb2 & ->).
    split; [done|]. split; [done|].
    split; [done|]. split; [|split].
    + rewrite Hb2 at 2. by apply suffix_app_r.
    + by apply rows_pass_lengths in Hpass.
    + by right.
Qed.

Lemma for_range_ok_inv {E S} (body : M (E * S) unit) (P : E -> E -> Prop) :
  (forall x s x' s' l,
     body (x, s) = (Ok tt, (x', s'), l) -> s' = s /\ l = [] /\ P x x') ->
  forall xs s xs' s' l,
    for_range body xs s = (Ok tt, (xs', s'), l) ->
    s' = s /\ l = [] /\ Forall2 P xs xs'.
Proof.
  intros Hbody. induction xs as [|x xs IH]; intros s xs' s' l Hrun.
  - by injection Hrun as <- <- <-.
  - simpl in Hrun.
    destruct (body (x, s)) as [[r [x1 s1]] l1] eqn:Hx.
    destruct r as [[]| |]; [|done|done].
    destruct (for_range body xs s1) as [[r2 [xs2 s2]] l2] eqn:Hrest.
    injection Hrun as -> <- <- <-.
    apply Hbody in Hx as (-> & -> & HP).
    apply IH in Hrest as (-> & -> & Hall).
    split; [done|]. split; [done|]. by constructor.
Qed.

(** X15. After [DownloadBuckets] returned without an error every shard
    of the master is loaded: its staging file has the digest the master
    recorded for it, every row of that file has at least two columns and
    stands as a patch at the end of the shard's patch list, and the file
    is the local copy, or it is what the fetched artifact inflates to and
    that artifact has the recorded digest.  The call makes no remote
    change and touches nothing of the master but its shards. *)
Theorem DownloadBuckets_loads_verified_shards `{Env} `{Storage}
    (Validation : Bucket.validator) (m m' : Master.t)
    (l : list StorageOp) :
  Master.DownloadBuckets Validation m = (Ok tt, m', l) ->
  l = [] /\
  m' = Master.set_Buckets (Master.Buckets m') m /\
  Forall2 loaded_from (Master.Buckets m) (Master.Buckets m').
Proof.
  unfold Master.DownloadBuckets, Master.range_Buckets.
  destruct (for_range _ (Master.Buckets m) m) as [[r [bs' m1]] l1] eqn:Hloop.
  intros [= -> <- <-].
  apply (for_range_ok_inv (Master.download_bucket Validation) loaded_from)
    in Hloop as (-> & -> & Hall).
  - done.
  - intros b s b' s' l0 Hb. by apply download_bucket_ok in Hb.
Qed.

(** The theorem at a shard without a local copy, fetched from the
    backend. *)
Lemma DownloadBuckets_loads_verified_shards_witness :
  exists m' : Master.t,
    @Master.DownloadBuckets Double.env shard_store Double.accept_all
       described_master = (Ok tt, m', []) /\
    (Bucket.File <$> Master.Buckets m') = ["+,A,1
"] /\
    Forall2 (@loaded_from Double.env) (Master.Buckets described_master)
      (Master.Buckets m').
Proof.
  destruct (@Master.DownloadBuckets Double.env shard_store
              Double.accept_all described_master) as [[r m'] l] eqn:Hrun.
  assert (r = Ok tt) as -> by (vm_compute in Hrun; congruence).
  pose proof (@DownloadBuckets_loads_verified_shards Double.env shard_store
                Double.accept_all described_master m' l Hrun)
    as (-> & _ & Hall).
  exists m'. split; [reflexivity|]. split; [|exact Hall].
  vm_compute in Hrun. by injection Hrun as <-.
Defined.



(** ** CleanupOldLocalFiles *)

Lemma found_in_local_buckets (dir file : string) (bs : list Bucket.t)
    (init : bool) :
  foldl
    (fun found bucket =>
       if bool_decide (file = dir +:+ "/" +:+ Bucket.ZippedFileName bucket)
          || bool_decide (file = dir +:+ "/" +:+ Bucket.FileName bucket)
       then true
       else found)
    init bs = true
  <-> init = true \/
      exists b, b ∈ bs /\
        (file = dir +:+ "/" +:+ Bucket.ZippedFileName b \/
         file = dir +:+ "/" +:+ Bucket.FileName b).
Proof.
  revert init. induction bs as [|b bs IH]; intros init; simpl.
  - split; [by left|]. intros [?|(b & Hb & _)]; [done|].
    by apply elem_of_nil in Hb.
  - rewrite IH. split.
    + intros [Hinit|(b' & Hb' & Hfile)].
      * destruct (bool_decide _ || bool_decide _) eqn:Hhere.
        -- right. exists b. split; [left|].
           apply orb_true_iff in Hhere as [Hz|Hf].
           ++ left. by apply bool_decide_eq_true in Hz.
           ++ right. by apply bool_decide_eq_true in Hf.
        -- by left.
      * right. exists b'. split; [by right|done].
    + intros [->|(b' & Hb' & Hfile)].
      * left. by destruct (_ || _).
      * apply elem_of_cons in Hb' as [->|Hb'].
        -- left. destruct Hfile as [Hz|Hf].
           ++ by rewrite (bool_decide_eq_true_2 _ Hz).
           ++ rewrite (bool_decide_eq_true_2 _ Hf). by rewrite orb_true_r.
        -- right. by exists b'.
Qed.

Lemma found_locally_kept (m : Master.t) (file : string) :
  Master.found_locally m file = true <-> kept_locally m file.
Proof.
  unfold Master.found_locally, kept_locally. cbv zeta.
  destruct (decide (file = Master.Dir m +:+ "/" +:+ Master.FileName m))
    as [Hm|Hm].
  { split; [by right; right|done]. }
  rewrite found_in_local_buckets. split.
  - intros [Hc|Hb]; [left|by right; left].
    destruct (Master.Categories m) as [c|]; [|done].
    destruct (decide (file = Categories.FileName c)); [|done].
    by exists c.
  - intros [(c & Hc & Hfile)|[Hb|Hfile]]; [left|by right|done].
    rewrite Hc. by rewrite decide_True.
Qed.

Lemma sweep_local `{LocalFiles} (m : Master.t) (files : list string) :
  forall removed : list string,
    foldl
      (fun removed file =>
         if negb (Master.found_locally m file) then
           match Remove file with
           | Some _ => removed
           | None => removed ++ [file]
           end
         else removed)
      removed files
    = removed ++
      filter (fun file => negb (Master.found_locally m file)
                          && bool_decide (Remove file = None)) files.
Proof.
  induction files as [|file files IH]; intros removed; simpl.
  - by rewrite app_nil_r.
  - rewrite IH, filter_cons.
    destruct (Master.found_locally m file) eqn:Hfound; cbn [negb andb].
    + rewrite decide_False by (intros Hf; exact Hf). done.
    + destruct (Remove file) as [e|] eqn:Hrm.
      * rewrite bool_decide_eq_false_2 by done.
        rewrite decide_False by (intros Hf; exact Hf). done.
      * rewrite bool_decide_eq_true_2 by done.
        rewrite decide_True by exact I.
        by rewrite <- app_assoc.
Qed.

Lemma CleanupOldLocalFiles_run `{LocalFiles} (m : Master.t)
    (files : list string) :
  Glob (Master.Dir m +:+ "/*") = inr files ->
  exists removed : list string,
    Master.CleanupOldLocalFiles m = (None, removed) /\
    removed `sublist_of` files /\
    forall file,
      file ∈ removed
      <-> file ∈ files /\ ~ kept_locally m file /\ Remove file = None.
Proof.
  unfold Master.CleanupOldLocalFiles.
  intros ->. rewrite sweep_local. cbn [app].
  eexists. split; [reflexivity|].
  split; [apply sublist_filter|].
  intros file. rewrite list_elem_of_filter.
  rewrite andb_True, negb_True, bool_decide_spec.
  rewrite <- found_locally_kept. rewrite Is_true_true. tauto.
Qed.

(** X17. The local sweep returns an error only when the listing of the
    working directory fails, and then removes nothing.  Otherwise it
    returns without an error whatever the removals come to, and the
    files it removed are, in the order of the listing, those whose
    removal went through and whose path is none of: the master file, the
    staging file or the compressed file of a shard (deleted or not), the
    bare name of the categories' staging file.  A removal that fails
    does not stop it. *)
Theorem CleanupOldLocalFiles_removes_what_nobody_owns `{LocalFiles}
    (m : Master.t) :
  (forall e, Glob (Master.Dir m +:+ "/*") = inl e ->
     Master.CleanupOldLocalFiles m = (Some e, [])) /\
  (forall files, Glob (Master.Dir m +:+ "/*") = inr files ->
     exists removed : list string,
       Master.CleanupOldLocalFiles m = (None, removed) /\
       removed `sublist_of` files /\
       forall file,
         file ∈ removed
         <-> file ∈ files /\ ~ kept_locally m file /\ Remove file = None).
Proof.
  split.
  - unfold Master.CleanupOldLocalFiles. by intros e ->.
  - apply CleanupOldLocalFiles_run.
Qed.

(** The theorem at a working directory with the files of a shard, of the
    categories and of the master, a stray file and a stray file that
    cannot be removed. *)
Lemma CleanupOldLocalFiles_removes_what_nobody_owns_witness :
  exists removed : list string,
    @Master.CleanupOldLocalFiles
       (Double.local_files ("/work/locked.tmp" :: work_listing)
          ["/work/locked.tmp"])
       swept_master
    = (None, removed) /\
    removed = ["/work/categories.csv"; "/work/categories.csv.zlib";
               "/work/old.tmp"].
Proof.
  destruct (proj2 (@CleanupOldLocalFiles_removes_what_nobody_owns
                     (Double.local_files
                        ("/work/locked.tmp" :: work_listing)
                        ["/work/locked.tmp"])
                     swept_master)
                  ("/work/locked.tmp" :: work_listing) eq_refl)
    as (removed & Hrun & _).
  exists removed. split; [exact Hrun|].
  vm_compute in Hrun. by injection Hrun as <-.
Defined.

Lemma append_longer (s t : string) : s +:+ "/" +:+ t ≠ t.
Proof.
  intros Heq. apply (f_equal String.length) in Heq.
  rewrite !length_append in Heq. simpl in Heq. lia.
Qed.

(** X18. The local sweep does not pass over the files of the categories.
    It compares a listed path with the bare name of their staging file,
    not with its path in the working directory, and it does not look at
    their compressed file at all: a listed
    [dir/categories.csv] or [dir/categories.csv.zlib] that no shard and
    not the master owns is removed when its removal goes through, with
    the categories configured. *)
Theorem CleanupOldLocalFiles_sweeps_categories_files `{LocalFiles}
    (m : Master.t) (c : Categories.t) (files : list string)
    (file : string) :
  Master.Categories m = Some c ->
  Categories.FileName c = "categories.csv" ->
  file = Master.Dir m +:+ "/" +:+ "categories.csv" \/
  file = Master.Dir m +:+ "/" +:+ "categories.csv.zlib" ->
  Glob (Master.Dir m +:+ "/*") = inr files ->
  file ∈ files ->
  Remove file = None ->
  (forall b, b ∈ Master.Buckets m ->
     file ≠ Master.Dir m +:+ "/" +:+ Bucket.ZippedFileName b /\
     file ≠ Master.Dir m +:+ "/" +:+ Bucket.FileName b) ->
  file ≠ Master.Dir m +:+ "/" +:+ Master.FileName m ->
  file ∈ snd (Master.CleanupOldLocalFiles m).
Proof.
  intros Hc Hname Hfile Hglob Hlisted Hrm Hshards Hmaster.
  destruct (CleanupOldLocalFiles_run m files Hglob)
    as (removed & -> & _ & Hremoved).
  apply Hremoved. split; [done|]. split; [|done].
  intros [(c' & Hc' & Hbare)|[(b & Hb & Hown)|Hown]].
  - rewrite Hc in Hc'. injection Hc' as <-. rewrite Hname in Hbare.
    destruct Hfile as [Hfile|Hfile]; rewrite Hfile in Hbare.
    + by apply append_longer in Hbare.
    + apply (f_equal String.length) in Hbare.
      rewrite !length_append in Hbare. simpl in Hbare. lia.
  - destruct (Hshards b Hb) as [Hz Hf]. by destruct Hown.
  - done.
Qed.

(** The theorem at the staging file of configured categories. *)
Lemma CleanupOldLocalFiles_sweeps_categories_files_witness :
  "/work/categories.csv"
  ∈ snd (@Master.CleanupOldLocalFiles (Double.local_files work_listing [])
           swept_master).
Proof.
  apply (@CleanupOldLocalFiles_sweeps_categories_files
           (Double.local_files work_listing []) swept_master
           (Categories.NewCategories "store" "" "" "/work" "" ""
              [sample_item])
           work_listing "/work/categories.csv").
  - reflexivity.
  - reflexivity.
  - by left.
  - reflexivity.
  - vm_compute. do 2 right. left.
  - reflexivity.
  - intros b Hb. apply list_elem_of_singleton in Hb as ->.
    split; vm_compute; discriminate.
  - vm_compute. discriminate.
Defined.

(** ** A master that starts *)

(** X19. [InitCategories] gives a master without categories new ones,
    without a remote name or a digest, and leaves categories that are
    there (those a download installed, for instance) as they are; a
    second call changes nothing.  The first publish after it uploads the
    new categories whenever the digest of their snapshot is not the empty
    string. *)
Theorem InitCategories_installs_once `{Env} `{Storage}
    (Validation : Bucket.validator) (m : Master.t) :
  (forall c, Master.Categories m = Some c ->
     Master.InitCategories m = (Ok tt, m, [])) /\
  (Master.Categories m = None ->
   Master.InitCategories m
   = (Ok tt, Master.set_Categories (Some (new_categories m)) m, [])) /\
  (Master.InitCategories ;; Master.InitCategories) m
  = Master.InitCategories m /\
  (forall (now : Time) (m1 m' : Master.t) (l log : list StorageOp),
     Master.Categories m = None ->
     Master.InitCategories m = (Ok tt, m1, l) ->
     Master.UploadToStorageBucket Validation now m1 = (Ok tt, m', log) ->
     md5_hex (snapshot_from "" (Master.CategoryItems m)) ≠ "" ->
     exists rest,
       log = OpPut (Master.StorageBucketName m)
               (Master.RemoteDir m +:+ "/" +:+
                relocated (Unix now) "categories.csv.zlib")
               (zlib_compress (snapshot_from "" (Master.CategoryItems m)))
             :: rest).
Proof.
  assert (forall c, Master.Categories m = Some c ->
            Master.InitCategories m = (Ok tt, m, [])) as Hsome.
  { intros c Hc. unfold Master.InitCategories, bind, get.
    cbv beta iota zeta. by rewrite Hc. }
  assert (Master.Categories m = None ->
          Master.InitCategories m
          = (Ok tt, Master.set_Categories (Some (new_categories m)) m, []))
    as Hnone.
  { intros Hc. unfold Master.InitCategories, bind, get.
    cbv beta iota zeta. rewrite Hc. reflexivity. }
  split; [done|]. split; [done|]. split.
  - unfold bind at 1.
    destruct (Master.Categories m) as [c|] eqn:Hc.
    + rewrite (Hsome c eq_refl). by rewrite (Hsome c eq_refl).
    + rewrite (Hnone eq_refl).
      unfold Master.InitCategories, bind, get. cbv beta iota zeta.
      reflexivity.
  - intros now m1 m' l log Hc Hinit Hrun Hsum.
    rewrite (Hnone Hc) in Hinit. injection Hinit as <- <-.
    apply UploadToStorageBucket_ok in Hrun as [_ ->].
    unfold publish_ops.
    cbn [Master.Categories Master.set_Categories].
    unfold categories_ops.
    assert (categories_changed (new_categories m) = true) as ->.
    { unfold categories_changed. by apply bool_decide_eq_true_2. }
    unfold upload_ops. cbn [app]. eexists. reflexivity.
Qed.

(** The theorem at a new master with one item: the publish starts with
    the upload of the categories. *)
Lemma InitCategories_installs_once_witness :
  exists m1 m' rest,
    @Master.InitCategories (Master.NewMaster sample_config)
    = (Ok tt, m1, []) /\
    @Master.UploadToStorageBucket Double.env (Double.storage [] [] [])
       Double.accept_all sample_now m1
    = (Ok tt, m',
       OpPut "store" "patches/5-categories.csv.zlib" "z1,cat,sub,desc
" :: rest).
Proof.
  destruct (Master.InitCategories (Master.NewMaster sample_config))
    as [[r m1] l] eqn:Hinit.
  assert (r = Ok tt /\ l = []) as [-> ->]
    by (vm_compute in Hinit; split; congruence).
  destruct (@Master.UploadToStorageBucket Double.env
              (Double.storage [] [] []) Double.accept_all sample_now m1)
    as [[r' m'] log] eqn:Hrun.
  assert (r' = Ok tt) as ->.
  { vm_compute in Hinit. injection Hinit as <-.
    vm_compute in Hrun. congruence. }
  destruct (proj2 (proj2 (proj2
              (@InitCategories_installs_once Double.env
                 (Double.storage [] [] []) Double.accept_all
                 (Master.NewMaster sample_config))))
              sample_now m1 m' [] log eq_refl Hinit Hrun
              ltac:(vm_compute; discriminate)) as [rest ->].
  exists m1, m', rest. split; [reflexivity|].
  rewrite Hrun. vm_compute. reflexivity.
Defined.

(** X20. A first run: behind [NewMaster] and [Init], the [Download] of a
    private master that the backend does not hold, with a reader that
    finds no row in an empty file, returns without an error and leaves
    the master as [NewMaster] made it, with no shard; and the first
    [AddPatch] then opens the shard numbered 1 and appends the patch to
    it. *)
Theorem first_run_starts_empty `{Env} `{Storage} (now : Time)
    (config : Master.Config) (patch : Patch) :
  Master.ConfigPublic config = false ->
  GetDownloadReader (Master.ConfigStorageBucketName config)
    (Master.ConfigRemoteDir config +:+ "/" +:+ Master.ConfigFileName config)
  = inl ErrObjectNotExist ->
  csv_records "" = [] ->
  (Master.Init ;; Master.Download now) (Master.NewMaster config)
  = (Ok tt, Master.NewMaster config, []) /\
  (Master.Init ;; Master.Download now ;; Master.AddPatch patch)
    (Master.NewMaster config)
  = (Ok tt,
     Master.set_Buckets
       [appended patch (fresh_bucket (Master.NewMaster config) 1)]
       (Master.NewMaster config),
     []).
Proof.
  intros Hprivate Hfetch Hrows.
  assert (Master.Init (Master.NewMaster config)
          = (Ok tt, Master.NewMaster config, [])) as Hinit by reflexivity.
  assert (Master.Download now (Master.NewMaster config)
          = (Ok tt, Master.NewMaster config, [])) as Hdown.
  { unfold Master.Download. unfold bind at 1, get at 1.
    cbv beta iota zeta.
    change (Master.Public (Master.NewMaster config))
      with (Master.ConfigPublic config).
    rewrite Hprivate.
    change (joinPath [Master.RemoteDir (Master.NewMaster config);
                      Master.FileName (Master.NewMaster config)])
      with (Master.ConfigRemoteDir config +:+ "/" +:+
            Master.ConfigFileName config).
    change (Master.StorageBucketName (Master.NewMaster config))
      with (Master.ConfigStorageBucketName config).
    rewrite Hfetch.
    change (negb (Contains (Error ErrObjectNotExist) "object doesn't exist"))
      with false.
    cbv beta iota zeta. unfold ret at 1.
    unfold Master.Download_rows, csv_loop, bind, get, modify.
    cbv beta iota zeta.
    change (Master.File (Master.set_FileOffset 0 (Master.NewMaster config)))
      with "".
    by rewrite Hrows. }
  split.
  - unfold bind. by rewrite Hinit, Hdown.
  - unfold bind at 1. rewrite Hinit. unfold bind at 1. rewrite Hdown.
    rewrite (AddPatch_opens (Master.NewMaster config) patch 0 None);
      [done|reflexivity|done].
Qed.

(** The theorem at a backend that holds nothing. *)
Lemma first_run_starts_empty_witness :
  exists m' : Master.t,
    (@Master.Init ;;
     @Master.Download Double.env (Double.storage [] [] []) sample_now ;;
     @Master.AddPatch Double.env (Sample.Set_ "A" ["1"]))
      (Master.NewMaster sample_config)
    = (Ok tt, m', []) /\
    (Bucket.Number <$> Master.Buckets m') = [1] /\
    (Bucket.Patches <$> Master.Buckets m') = [[Sample.Set_ "A" ["1"]]].
Proof.
  eexists. split.
  - apply (proj2 (@first_run_starts_empty Double.env
                    (Double.storage [] [] []) sample_now sample_config
                    (Sample.Set_ "A" ["1"]) eq_refl eq_refl eq_refl)).
  - split; reflexivity.
Defined.

(** ** A sweep behind a publish *)

Lemma upload_ops_name (public : bool) (bucket name : string)
    (content : bytes) (op : StorageOp) :
  op ∈ upload_ops public bucket name content -> op_name op = name.
Proof.
  unfold upload_ops. intros Hop.
  apply elem_of_cons in Hop as [->|Hop]; [done|].
  destruct public; [|by apply elem_of_nil in Hop].
  by apply list_elem_of_singleton in Hop as ->.
Qed.

Lemma elem_of_concat_inv {A} (x : A) (ls : list (list A)) :
  x ∈ concat ls -> exists l, l ∈ ls /\ x ∈ l.
Proof.
  induction ls as [|l ls IH]; simpl; intros Hx.
  - by apply elem_of_nil in Hx.
  - apply elem_of_app in Hx as [Hx|Hx].
    + exists l. split; [left|done].
    + destruct (IH Hx) as (l' & Hl' & Hx'). exists l'. split; [by right|done].
Qed.

(** The objects a publish writes are the ones the published master
    refers to. *)
Lemma publish_ops_referenced `{Env} (now : Time) (m : Master.t)
    (op : StorageOp) :
  op ∈ publish_ops now m ->
  referenced (published_master now m) (op_name op).
Proof.
  unfold publish_ops. intros Hop.
  apply elem_of_app in Hop as [Hop|Hop];
    [|apply elem_of_app in Hop as [Hop|Hop]].
  - left. destruct (Master.Categories m) as [c|] eqn:Hc;
      [|by apply elem_of_nil in Hop].
    exists (published_categories (Unix now) (Master.RemoteDir m) c).
    split; [cbn [published_master Master.Categories]; by rewrite Hc|].
    unfold categories_ops, published_categories in *.
    destruct (categories_changed c); [|by apply elem_of_nil in Hop].
    by apply upload_ops_name in Hop.
  - right. left.
    apply elem_of_concat_inv in Hop as (ops & Hops & Hop).
    apply list_elem_of_fmap in Hops as (b & -> & Hb).
    exists (published (Unix now) (Master.RemoteDir m) b). split.
    + cbn [published_master Master.Buckets].
      apply list_elem_of_fmap. by exists b.
    + unfold bucket_ops, published in *.
      destruct (Bucket.IsDeleted b); [by apply elem_of_nil in Hop|].
      destruct (Bucket.IsChanged b); [|by apply elem_of_nil in Hop].
      by apply upload_ops_name in Hop.
  - right. right. by apply upload_ops_name in Hop.
Qed.

(** X21. A remote sweep that runs on the master a publish left never
    deletes an object that this publish wrote, whatever the listing and
    the clock say, and whatever else the sweep comes to. *)
Theorem sweep_spares_what_publish_wrote `{Env} `{Storage}
    (Validation : Bucket.validator) (now : Time) (clock : nat -> Time)
    (m m' m'' : Master.t) (log dels : list StorageOp) (r : result unit) :
  Master.UploadToStorageBucket Validation now m = (Ok tt, m', log) ->
  Master.CleanupOldFiles clock m' = (r, m'', dels) ->
  forall op, op ∈ log ->
    OpDelete (Master.StorageBucketName m') (op_name op) ∉ dels.
Proof.
  intros Hrun Hsweep op Hop Hdel.
  apply UploadToStorageBucket_ok in Hrun as [-> ->].
  apply publish_ops_referenced in Hop.
  revert Hsweep. unfold Master.CleanupOldFiles, bind, get.
  cbv beta iota zeta.
  destruct (Ls _ _) as [e|files].
  { intros [= <- <- <-]. by apply elem_of_nil in Hdel. }
  intros Hloop.
  destruct (range_forM _ 0%nat files (published_master now m))
    as [[r1 s1] l1] eqn:Hfiles.
  injection Hloop as <- <- <-. cbn [app] in Hdel.
  apply sweep_loop in Hfiles as (_ & Hops & _).
  destruct (Hops _ Hdel) as (j & file & _ & [= Hname] & Hfound & _).
  rewrite Hname in Hop. apply found_in_master_referenced in Hop.
  congruence.
Qed.

(** The theorem at a listing of two old objects, the artifact the
    publish wrote and the one it superseded: only the superseded one is
    deleted. *)
Lemma sweep_spares_what_publish_wrote_witness :
  exists m' log m'' dels,
    @Master.UploadToStorageBucket Double.env
       (Double.storage []
          [{| Name := "patches/5-1.csv.zlib"; Created := 0 |};
           {| Name := "patches/3-1.csv.zlib"; Created := 0 |}] [])
       Double.accept_all sample_now publish_master_sample
    = (Ok tt, m', log) /\
    @Master.CleanupOldFiles
       (Double.storage []
          [{| Name := "patches/5-1.csv.zlib"; Created := 0 |};
           {| Name := "patches/3-1.csv.zlib"; Created := 0 |}] [])
       (fun _ => sweep_time) m'
    = (Ok tt, m'', dels) /\
    dels = [OpDelete "store" "patches/3-1.csv.zlib"] /\
    OpPut "store" "patches/5-1.csv.zlib" "z+,A,1
" ∈ log.
Proof.
  set (store := Double.storage []
          [{| Name := "patches/5-1.csv.zlib"; Created := 0 |};
           {| Name := "patches/3-1.csv.zlib"; Created := 0 |}] []).
  destruct (@Master.UploadToStorageBucket Double.env store
              Double.accept_all sample_now publish_master_sample)
    as [[r m'] log] eqn:Hrun.
  assert (r = Ok tt) as -> by (vm_compute in Hrun; congruence).
  destruct (@Master.CleanupOldFiles store (fun _ => sweep_time) m')
    as [[r' m''] dels] eqn:Hsweep.
  pose proof (@sweep_spares_what_publish_wrote Double.env store
                Double.accept_all sample_now (fun _ => sweep_time)
                publish_master_sample m' m'' log dels r' Hrun Hsweep)
    as Hspared.
  vm_compute in Hrun. injection Hrun as <- <-.
  vm_compute in Hsweep. injection Hsweep as <- <- <-.
  eexists _, _, _, _. split; [reflexivity|]. split; [reflexivity|].
  split; [reflexivity|]. left.
Defined.

(** ** Download: a master that cannot be fetched *)

(** [strings.Contains] finds a string exactly in the strings that hold
    it between two others. *)
Lemma string_prefix_spec (t s : string) :
  String.prefix t s = true <-> exists q, s = t +:+ q.
Proof.
  revert s. induction t as [|c t IH]; intros s.
  - split; [intros _; by exists s|]. by destruct s.
  - destruct s as [|d s]; cbn [String.prefix].
    + split; [done|]. intros [q Hq]. rewrite append_cons in Hq. done.
    + destruct (ascii_dec c d) as [->|Hne].
      * rewrite IH. split; intros [q Hq]; exists q.
        -- rewrite append_cons. by rewrite Hq.
        -- rewrite append_cons in Hq. by injection Hq.
      * split; [done|]. intros [q Hq]. rewrite append_cons in Hq.
        injection Hq as Hd _. by destruct Hne.
Qed.

Lemma Contains_spec (s t : string) :
  Contains s t = true <-> exists p q, s = p +:+ t +:+ q.
Proof.
  unfold Contains. induction s as [|c s IH].
  - cbn [index]. destruct t as [|d t].
    + split; [intros _; by exists EmptyString, EmptyString|done].
    + split; [done|]. intros (p & q & Hpq).
      destruct p; by rewrite append_cons in Hpq.
  - cbn [index].
    destruct (String.prefix t (String c s)) eqn:Hpre.
    + split; [intros _|done].
      apply string_prefix_spec in Hpre as [q Hq]. by exists EmptyString, q.
    + destruct (index 0 t s) as [n|].
      * split; [intros _|done].
        destruct (proj1 IH eq_refl) as (p & q & ->).
        by exists (String c p), q.
      * split; [done|]. intros (p & q & Hpq). destruct p as [|d p].
        -- assert (String.prefix t (String c s) = true) as Hp
             by (apply string_prefix_spec; by exists q).
           congruence.
        -- rewrite append_cons in Hpq. injection Hpq as _ Hs.
           apply IH. by exists p, q.
Qed.

Lemma append_assoc (s t u : string) : (s +:+ t) +:+ u = s +:+ t +:+ u.
Proof.
  induction s as [|c s IH]; [done|]. rewrite !append_cons. by rewrite IH.
Qed.

Lemma Contains_trans (s t u : string) :
  Contains s t = true -> Contains t u = true -> Contains s u = true.
Proof.
  rewrite !Contains_spec. intros (p & q & ->) (p' & q' & ->).
  exists (p +:+ p'), (q' +:+ q). by rewrite !append_assoc.
Qed.

Lemma Contains_append_r (s t u : string) :
  Contains t u = true -> Contains (s +:+ t) u = true.
Proof.
  rewrite !Contains_spec. intros (p & q & ->).
  exists (s +:+ p), q. by rewrite !append_assoc.
Qed.

(** X22. Whether [Download] goes on after a failed fetch is decided by
    the text of the error alone.  A private master goes on exactly when
    the text holds [object doesn't exist], a public one exactly when it
    holds [404]; it then reads the rows of the master file as it is, from
    its start, and otherwise returns the error with the master untouched.
    The address of a public master ends in the second of the call: when
    the digits of that second hold [404], every error whose text quotes
    the address is passed over, whatever it reports. *)
Theorem Download_goes_on_by_error_text `{Env} `{Storage} (now : Time)
    (m : Master.t) (e : error) :
  (Master.Public m = false ->
   GetDownloadReader (Master.StorageBucketName m)
     (Master.RemoteDir m +:+ "/" +:+ Master.FileName m) = inl e ->
   Master.Download now m
   = if Contains (Error e) "object doesn't exist" then
       Master.Download_rows m
     else (Err e, m, [])) /\
  (Master.Public m = true ->
   http_get (master_url now m) = inl e ->
   Master.Download now m
   = if Contains (Error e) "404" then Master.Download_rows m
     else (Err e, m, [])) /\
  (Master.Public m = true ->
   http_get (master_url now m) = inl e ->
   Contains (Error e) (master_url now m) = true ->
   Contains (Itoa (Unix now)) "404" = true ->
   Master.Download now m = Master.Download_rows m) /\
  Master.Download_rows m
  = csv_loop Master.set_FileOffset (Master.File m) Master.Download_row
      (Master.set_FileOffset 0 m) /\
  Contains (Error ErrObjectNotExist) "object doesn't exist" = true.
Proof.
  assert (Master.Public m = true ->
          http_get (master_url now m) = inl e ->
          Master.Download now m
          = if Contains (Error e) "404" then Master.Download_rows m
            else (Err e, m, [])) as Hpub.
  { intros Hpublic Hfetch.
    unfold Master.Download. unfold bind at 1, get at 1.
    cbv beta iota zeta. rewrite Hpublic.
    fold (master_url now m). rewrite Hfetch. unfold bind at 1.
    destruct (Contains (Error e) "404"); cbn [negb].
    + unfold ret at 1.
      by destruct (Master.Download_rows m) as [[r s] l].
    + reflexivity. }
  split; [|split; [exact Hpub|split; [|split; [|reflexivity]]]].
  - intros Hprivate Hfetch.
    unfold Master.Download. unfold bind at 1, get at 1.
    cbv beta iota zeta. rewrite Hprivate.
    change (joinPath [Master.RemoteDir m; Master.FileName m])
      with (Master.RemoteDir m +:+ "/" +:+ Master.FileName m).
    rewrite Hfetch. unfold bind at 1.
    destruct (Contains (Error e) "object doesn't exist"); cbn [negb].
    + unfold ret at 1.
      by destruct (Master.Download_rows m) as [[r s] l].
    + reflexivity.
  - intros Hpublic Hfetch Hquote Hclock.
    rewrite (Hpub Hpublic Hfetch).
    assert (Contains (Error e) "404" = true) as ->; [|reflexivity].
    apply (Contains_trans _ _ _ Hquote).
    unfold master_url. do 7 apply Contains_append_r. exact Hclock.
  - unfold Master.Download_rows.
    unfold bind at 1, modify at 1. unfold bind at 1, get at 1.
    cbv beta iota zeta.
    by destruct (csv_loop _ _ _ _) as [[r s] l].
Qed.

(** The theorem at a public master that cannot be reached, in a second
    whose digits hold 404 and in one whose digits do not. *)
Lemma Download_goes_on_by_error_text_witness :
  @Master.Download env_offline (Double.storage [] [] []) time_with_404
     public_master
  = (Ok tt, public_master, []) /\
  @Master.Download env_offline (Double.storage [] [] []) time_without_404
     public_master
  = (Err (refused (master_url time_without_404 public_master)),
     public_master, []).
Proof.
  split.
  - assert (Contains
              (Error (refused (master_url time_with_404 public_master)))
              (master_url time_with_404 public_master) = true) as Hquote
      by (vm_compute; reflexivity).
    assert (Contains (Itoa (Unix time_with_404)) "404" = true) as Hclock
      by (vm_compute; reflexivity).
    rewrite (proj1 (proj2 (proj2
      (@Download_goes_on_by_error_text env_offline (Double.storage [] [] [])
         time_with_404 public_master
         (refused (master_url time_with_404 public_master)))))
      eq_refl eq_refl Hquote Hclock).
    vm_compute. reflexivity.
  - rewrite (proj1 (proj2
      (@Download_goes_on_by_error_text env_offline (Double.storage [] [] [])
         time_without_404 public_master
         (refused (master_url time_without_404 public_master))))
      eq_refl eq_refl).
    vm_compute. reflexivity.
Defined.

(** ** From the writer to a reader *)







(** ** Published categories, fetched *)

Lemma snapshot_rows `{Env} (items : list CategoriesItem) :
  forall file : bytes,
    snapshot_from file items = encode_rows file (item_fields <$> items).
Proof.
  induction items as [|d items IH]; intros file; [done|]. apply IH.
Qed.

(** X24. Categories that a publish compressed, hashed and uploaded can be
    fetched by a reader that knows them from their descriptor row: when
    the backend returns the artifact it was given, the codec inflates
    what it compressed and the CSV reader reads the rows that were
    written, [Init] and [Download] go through both digest checks and the
    check of the four columns, and leave the reader with the snapshot of
    the publisher. *)
Theorem published_categories_download `{Env} `{Storage} (unix : Z)
    (remoteDir dir : string) (items : list CategoriesItem)
    (c : Categories.t) :
  let snapshot := snapshot_from "" (Categories.CategoryItems c) in
  let c' := republished_categories unix remoteDir c in
  let reader :=
    described_categories (Categories.StorageBucketName c) remoteDir dir
      items c' in
  DownloadWriter (Categories.StorageBucketName c)
    (Categories.RemoteFilePath c')
  = (Categories.ZippedFile c', None) ->
  zlib_inflate (zlib_compress snapshot) = Stream snapshot None ->
  csv_records snapshot = item_fields <$> Categories.CategoryItems c ->
  snapshot = encode_rows "" (item_fields <$> Categories.CategoryItems c) /\
  (Categories.Init ;; Categories.Download) reader
  = (Ok tt,
     Categories.set_FileOffset 0
       (Categories.set_File snapshot
          (Categories.set_ZippedFileOffset
             (zlib_offset (zlib_compress snapshot))
             (Categories.set_ZippedFile (zlib_compress snapshot) reader))),
     []).
Proof.
  intros snapshot c' reader Hfetch Hcodec Hcsv.
  split; [apply snapshot_rows|].
  unfold bind at 1.
  change (Categories.Init reader) with (Ok tt, reader, @nil StorageOp).
  cbv beta iota.
  rewrite (Categories_Download_run reader (zlib_compress snapshot) None)
    by exact Hfetch.
  cbv beta iota zeta.
  change (Categories.ZippedFileOffset reader) with 0%nat.
  change (Categories.ZippedFile reader) with EmptyString.
  change (Categories.FileOffset reader) with 0%nat.
  change (Categories.File reader) with EmptyString.
  rewrite write_at_0_nil.
  change (Categories.ZippedHash reader)
    with (md5_hex (zlib_compress snapshot)).
  rewrite decide_False by (intros Hne; by apply Hne).
  rewrite Hcodec, write_at_0_nil.
  change (Categories.UnzippedHash reader) with (md5_hex snapshot).
  rewrite decide_False by (intros Hne; by apply Hne).
  rewrite (proj2 (four_columns_find (csv_records snapshot)))
    by (rewrite Hcsv; apply Forall_fmap, Forall_true; done).
  reflexivity.
Qed.

(** The theorem at categories of one item, published in the second 5. *)
Lemma published_categories_download_witness :
  (@Categories.Init ;; @Categories.Download Double.env categories_store)
    (described_categories "store" "patches" "/home" []
       (@republished_categories Double.env 5 "patches"
          (Categories.NewCategories "store" "" "" "/work" "" ""
             [sample_item])))
  = (Ok tt,
     Categories.set_FileOffset 0
       (Categories.set_File "1,cat,sub,desc
"
          (Categories.set_ZippedFileOffset 16
             (Categories.set_ZippedFile "z1,cat,sub,desc
"
                (Categories.NewCategories "store" "5-categories.csv.zlib"
                   "patches/5-categories.csv.zlib" "/home" "md5:16" "md5:15"
                   [])))),
     []).
Proof.
  apply (proj2 (@published_categories_download Double.env categories_store
                  5 "patches" "/home" []
                  (Categories.NewCategories "store" "" "" "/work" "" ""
                     [sample_item])
                  eq_refl eq_refl eq_refl)).
Defined.

(** ** From AddPatch to the next publish *)

(** X25. With the shards in increasing order of positive numbers, the
    shard that took a patch (the last one, or a new one behind it when
    the last one is over the cap) is marked changed, and the next publish
    that goes through uploads it, with the row of the patch at the end of
    what it compresses, unless that shard is flagged deleted. *)
Theorem added_patch_is_published `{Env} `{Storage}
    (Validation : Bucket.validator) (m : Master.t) (patch : Patch)
    (bs : list Bucket.t) (b : Bucket.t) :
  Master.Buckets m = bs ++ [b] ->
  0 < Bucket.Number b < maxInt64 ->
  (forall b', b' ∈ bs -> Bucket.Number b' < Bucket.Number b) ->
  exists (m1 : Master.t) (target : Bucket.t),
    Master.AddPatch patch m = (Ok tt, m1, []) /\
    last (Master.Buckets m1) = Some target /\
    target = appended patch
               (if over_cap b then fresh_bucket m (Bucket.Number b + 1)
                else b) /\
    Bucket.IsChanged target = true /\
    forall (now : Time) (m2 : Master.t) (log : list StorageOp),
      Master.UploadToStorageBucket Validation now m1 = (Ok tt, m2, log) ->
      Bucket.IsDeleted target = false ->
      OpPut (Bucket.StorageBucketName target)
        (Master.RemoteDir m +:+ "/" +:+
         relocated (Unix now) (Bucket.ZippedFileName target))
        (zlib_compress
           (Bucket.File (if over_cap b
                         then fresh_bucket m (Bucket.Number b + 1)
                         else b) +:+
            csv_encode (patch_fields patch))) ∈ log.
Proof.
  intros Hbs Hnum Hlow.
  assert (Master.Buckets m !! length bs = Some b) as Hat.
  { rewrite Hbs. by apply list_lookup_middle. }
  assert (range_fold Master.latest_step 0%nat (Master.Buckets m) (0, None)
          = (Bucket.Number b, Some (length bs, b))) as Hlatest.
  { rewrite (latest_found (Master.Buckets m) 0%nat (0, None) (length bs) b);
      [done|done|simpl; lia|..].
    - intros j b' Hj Hb'. apply Hlow.
      rewrite Hbs, lookup_app_l in Hb' by done.
      by apply list_elem_of_lookup_2 with j.
    - intros b' Hb'. rewrite Hbs in Hb'.
      apply elem_of_app in Hb' as [Hb'|Hb'].
      + apply Hlow in Hb'. lia.
      + apply list_elem_of_singleton in Hb' as ->. lia. }
  set (target := appended patch
                   (if over_cap b then fresh_bucket m (Bucket.Number b + 1)
                    else b)).
  set (bs1 := (if over_cap b then Master.Buckets m else bs) ++ [target]).
  assert (Master.AddPatch patch m = (Ok tt, Master.set_Buckets bs1 m, []))
    as Hadd.
  { subst bs1 target. destruct (over_cap b) eqn:Hcap.
    - rewrite (AddPatch_opens m patch (Bucket.Number b)
                 (Some (length bs, b))) by done.
      rewrite wrap64_in_range; [done|]. unfold minInt64, maxInt64 in *. lia.
    - rewrite (AddPatch_appends m patch (Bucket.Number b) (length bs) b)
        by done.
      by rewrite Hbs, insert_last. }
  exists (Master.set_Buckets bs1 m), target.
  split; [done|]. split; [apply last_snoc|]. split; [done|].
  split; [reflexivity|].
  intros now m2 log Hrun Hlive.
  apply UploadToStorageBucket_ok in Hrun as [_ ->].
  apply (bucket_ops_in_publish_ops now (Master.set_Buckets bs1 m)
           (length (if over_cap b then Master.Buckets m else bs)) target).
  - cbn [Master.Buckets Master.set_Buckets]. subst bs1.
    by apply list_lookup_middle.
  - unfold bucket_ops. rewrite Hlive.
    change (Bucket.IsChanged target) with true.
    cbv beta iota. left.
Qed.

(** The theorem at the replay example: the patch goes to the shard
    numbered 2, which the publish uploads. *)
Lemma added_patch_is_published_witness :
  exists (m1 m2 : Master.t) (log : list StorageOp),
    @Master.AddPatch Double.env (Sample.Set_ "D" ["4"]) Sample.replay_master
    = (Ok tt, m1, []) /\
    @Master.UploadToStorageBucket Double.env (Double.storage [] [] [])
       Double.accept_all sample_now m1 = (Ok tt, m2, log) /\
    OpPut "store" "patches/5-2.csv.zlib" "z+,D,4
" ∈ log.
Proof.
  destruct (@added_patch_is_published Double.env (Double.storage [] [] [])
              Double.accept_all Sample.replay_master (Sample.Set_ "D" ["4"])
              [Sample.bucket 1 [Sample.Set_ "A" ["1"]; Sample.Set_ "B" ["2"];
                                Sample.Delete_ "A"]]
              (Sample.bucket 2 [Sample.ClearAll; Sample.Set_ "C" ["3"]])
              eq_refl)
    as (m1 & target & Hadd & _ & Htarget & _ & Hput).
  - vm_compute. split; reflexivity.
  - intros b' Hb'. apply list_elem_of_singleton in Hb' as ->.
    vm_compute. reflexivity.
  - destruct (@Master.UploadToStorageBucket Double.env
                (Double.storage [] [] []) Double.accept_all sample_now m1)
      as [[r m2] log] eqn:Hrun.
    assert (r = Ok tt) as ->.
    { assert (m1 = snd (fst (@Master.AddPatch Double.env
                               (Sample.Set_ "D" ["4"])
                               Sample.replay_master))) as ->
        by (by rewrite Hadd).
      vm_compute in Hrun. congruence. }
    exists m1, m2, log. split; [exact Hadd|]. split; [exact Hrun|].
    specialize (Hput sample_now m2 log Hrun).
    rewrite Htarget in Hput. specialize (Hput eq_refl).
    vm_compute in Hput. exact Hput.
Defined.

(** ** Download: the columns it reads *)

Lemma idx_eq (line line' : list string) (i : nat) :
  line !! i = line' !! i -> idx line i = idx line' i.
Proof. unfold idx. by intros ->. Qed.

(** X26. [Download] reads the first, second, fourth, fifth and sixth
    column of a row of six columns, and of a categories row (one whose
    first column reads as -1) not the sixth either: the third column,
    where a publish writes [zlib], is never looked at, and two rows that
    differ only in the columns that are not read come to the same. *)
Theorem Download_row_reads_five_columns `{Env} `{Storage}
    (line line' : list string) (m : Master.t) :
  length line = 6%nat -> length line' = 6%nat ->
  (forall i, i ≠ 2%nat ->
     (i = 5%nat -> fst (Atoi (idx line 0)) ≠ -1) ->
     line !! i = line' !! i) ->
  Master.Download_row line m = Master.Download_row line' m.
Proof.
  intros Hlen Hlen' Hsame.
  assert (idx line 0 = idx line' 0) as Hc0
    by (apply idx_eq, Hsame; [done|intros [=]]).
  assert (idx line 1 = idx line' 1) as Hc1
    by (apply idx_eq, Hsame; [done|intros [=]]).
  assert (idx line 3 = idx line' 3) as Hc3
    by (apply idx_eq, Hsame; [done|intros [=]]).
  assert (idx line 4 = idx line' 4) as Hc4
    by (apply idx_eq, Hsame; [done|intros [=]]).
  unfold Master.Download_row.
  rewrite Hlen, Hlen'.
  rewrite !(decide_False (P := 6%nat = 3%nat)) by done.
  rewrite !(decide_True (P := 6%nat = 6%nat)) by done.
  cbv zeta. rewrite <- Hc0, <- Hc1, <- Hc3, <- Hc4.
  destruct (decide (fst (Atoi (idx line 0)) = -1)) as [|Hshard]; [done|].
  assert (idx line 5 = idx line' 5) as Hc5
    by (apply idx_eq, Hsame; done).
  by rewrite <- Hc5.
Qed.

(** The theorem at two rows of a shard that differ in the third column. *)
Lemma Download_row_reads_five_columns_witness :
  @Master.Download_row Double.env (Double.storage [] [] [])
     ["1"; "p"; "zlib"; "a"; "b"; "7"] (Sample.master [])
  = @Master.Download_row Double.env (Double.storage [] [] [])
      ["1"; "p"; "gzip"; "a"; "b"; "7"] (Sample.master []).
Proof.
  apply (@Download_row_reads_five_columns Double.env
           (Double.storage [] [] [])
           ["1"; "p"; "zlib"; "a"; "b"; "7"]
           ["1"; "p"; "gzip"; "a"; "b"; "7"] (Sample.master [])
           eq_refl eq_refl).
  intros i Hi _.
  destruct i as [|[|[|[|[|[|i]]]]]]; try reflexivity. done.
Defined.

(** X27. A row whose first column reads as -1 makes [Download] install
    categories with the path and the digests of the row and the items of
    the master, before anything of them is verified, and then run their
    [Init] and [Download]: the row comes to what those come to, and the
    categories stay installed, as the attempt left them, when it
    fails. *)
Theorem Download_row_installs_categories_first `{Env} `{Storage}
    (line : list string) (m : Master.t) :
  length line = 6%nat ->
  fst (Atoi (idx line 0)) = -1 ->
  let c0 :=
    Categories.NewCategories (Master.StorageBucketName m) (idx line 1)
      (Master.RemoteDir m +:+ "/" +:+ idx line 1) (Master.Dir m)
      (idx line 3) (idx line 4) (Master.CategoryItems m) in
  Master.Download_row line m
  = (fst (fst ((Categories.Init ;; Categories.Download) c0)),
     Master.set_Categories
       (Some (snd (fst ((Categories.Init ;; Categories.Download) c0)))) m,
     snd ((Categories.Init ;; Categories.Download) c0)).
Proof.
  intros Hlen Hcat c0. subst c0.
  unfold Master.Download_row.
  rewrite decide_False by (rewrite Hlen; done).
  rewrite decide_True by done. cbv zeta.
  rewrite decide_True by done.
  unfold bind, get, modify, Master.on_Categories, zoom.
  cbv beta iota zeta.
  change (joinPath [Master.RemoteDir m; idx line 1])
    with (Master.RemoteDir m +:+ "/" +:+ idx line 1).
  set (c0 := Categories.NewCategories _ _ _ _ _ _ _).
  cbn [Master.Categories Master.set_Categories default from_option].
  unfold id.
  change (Categories.Init c0) with (Ok tt, c0, @nil StorageOp).
  cbv beta iota zeta.
  cbn [Master.Categories Master.set_Categories default from_option].
  unfold id.
  destruct (Categories.Download c0) as [[r c1] l1].
  cbn [fst snd app]. by destruct r.
Qed.

(** The theorem at a categories row whose artifact the backend does not
    hold: the digest check fails and the categories stay installed. *)
Lemma Download_row_installs_categories_first_witness :
  @Master.Download_row Double.env (Double.storage [] [] [])
     ["-1"; "5-categories.csv.zlib"; "zlib"; "md5:16"; "md5:15"; "1"]
     (Sample.master [])
  = (Err (ErrInvalidZippedChecksum "patches/5-categories.csv.zlib"),
     Master.set_Categories
       (Some (Categories.NewCategories "store" "5-categories.csv.zlib"
                "patches/5-categories.csv.zlib" "/work" "md5:16" "md5:15"
                []))
       (Sample.master []),
     []).
Proof.
  rewrite (@Download_row_installs_categories_first Double.env
             (Double.storage [] [] [])
             ["-1"; "5-categories.csv.zlib"; "zlib"; "md5:16"; "md5:15"; "1"]
             (Sample.master []) eq_refl eq_refl).
  vm_compute. reflexivity.
Defined.

(** ** The handle of the master file between a publish and a download *)

Lemma publish_bucket_quiet `{Env} `{Storage} (Validation : Bucket.validator)
    (b : Bucket.t) (m : Master.t) :
  Bucket.IsDeleted b = true \/ Bucket.IsChanged b = false ->
  Master.FileOffset m = String.length (Master.File m) ->
  Master.publish_bucket Validation (b, m)
  = (Ok tt, (b, filled (write_rows (Master.File m) [b]) m), []).
Proof.
  intros Hquiet Hend.
  unfold Master.publish_bucket, write_rows.
  unfold bind at 1, get at 1. cbv beta iota zeta. cbn [fst snd foldl].
  destruct (Bucket.IsDeleted b) eqn:Hdel.
  { unfold ret. by rewrite filled_same. }
  destruct Hquiet as [|Hch]; [done|]. rewrite Hch.
  unfold bind, zoom, ret, get. cbv beta iota zeta. cbn [fst snd].
  by rewrite Master_write_File_end.
Qed.

Lemma publish_loop_quiet `{Env} `{Storage} (Validation : Bucket.validator)
    (bs : list Bucket.t) :
  forall m : Master.t,
    (forall b, b ∈ bs ->
       Bucket.IsDeleted b = true \/ Bucket.IsChanged b = false) ->
    Master.FileOffset m = String.length (Master.File m) ->
    for_range (Master.publish_bucket Validation) bs m
    = (Ok tt, (bs, filled (write_rows (Master.File m) bs) m), []).
Proof.
  induction bs as [|b bs IH]; intros m Hquiet Hend.
  - cbn [for_range].
    assert (filled (write_rows (Master.File m) []) m = m) as ->
      by (by apply filled_same).
    reflexivity.
  - cbn [for_range].
    rewrite publish_bucket_quiet by (try done; apply Hquiet; left).
    rewrite IH; [reflexivity| |reflexivity].
    intros b' Hb'. apply Hquiet. by right.
Qed.

Lemma published_quiet `{Env} (unix : Z) (remoteDir : string)
    (bs : list Bucket.t) :
  (forall b, b ∈ bs ->
     Bucket.IsDeleted b = true \/ Bucket.IsChanged b = false) ->
  published unix remoteDir <$> bs = bs.
Proof.
  induction bs as [|b bs IH]; intros Hquiet; [done|].
  rewrite fmap_cons, IH by (intros b' Hb'; apply Hquiet; by right).
  f_equal. unfold published.
  destruct (Hquiet b ltac:(left)) as [-> | ->]; [done|].
  by destruct (Bucket.IsDeleted b).
Qed.

(** X28. Where the next [Download] writes depends on how the last
    publish ended.  On a master without categories whose shards are all
    unchanged or flagged deleted, a publish that is refused the writer
    for the document leaves the document in the master file and the
    handle at its start, one whose copy into the writer fails leaves the
    handle where the copy had read to, and one that goes through leaves
    it at the end.  [Download] does not seek before it writes: behind the
    refused writer it writes the fetched bytes over the document from its
    start, and what the document holds behind them stays in the file and
    is read with them; behind a publish that went through it writes them
    behind the document. *)
Theorem Download_writes_where_publish_left_the_handle `{Env} `{Storage}
    (Validation : Bucket.validator) (now later : Time) (m : Master.t)
    (body : bytes) :
  Master.Categories m = None ->
  (forall b, b ∈ Master.Buckets m ->
     Bucket.IsDeleted b = true \/ Bucket.IsChanged b = false) ->
  Master.Public m = false ->
  GetDownloadReader (Master.StorageBucketName m)
    (Master.RemoteDir m +:+ "/" +:+ Master.FileName m) = inr body ->
  let name := Master.RemoteDir m +:+ "/" +:+ Master.FileName m in
  let m' := published_master now m in
  let document := Master.File m' in
  (forall e,
     GetUploadWriter (Master.StorageBucketName m) name = Some e ->
     Master.UploadToStorageBucket Validation now m
     = (Err e, Master.set_FileOffset 0 m', []) /\
     Master.Download later (Master.set_FileOffset 0 m')
     = Master.Download_rows
         (Master.set_FileOffset (String.length body)
            (Master.set_File (write_at 0 document body) m')) /\
     (body ≠ EmptyString ->
      write_at 0 document body
      = body +:+ skip (String.length body) document)) /\
  (forall e,
     GetUploadWriter (Master.StorageBucketName m) name = None ->
     WriterCopyClose (Master.StorageBucketName m) name document = Some e ->
     Master.UploadToStorageBucket Validation now m
     = (Err e,
        Master.set_FileOffset
          (WriterCopied (Master.StorageBucketName m) name document) m',
        [])) /\
  (forall m2 log,
     Master.UploadToStorageBucket Validation now m = (Ok tt, m2, log) ->
     m2 = m' /\
     Master.Download later m2
     = Master.Download_rows
         (Master.set_FileOffset
            (String.length document + String.length body)
            (Master.set_File (document +:+ body) m'))).
Proof.
  intros Hcat Hquiet Hprivate Hfetch name m' document.
  assert (forall off,
            Master.Download later (Master.set_FileOffset off m')
            = Master.Download_rows
                (Master.set_FileOffset (off + String.length body)
                   (Master.set_File (write_at off document body) m')))
    as Hdown.
  { intros off. unfold Master.Download. unfold bind at 1, get at 1.
    cbv beta iota zeta.
    change (Master.Public (Master.set_FileOffset off m'))
      with (Master.Public m).
    rewrite Hprivate.
    change (joinPath [Master.RemoteDir (Master.set_FileOffset off m');
                      Master.FileName (Master.set_FileOffset off m')])
      with (Master.RemoteDir m +:+ "/" +:+ Master.FileName m).
    change (Master.StorageBucketName (Master.set_FileOffset off m'))
      with (Master.StorageBucketName m).
    rewrite Hfetch.
    unfold bind at 1, Master.write_File, modify at 1.
    by destruct (Master.Download_rows _) as [[r s] l]. }
  assert (Master.UploadToStorageBucket Validation now m
          = Master.publish_master m') as Hpub.
  { rewrite UploadToStorageBucket_start.
    unfold bind at 1, get at 1. cbv beta iota zeta.
    change (Master.Categories (filled ?f (Master.set_DateTime ?d
              (Master.set_UnixTime ?u m)))) with (Master.Categories m).
    rewrite Hcat. unfold bind at 1, ret at 1.
    unfold bind at 1, Master.range_Buckets at 1.
    change (Master.Buckets (filled ?f (Master.set_DateTime ?d
              (Master.set_UnixTime ?u m)))) with (Master.Buckets m).
    rewrite publish_loop_quiet by done.
    match goal with
    | |- context [Master.publish_master ?s] =>
        assert (s = m') as ->
    end.
    { subst m'. unfold published_master, document_head.
      rewrite Hcat, published_quiet by done.
      destruct m. cbn in Hcat. subst. reflexivity. }
    by destruct (Master.publish_master m') as [[r s] l]. }
  assert (Master.publish_master m'
          = match GetUploadWriter (Master.StorageBucketName m) name with
            | Some e => (Err e, Master.set_FileOffset 0 m', [])
            | None =>
                match WriterCopyClose (Master.StorageBucketName m) name
                        document with
                | Some e =>
                    (Err e,
                     Master.set_FileOffset
                       (WriterCopied (Master.StorageBucketName m) name
                          document) m', [])
                | None =>
                    (Ok tt, m',
                     [OpPut (Master.StorageBucketName m) name document])
                end
            end) as Hlast.
  { unfold Master.publish_master, bind, get, modify, check, emit, fail, ret.
    cbv beta iota zeta.
    change (joinPath [Master.RemoteDir (Master.set_FileOffset 0 m');
                      Master.FileName (Master.set_FileOffset 0 m')])
      with name.
    change (Master.StorageBucketName (Master.set_FileOffset 0 m'))
      with (Master.StorageBucketName m).
    change (Master.File (Master.set_FileOffset 0 m')) with document.
    change (Master.Public (Master.set_FileOffset 0 m'))
      with (Master.Public m).
    rewrite Hprivate.
    destruct (GetUploadWriter _ _); [reflexivity|].
    destruct (WriterCopyClose _ _ _); reflexivity. }
  split; [|split].
  - intros e Hwriter. split; [|split].
    + by rewrite Hpub, Hlast, Hwriter.
    + apply (Hdown 0%nat).
    + intros Hbody. by destruct body.
  - intros e Hwriter Hcopy. by rewrite Hpub, Hlast, Hwriter, Hcopy.
  - intros m2 log Hrun.
    apply UploadToStorageBucket_ok in Hrun as [-> _]. split; [done|].
    rewrite <- (write_at_end document body).
    apply (Hdown (String.length document)).
Qed.

(** The theorem at a master with one unchanged shard and a backend that
    holds an older document of a header row only: behind the refused
    publish the download leaves the fetched header row followed by the
    shard row of the document that was not published. *)
Lemma Download_writes_where_publish_left_the_handle_witness :
  exists m1 m2 : Master.t,
    @Master.UploadToStorageBucket Double.env
       (read_only_storage [("patches/master.csv", "V1,4,4
")])
       Double.accept_all sample_now quiet_master
    = (Err (ErrMessage "googleapi: Error 403: Forbidden"), m1, []) /\
    Master.File m1 = "V1,5,5
2,3-2.csv.zlib,zlib,md5:7,md5:6,1
" /\
    @Master.Download Double.env
       (read_only_storage [("patches/master.csv", "V1,4,4
")])
       later_now m1
    = (Ok tt, m2, []) /\
    Master.File m2 = "V1,4,4
2,3-2.csv.zlib,zlib,md5:7,md5:6,1
" /\
    Master.UnixTime m2 = 4 /\
    (Bucket.Number <$> Master.Buckets m2) = [2; 2].
Proof.
  set (store := read_only_storage [("patches/master.csv", "V1,4,4
")]).
  destruct (proj1 (@Download_writes_where_publish_left_the_handle
                     Double.env store Double.accept_all sample_now
                     later_now quiet_master "V1,4,4
" eq_refl
                     ltac:(intros b Hb;
                           apply list_elem_of_singleton in Hb as ->;
                           by right)
                     eq_refl eq_refl)
             (ErrMessage "googleapi: Error 403: Forbidden") eq_refl)
    as (Hrun & Hdown & _).
  eexists _, _. split; [exact Hrun|]. split; [reflexivity|].
  rewrite Hdown. vm_compute. repeat split; reflexivity.
Defined.
